(** * PatchEval: the real-time stream monitor

    A shallow embedding of [patcheval/exp_agent/geminicli/patcheval/stream_monitor.py]
    (classes [RealTimeStreamMonitor], [ProcessStreamReader] and
    [EnhancedProcessStreamReader]) and the properties of the monitor's
    ledgers, of its line-ingestion pipeline and of the readers built on it.

    Conventions of the embedding.
    - A Python [str] is a Rocq [string]: characters are the 256 code points
      of [ascii] (Latin-1).
    - A Python [int] is a [Z], a Python [float] is a primitive binary64
      [float]; the two meet in [pynum].
    - A [dict] used as a map is a [gmap]; a decoded JSON object is an
      association list, since its keys come in document order. The keys of
      [tool_calls] are whatever the events name as a tool: a [pykey].
    - A method that can raise is a computation in the monad [M]: it returns
      an [outcome] together with the monitor as the exception left it, so
      that a [try]/[except] sees the updates made before the [raise].
    - [json.loads] is the standard library's: the monitor is parametrised by
      a [JsonDecoder], and [py_json] is the decoder used to evaluate
      examples.
    - A stop callback is a function of the client, known here by a name;
      the monitor records which callback it called with which reason. *)

From Stdlib Require Import ZArith Floats String Ascii List Lia.
From stdpp Require Import gmap strings.

Local Open Scope Z_scope.

(** ** Python values *)

Module Py.

(** The exceptions that can travel through the monitor. *)
Inductive exn :=
| JSONDecodeError
| AttributeError
| TypeError
| OverflowError
| ValueError
| RecursionError.

Inductive outcome (A : Type) :=
| Return (a : A)
| Raise (e : exn).
Arguments Return {A} a.
Arguments Raise {A} e.

Definition is_decode_error (e : exn) : bool :=
  match e with JSONDecodeError => true | _ => false end.

(** [int] and [float]. *)
Inductive pynum :=
| PyInt (z : Z)
| PyFloat (f : float).

(** What [json.loads] builds. *)
#[local] Set Warnings "-register-all".
Inductive pyval :=
| PNone
| PBool (b : bool)
| PNum (n : pynum)
| PStr (s : string)
| PList (l : list pyval)
| PDict (d : list (string * pyval)).

(** [bool(v)] *)
Definition truthy (v : pyval) : bool :=
  match v with
  | PNone => false
  | PBool b => b
  | PNum (PyInt z) => negb (z =? 0)
  | PNum (PyFloat f) => negb (PrimFloat.eqb f 0%float)
  | PStr s => negb (String.eqb s EmptyString)
  | PList l => match l with [] => false | _ => true end
  | PDict d => match d with [] => false | _ => true end
  end.

(** [d.get(key, default)] on a decoded object; [AttributeError] on
    anything that is not a [dict]. *)
Fixpoint assoc_get (d : list (string * pyval)) (key : string) : option pyval :=
  match d with
  | [] => None
  | (k, v) :: d' => if String.eqb k key then Some v else assoc_get d' key
  end.

Definition py_get (v : pyval) (key : string) (default : pyval) : outcome pyval :=
  match v with
  | PDict d => Return (match assoc_get d key with Some x => x | None => default end)
  | _ => Raise AttributeError
  end.

(** [d[key] = v] while decoding: a repeated key keeps its first position
    and takes the last value. *)
Fixpoint assoc_set (d : list (string * pyval)) (key : string) (v : pyval)
  : list (string * pyval) :=
  match d with
  | [] => [(key, v)]
  | (k, x) :: d' =>
      if String.eqb k key then (k, v) :: d' else (k, x) :: assoc_set d' key v
  end.

(** The operand of an arithmetic operator or of an ordering with a
    number: [bool] is a subclass of [int], everything else that JSON can
    produce raises [TypeError]. *)
Definition as_number (v : pyval) : outcome pynum :=
  match v with
  | PBool b => Return (PyInt (if b then 1 else 0))
  | PNum n => Return n
  | _ => Raise TypeError
  end.

(** *** Keys of a dictionary *)

(** What a [dict] can have as a key among the values that JSON yields:
    [None], numbers and strings. Keys that are equal are one key, so [True]
    is the key 1 and a float that is an integer is the key of that integer;
    the other floats (fractions, the infinities, and [nan], of which [json]
    builds one object only) are keys of their own. *)
Inductive pykey :=
| KNone
| KInt (z : Z)
| KFloat (f : spec_float)
| KStr (s : string).

#[export] Instance spec_float_eq_dec : EqDecision spec_float.
Proof. solve_decision. Defined.

#[export] Instance spec_float_countable : Countable spec_float.
Proof.
  refine (inj_countable'
    (fun f => match f with
              | S754_zero s => inl (inl s)
              | S754_infinity s => inl (inr s)
              | S754_nan => inr (inl tt)
              | S754_finite s m e => inr (inr (s, m, e))
              end)
    (fun x => match x with
              | inl (inl s) => S754_zero s
              | inl (inr s) => S754_infinity s
              | inr (inl _) => S754_nan
              | inr (inr (s, m, e)) => S754_finite s m e
              end) _).
  intros []; reflexivity.
Defined.

#[export] Instance pykey_eq_dec : EqDecision pykey.
Proof. solve_decision. Defined.

#[export] Instance pykey_countable : Countable pykey.
Proof.
  refine (inj_countable'
    (fun k => match k with
              | KNone => inl (inl tt)
              | KInt z => inl (inr z)
              | KFloat f => inr (inl f)
              | KStr s => inr (inr s)
              end)
    (fun x => match x with
              | inl (inl _) => KNone
              | inl (inr z) => KInt z
              | inr (inl f) => KFloat f
              | inr (inr s) => KStr s
              end) _).
  intros []; reflexivity.
Defined.

(** The key of a float: the integer it equals, when it equals one. *)
Definition float_key (f : float) : pykey :=
  match Prim2SF f with
  | S754_zero _ => KInt 0
  | S754_finite negative m e =>
      let v := if negative then Zneg m else Zpos m in
      if 0 <=? e then KInt (v * 2 ^ e)
      else if v mod 2 ^ (- e) =? 0 then KInt (v / 2 ^ (- e))
      else KFloat (S754_finite negative m e)
  | other => KFloat other
  end.

(** [hash(v)], asked of a value that is used as a key: a list and a dict
    cannot be hashed. *)
Definition hashable (v : pyval) : outcome pykey :=
  match v with
  | PNone => Return KNone
  | PBool b => Return (KInt (if b then 1 else 0))
  | PNum (PyInt z) => Return (KInt z)
  | PNum (PyFloat f) => Return (float_key f)
  | PStr s => Return (KStr s)
  | PList _ | PDict _ => Raise TypeError
  end.

(** *** Writing an integer *)

(** CPython writes an [int] of at most 4300 decimal digits, the default of
    [sys.set_int_max_str_digits]: the least magnitude that it refuses is
    ten to the power of 4300. *)
Definition int_max_str_digits : Z := 4300.

Definition int_str_limit : Z := Eval vm_compute in (10 ^ 4300).

(** [f"{n}"] for an [int]: [ValueError] beyond the limit. *)
Definition format_int (n : Z) : outcome unit :=
  if int_str_limit <=? Z.abs n then Raise ValueError else Return tt.

(** *** Arithmetic *)

(** The least magnitude that rounds to infinity in binary64: an [int] of
    at least this size raises [OverflowError] on conversion. *)
Definition float_overflow_threshold : Z := 2 ^ 1024 - 2 ^ 970.

Definition raw_float (z : Z) : spec_float :=
  match z with
  | Z0 => S754_zero false
  | Zpos p => S754_finite false p 0
  | Zneg p => S754_finite true p 0
  end.

(** [float(z)], correctly rounded. *)
Definition float_of_int (z : Z) : outcome float :=
  if float_overflow_threshold <=? Z.abs z then Raise OverflowError
  else Return (SF2Prim (binary_normalize prec emax z 0 false)).

(** [a / b] on two [int]s with [b <> 0]: the correctly rounded quotient. *)
Definition int_truediv (a b : Z) : outcome float :=
  if Z.abs b * float_overflow_threshold <=? Z.abs a then Raise OverflowError
  else Return (SF2Prim (SFdiv prec emax (raw_float a) (raw_float b))).

(** [x > 0] *)
Definition gt_zero (x : pynum) : bool :=
  match x with
  | PyInt z => 0 <? z
  | PyFloat f => PrimFloat.ltb 0%float f
  end.

(** [x + y] *)
Definition py_add (x y : pynum) : outcome pynum :=
  match x, y with
  | PyInt a, PyInt b => Return (PyInt (a + b))
  | PyInt a, PyFloat g =>
      match float_of_int a with
      | Return f => Return (PyFloat (PrimFloat.add f g))
      | Raise e => Raise e
      end
  | PyFloat f, PyInt b =>
      match float_of_int b with
      | Return g => Return (PyFloat (PrimFloat.add f g))
      | Raise e => Raise e
      end
  | PyFloat f, PyFloat g => Return (PyFloat (PrimFloat.add f g))
  end.

(** [x / 1_000_000] *)
Definition per_million (x : pynum) : outcome float :=
  match x with
  | PyInt a => int_truediv a 1000000
  | PyFloat f => Return (PrimFloat.div f 1000000%float)
  end.

End Py.
Export Py.

(** ** Python string methods *)

Module PyStr.

(** A quote cannot stand inside a literal here, so JSON text is written
    with apostrophes and [js] turns every apostrophe into a quote:
    [js "{'type':'user'}"] is the text of the JSON object with key type and
    value user. *)
Definition dquote : ascii := ascii_of_nat 34.
Definition squote : ascii := ascii_of_nat 39.

Fixpoint js (s : string) : string :=
  match s with
  | EmptyString => EmptyString
  | String c s' => String (if Ascii.eqb c squote then dquote else c) (js s')
  end.

(** [len(s)] *)
Definition len (s : string) : Z := Z.of_nat (String.length s).

(** [c.isspace()] below U+0100, which is also what [\s] matches. *)
Definition isspace (c : ascii) : bool :=
  let n := N_of_ascii c in
  ((9 <=? n) && (n <=? 13) || (28 <=? n) && (n <=? 32) || (n =? 133) || (n =? 160))%N.

Fixpoint lstrip (s : string) : string :=
  match s with
  | String c s' => if isspace c then lstrip s' else s
  | EmptyString => EmptyString
  end.

Fixpoint rev_onto (s acc : string) : string :=
  match s with
  | EmptyString => acc
  | String c s' => rev_onto s' (String c acc)
  end.

Definition reverse (s : string) : string := rev_onto s EmptyString.

Definition rstrip (s : string) : string := reverse (lstrip (reverse s)).

(** [s.strip()] *)
Definition strip (s : string) : string := rstrip (lstrip s).

(** [s.startswith(p)] *)
Fixpoint startswith (s p : string) : bool :=
  match p, s with
  | EmptyString, _ => true
  | String a p', String b s' => Ascii.eqb a b && startswith s' p'
  | String _ _, EmptyString => false
  end.

(** [s.endswith(p)] *)
Definition endswith (s p : string) : bool := startswith (reverse s) (reverse p).

(** [s[n:]] *)
Fixpoint slice_from (n : nat) (s : string) : string :=
  match n, s with
  | O, _ => s
  | S n', String _ s' => slice_from n' s'
  | S _, EmptyString => EmptyString
  end.

(** [s[:n]] *)
Fixpoint slice_to (n : nat) (s : string) : string :=
  match n, s with
  | O, _ => EmptyString
  | S n', String c s' => String c (slice_to n' s')
  | S _, EmptyString => EmptyString
  end.

(** [s.find(sub)]: the least index at which [sub] starts, [None] for
    Python's -1. *)
Fixpoint find_from (i : nat) (s sub : string) : option nat :=
  if startswith s sub then Some i
  else match s with
       | EmptyString => None
       | String _ s' => find_from (S i) s' sub
       end.

Definition find (s sub : string) : option nat := find_from 0 s sub.

(** [sub in s] *)
Definition contains (s sub : string) : bool :=
  match find s sub with Some _ => true | None => false end.

(** [s.count(c)] for a one-character [c] *)
Fixpoint count (s : string) (c : ascii) : Z :=
  match s with
  | EmptyString => 0
  | String a s' => (if Ascii.eqb a c then 1 else 0) + count s' c
  end.

(** [s.split(c)] for a one-character separator: never empty. *)
Fixpoint split (c : ascii) (s : string) : list string :=
  match s with
  | EmptyString => [EmptyString]
  | String a s' =>
      if Ascii.eqb a c then EmptyString :: split c s'
      else match split c s' with
           | piece :: pieces => String a piece :: pieces
           | [] => [String a EmptyString]
           end
  end.

(** [c.isdigit()] below U+0100: the ten digits and the superscripts
    two, three and one. *)
Definition isdigit_char (c : ascii) : bool :=
  let n := N_of_ascii c in
  ((48 <=? n) && (n <=? 57) || (n =? 178) || (n =? 179) || (n =? 185))%N.

Fixpoint all_chars (p : ascii -> bool) (s : string) : bool :=
  match s with
  | EmptyString => true
  | String c s' => p c && all_chars p s'
  end.

(** [s.isdigit()] *)
Definition isdigit (s : string) : bool :=
  negb (String.eqb s EmptyString) && all_chars isdigit_char s.

(** A string of [n] copies of [c]. *)
Fixpoint replicate_char (n : nat) (c : ascii) : string :=
  match n with
  | O => EmptyString
  | S n' => String c (replicate_char n' c)
  end.

End PyStr.

(** ** The regular expressions of the fallback path *)

Module Re.

(** The two patterns use literals, greedy repetitions of a character
    class and groups: a pattern is a list of such atoms. *)
Inductive atom :=
| Lit (s : string)
| Star (cls : ascii -> bool)
| Plus (cls : ascii -> bool)
| Open
| Close.

Definition regex := list atom.

(** A greedy repetition followed by [k]: the longest run first, then
    shorter ones, as a backtracking matcher tries them. *)
Fixpoint star {R : Type} (cls : ascii -> bool) (k : string -> option R) (s : string)
  : option R :=
  match s with
  | String c s' =>
      if cls c
      then match star cls k s' with Some r => Some r | None => k s end
      else k s
  | EmptyString => k s
  end.

(** Match [r] at the start of [s]: the groups in order and the text left
    after the match. [opened] holds the text at each open group's start. *)
Fixpoint match_here (r : regex) (opened groups : list string) (s : string)
  : option (list string * string) :=
  match r with
  | [] => Some (rev groups, s)
  | Lit l :: r' =>
      if PyStr.startswith s l
      then match_here r' opened groups (PyStr.slice_from (String.length l) s)
      else None
  | Star cls :: r' => star cls (match_here r' opened groups) s
  | Plus cls :: r' =>
      match s with
      | String c s' =>
          if cls c then star cls (match_here r' opened groups) s' else None
      | EmptyString => None
      end
  | Open :: r' => match_here r' (s :: opened) groups s
  | Close :: r' =>
      match opened with
      | o :: opened' =>
          let g := PyStr.slice_to (String.length o - String.length s) o in
          match_here r' opened' (g :: groups) s
      | [] => None
      end
  end.

(** [re.findall(r, s)]: leftmost matches that do not overlap. After a
    match the scan goes on where it ended (one character further when the
    match was empty, which the monitor's patterns never are). *)
Fixpoint findall_fuel (fuel : nat) (r : regex) (s : string) : list (list string) :=
  match fuel with
  | O => []
  | S fuel' =>
      match match_here r [] [] s with
      | Some (groups, rest) =>
          groups ::
            (if (String.length rest <? String.length s)%nat
             then findall_fuel fuel' r rest
             else match s with
                  | EmptyString => []
                  | String _ s' => findall_fuel fuel' r s'
                  end)
      | None =>
          match s with
          | EmptyString => []
          | String _ s' => findall_fuel fuel' r s'
          end
      end
  end.

Definition findall (r : regex) (s : string) : list (list string) :=
  findall_fuel (S (String.length s)) r s.

(** With two groups [findall] yields pairs. *)
Definition as_pair (groups : list string) : string * string :=
  match groups with
  | [a; b] => (a, b)
  | _ => (EmptyString, EmptyString)
  end.

Definition findall2 (r : regex) (s : string) : list (string * string) :=
  map as_pair (findall r s).

(** Character classes. *)
Definition is_char (a : ascii) (c : ascii) : bool := Ascii.eqb a c.
Definition not_char (a : ascii) (c : ascii) : bool := negb (Ascii.eqb a c).
Definition rbrace : ascii := ascii_of_nat 125.

(** [\d] *)
Definition digit (c : ascii) : bool :=
  let n := N_of_ascii c in ((48 <=? n) && (n <=? 57))%N.

(** [[a-f0-9\-]] *)
Definition hex_or_dash (c : ascii) : bool :=
  let n := N_of_ascii c in
  ((97 <=? n) && (n <=? 102) || (48 <=? n) && (n <=? 57) || (n =? 45))%N.

(** [\s*:\s*] *)
Definition colon : regex := [Star PyStr.isspace; Lit ":"; Star PyStr.isspace].

(** [(...)] around [r] *)
Definition group (r : regex) : regex := Open :: r ++ [Close].

(** A quote, a group of one or more characters other than a quote, a
    quote. *)
Definition quoted_group : regex :=
  [Lit (PyStr.js "'")] ++ group [Plus (not_char PyStr.dquote)] ++ [Lit (PyStr.js "'")].

End Re.

(** ** A decoder for JSON text *)

Module Json.

Definition backslash : ascii := ascii_of_nat 92.

(** The white space of the JSON grammar. *)
Definition is_ws (c : ascii) : bool :=
  let n := N_of_ascii c in ((n =? 32) || (n =? 9) || (n =? 10) || (n =? 13))%N.

Fixpoint skip_ws (s : string) : string :=
  match s with
  | String c s' => if is_ws c then skip_ws s' else s
  | EmptyString => EmptyString
  end.

Definition hex_value (c : ascii) : option N :=
  let n := N_of_ascii c in
  if ((48 <=? n) && (n <=? 57))%N then Some (n - 48)%N
  else if ((97 <=? n) && (n <=? 102))%N then Some (n - 87)%N
  else if ((65 <=? n) && (n <=? 70))%N then Some (n - 55)%N
  else None.

(** Where the scan of a string body stands: in plain text, after a
    backslash, or inside the hexadecimal digits of a [\u] escape. *)
Inductive string_state :=
| Plain
| Escaped
| Hex (digits_left : nat) (code : N).

Definition escape_char (c : ascii) : option ascii :=
  let n := N_of_ascii c in
  if (n =? 34)%N then Some c
  else if (n =? 92)%N then Some c
  else if (n =? 47)%N then Some c
  else if (n =? 98)%N then Some (ascii_of_nat 8)
  else if (n =? 102)%N then Some (ascii_of_nat 12)
  else if (n =? 110)%N then Some (ascii_of_nat 10)
  else if (n =? 114)%N then Some (ascii_of_nat 13)
  else if (n =? 116)%N then Some (ascii_of_nat 9)
  else None.

(** The body of a string, from after its opening quote: the decoded text
    and what follows the closing quote. A control character is refused
    (strict mode). A [\u] escape of U+0100 or more has no character in
    this development: the decoder gives up on it with [ValueError]. *)
Fixpoint scan_string (st : string_state) (acc : string) (s : string)
  : outcome (string * string) :=
  match s with
  | EmptyString => Raise JSONDecodeError
  | String c s' =>
      match st with
      | Plain =>
          if Ascii.eqb c PyStr.dquote then Return (PyStr.reverse acc, s')
          else if Ascii.eqb c backslash then scan_string Escaped acc s'
          else if (N_of_ascii c <? 32)%N then Raise JSONDecodeError
          else scan_string Plain (String c acc) s'
      | Escaped =>
          if Ascii.eqb c "u" then scan_string (Hex 4 0%N) acc s'
          else match escape_char c with
               | Some d => scan_string Plain (String d acc) s'
               | None => Raise JSONDecodeError
               end
      | Hex n code =>
          match hex_value c with
          | None => Raise JSONDecodeError
          | Some h =>
              let code' := (16 * code + h)%N in
              match n with
              | 1%nat =>
                  if (code' <? 256)%N
                  then scan_string Plain (String (ascii_of_N code') acc) s'
                  else Raise ValueError
              | S n' => scan_string (Hex n' code') acc s'
              | O => Raise JSONDecodeError
              end
          end
      end
  end.

(** *** Numbers *)

Fixpoint take_digits (s : string) : string * string :=
  match s with
  | String c s' =>
      if Re.digit c
      then let '(ds, rest) := take_digits s' in (String c ds, rest)
      else (EmptyString, s)
  | EmptyString => (EmptyString, EmptyString)
  end.

Fixpoint digits_value (acc : Z) (ds : string) : Z :=
  match ds with
  | EmptyString => acc
  | String c ds' => digits_value (10 * acc + (Z.of_N (N_of_ascii c) - 48)) ds'
  end.

(** [float(text)] for the decimal [m * 10^e] with [0 <= m], negated when
    [neg]: the nearest binary64 number, ties to even. Far out of range the
    answer is known without the power of ten. *)
Definition float_of_decimal (neg : bool) (m e ndigits : Z) : float :=
  match m with
  | Zpos p =>
      if 310 <? e then SF2Prim (S754_infinity neg)
      else if e + ndigits <? -330 then SF2Prim (S754_zero neg)
      else if 0 <=? e
           then SF2Prim (binary_normalize prec emax
                           (if neg then - (m * 10 ^ e) else m * 10 ^ e) 0 neg)
           else SF2Prim (SFdiv prec emax (S754_finite neg p 0) (raw_float (10 ^ (- e))))
  | _ => SF2Prim (S754_zero neg)
  end.

(** The integer part of a number: a single zero, or digits that do not
    start with zero. *)
Definition int_part (s : string) : option (string * string) :=
  match s with
  | String c s' =>
      if Ascii.eqb c "0" then Some (String c EmptyString, s')
      else if Re.digit c then Some (take_digits s)
      else None
  | EmptyString => None
  end.

(** The fraction, when a point and at least one digit follow. *)
Definition frac_part (s : string) : option (string * string) :=
  match s with
  | String c s' =>
      if Ascii.eqb c "." then
        match take_digits s' with
        | (EmptyString, _) => None
        | (ds, rest) => Some (ds, rest)
        end
      else None
  | EmptyString => None
  end.

(** The exponent, when [e] or [E], an optional sign and at least one
    digit follow. *)
Definition exp_part (s : string) : option (Z * string) :=
  match s with
  | String c s' =>
      if Ascii.eqb c "e" || Ascii.eqb c "E" then
        let '(neg, s'') :=
          match s' with
          | String sg t =>
              if Ascii.eqb sg "-" then (true, t)
              else if Ascii.eqb sg "+" then (false, t)
              else (false, s')
          | EmptyString => (false, s')
          end in
        match take_digits s'' with
        | (EmptyString, _) => None
        | (ds, rest) =>
            let v := digits_value 0 ds in Some (if neg then - v else v, rest)
        end
      else None
  | EmptyString => None
  end.

(** A number at the start of [s]: an [int] when it has neither fraction nor
    exponent, a [float] otherwise. [int(text)] refuses more digits than
    [int_max_str_digits] with [ValueError]. *)
Definition scan_number (s : string) : option (outcome pynum * string) :=
  let '(neg, s1) :=
    match s with
    | String c s' => if Ascii.eqb c "-" then (true, s') else (false, s)
    | EmptyString => (false, s)
    end in
  match int_part s1 with
  | None => None
  | Some (ids, s2) =>
      let '(fds, s3) :=
        match frac_part s2 with
        | Some (ds, rest) => (Some ds, rest)
        | None => (None, s2)
        end in
      let '(ex, s4) :=
        match exp_part s3 with
        | Some (e, rest) => (Some e, rest)
        | None => (None, s3)
        end in
      match fds, ex with
      | None, None =>
          if int_max_str_digits <? PyStr.len ids then Some (Raise ValueError, s4)
          else
            let v := digits_value 0 ids in
            Some (Return (PyInt (if neg then - v else v)), s4)
      | _, _ =>
          let fs := match fds with Some ds => ds | None => EmptyString end in
          let e := match ex with Some e => e | None => 0 end in
          let m := digits_value (digits_value 0 ids) fs in
          let nd := PyStr.len ids + PyStr.len fs in
          Some (Return (PyFloat (float_of_decimal neg m (e - PyStr.len fs) nd)), s4)
      end
  end.

(** *** Values *)

Definition literal (s : string) : outcome (pyval * string) :=
  let after (w : string) := PyStr.slice_from (String.length w) s in
  if PyStr.startswith s "null" then Return (PNone, after "null")
  else if PyStr.startswith s "true" then Return (PBool true, after "true")
  else if PyStr.startswith s "false" then Return (PBool false, after "false")
  else match scan_number s with
       | Some (Return n, rest) => Return (PNum n, rest)
       | Some (Raise e, _) => Raise e
       | None =>
           if PyStr.startswith s "NaN"
           then Return (PNum (PyFloat PrimFloat.nan), after "NaN")
           else if PyStr.startswith s "Infinity"
           then Return (PNum (PyFloat PrimFloat.infinity), after "Infinity")
           else if PyStr.startswith s "-Infinity"
           then Return (PNum (PyFloat PrimFloat.neg_infinity), after "-Infinity")
           else Raise JSONDecodeError
       end.

(** One value at the start of [s] and the text after it. [fuel] bounds the
    calls; [loads] gives enough of it for any text. *)
Fixpoint scan_value (fuel : nat) (s : string) : outcome (pyval * string) :=
  match fuel with
  | O => Raise RecursionError
  | S fuel' =>
      match s with
      | EmptyString => Raise JSONDecodeError
      | String c s' =>
          if Ascii.eqb c PyStr.dquote then
            match scan_string Plain EmptyString s' with
            | Return (str, rest) => Return (PStr str, rest)
            | Raise e => Raise e
            end
          else if Ascii.eqb c "{" then
            match skip_ws s' with
            | String d t =>
                if Ascii.eqb d "}" then Return (PDict [], t)
                else if Ascii.eqb d PyStr.dquote then scan_members fuel' [] t
                else Raise JSONDecodeError
            | EmptyString => Raise JSONDecodeError
            end
          else if Ascii.eqb c "[" then
            match skip_ws s' with
            | String d t =>
                if Ascii.eqb d "]" then Return (PList [], t)
                else scan_elements fuel' [] (String d t)
            | EmptyString => Raise JSONDecodeError
            end
          else literal s
      end
  end
(** The members of an object, from after the opening quote of a key. *)
with scan_members (fuel : nat) (acc : list (string * pyval)) (s : string)
  : outcome (pyval * string) :=
  match fuel with
  | O => Raise RecursionError
  | S fuel' =>
      match scan_string Plain EmptyString s with
      | Raise e => Raise e
      | Return (key, s1) =>
          match skip_ws s1 with
          | String c s2 =>
              if Ascii.eqb c ":" then
                match scan_value fuel' (skip_ws s2) with
                | Raise e => Raise e
                | Return (v, s3) =>
                    let acc' := assoc_set acc key v in
                    match skip_ws s3 with
                    | String d s4 =>
                        if Ascii.eqb d "}" then Return (PDict acc', s4)
                        else if Ascii.eqb d "," then
                          match skip_ws s4 with
                          | String q s5 =>
                              if Ascii.eqb q PyStr.dquote
                              then scan_members fuel' acc' s5
                              else Raise JSONDecodeError
                          | EmptyString => Raise JSONDecodeError
                          end
                        else Raise JSONDecodeError
                    | EmptyString => Raise JSONDecodeError
                    end
                end
              else Raise JSONDecodeError
          | EmptyString => Raise JSONDecodeError
          end
      end
  end
(** The elements of an array, from the start of an element. *)
with scan_elements (fuel : nat) (acc : list pyval) (s : string)
  : outcome (pyval * string) :=
  match fuel with
  | O => Raise RecursionError
  | S fuel' =>
      match scan_value fuel' s with
      | Raise e => Raise e
      | Return (v, s1) =>
          match skip_ws s1 with
          | String d s2 =>
              if Ascii.eqb d "]" then Return (PList (rev (v :: acc)), s2)
              else if Ascii.eqb d ","
              then scan_elements fuel' (v :: acc) (skip_ws s2)
              else Raise JSONDecodeError
          | EmptyString => Raise JSONDecodeError
          end
      end
  end.

(** [json.loads(s)]: one value, white space around it, nothing else. *)
Definition loads (s : string) : outcome pyval :=
  match scan_value (2 * String.length s + 2) (skip_ws s) with
  | Raise e => Raise e
  | Return (v, rest) =>
      match skip_ws rest with
      | EmptyString => Return v
      | String _ _ => Raise JSONDecodeError
      end
  end.

End Json.

(** ** The monitor's state *)

(** [json.loads], which the monitor calls and does not define: a decoder
    returns a value or raises, [JSONDecodeError] for text that is not JSON.
    Every general theorem holds for any decoder. *)
Class JsonDecoder := json_loads : string -> outcome pyval.

(** The decoder of this development, for evaluating the monitor on
    examples. It reads the JSON grammar as [json.loads] does, on the texts
    this development can hold and that CPython can nest: a [\u] escape of
    U+0100 or more has no character here ([ValueError], where the library
    decodes it), and it reads arrays and objects nested to any depth, where
    CPython raises [RecursionError] past its recursion limit. The examples
    are plain ASCII events a few levels deep. *)
#[export] Instance py_json : JsonDecoder := Json.loads.

(** What a stop callback is called with. The source formats a sentence
    from these values; the values are kept instead. *)
Inductive stop_reason :=
| TotalCallsReached (max_total_calls : Z)
| ToolLimitReached (tool_name : pykey) (tool_limit : Z)
| CostLimitReached (current_cost_usd max_cost_usd : float).

(** A stop callback is a function of the client, known here by a name.
    What it does when it is called is the client's affair; it is taken not
    to call back into the monitor (the runner's callback stores the reason
    in two attributes of the runner). *)
Definition callback : Type := string.

(** One entry of the price table, in USD per million tokens. *)
Record rates := { input_rate : float; output_rate : float }.

(** The attributes of a [RealTimeStreamMonitor], and [notified]: the
    calls the monitor has made to stop callbacks, each with the reason it
    was given, latest first. *)
Record monitor := {
  tool_limits : gmap string Z;
  max_total_calls : option Z;
  tool_calls : gmap pykey Z;
  total_calls : Z;
  id_format_stats : gmap string Z;
  max_cost_usd : float;
  current_cost_usd : float;
  total_input_tokens : pynum;
  total_output_tokens : pynum;
  should_stop : bool;
  stop_callbacks : list callback;
  notified : list (callback * stop_reason);
  _json_buffer : string;
  _in_json_block : bool
}.

(** [__init__] *)
Definition init (limits : option (gmap string Z)) (max_total_tool_calls : option Z)
  (max_cost : float) : monitor :=
  {| tool_limits := match limits with Some l => l | None => ∅ end;
     max_total_calls := max_total_tool_calls;
     tool_calls := ∅;
     total_calls := 0;
     id_format_stats := ∅;
     max_cost_usd := max_cost;
     current_cost_usd := 0%float;
     total_input_tokens := PyInt 0;
     total_output_tokens := PyInt 0;
     should_stop := false;
     stop_callbacks := [];
     notified := [];
     _json_buffer := EmptyString;
     _in_json_block := false |}.

(** Assignments to attributes. *)
Definition set_tool_calls (v : gmap pykey Z) (s : monitor) : monitor :=
  {| tool_limits := tool_limits s; max_total_calls := max_total_calls s;
     tool_calls := v; total_calls := total_calls s;
     id_format_stats := id_format_stats s; max_cost_usd := max_cost_usd s;
     current_cost_usd := current_cost_usd s;
     total_input_tokens := total_input_tokens s;
     total_output_tokens := total_output_tokens s;
     should_stop := should_stop s; stop_callbacks := stop_callbacks s;
     notified := notified s;
     _json_buffer := _json_buffer s; _in_json_block := _in_json_block s |}.

Definition set_total_calls (v : Z) (s : monitor) : monitor :=
  {| tool_limits := tool_limits s; max_total_calls := max_total_calls s;
     tool_calls := tool_calls s; total_calls := v;
     id_format_stats := id_format_stats s; max_cost_usd := max_cost_usd s;
     current_cost_usd := current_cost_usd s;
     total_input_tokens := total_input_tokens s;
     total_output_tokens := total_output_tokens s;
     should_stop := should_stop s; stop_callbacks := stop_callbacks s;
     notified := notified s;
     _json_buffer := _json_buffer s; _in_json_block := _in_json_block s |}.

Definition set_id_format_stats (v : gmap string Z) (s : monitor) : monitor :=
  {| tool_limits := tool_limits s; max_total_calls := max_total_calls s;
     tool_calls := tool_calls s; total_calls := total_calls s;
     id_format_stats := v; max_cost_usd := max_cost_usd s;
     current_cost_usd := current_cost_usd s;
     total_input_tokens := total_input_tokens s;
     total_output_tokens := total_output_tokens s;
     should_stop := should_stop s; stop_callbacks := stop_callbacks s;
     notified := notified s;
     _json_buffer := _json_buffer s; _in_json_block := _in_json_block s |}.

Definition set_current_cost_usd (v : float) (s : monitor) : monitor :=
  {| tool_limits := tool_limits s; max_total_calls := max_total_calls s;
     tool_calls := tool_calls s; total_calls := total_calls s;
     id_format_stats := id_format_stats s; max_cost_usd := max_cost_usd s;
     current_cost_usd := v;
     total_input_tokens := total_input_tokens s;
     total_output_tokens := total_output_tokens s;
     should_stop := should_stop s; stop_callbacks := stop_callbacks s;
     notified := notified s;
     _json_buffer := _json_buffer s; _in_json_block := _in_json_block s |}.

Definition set_total_input_tokens (v : pynum) (s : monitor) : monitor :=
  {| tool_limits := tool_limits s; max_total_calls := max_total_calls s;
     tool_calls := tool_calls s; total_calls := total_calls s;
     id_format_stats := id_format_stats s; max_cost_usd := max_cost_usd s;
     current_cost_usd := current_cost_usd s;
     total_input_tokens := v;
     total_output_tokens := total_output_tokens s;
     should_stop := should_stop s; stop_callbacks := stop_callbacks s;
     notified := notified s;
     _json_buffer := _json_buffer s; _in_json_block := _in_json_block s |}.

Definition set_total_output_tokens (v : pynum) (s : monitor) : monitor :=
  {| tool_limits := tool_limits s; max_total_calls := max_total_calls s;
     tool_calls := tool_calls s; total_calls := total_calls s;
     id_format_stats := id_format_stats s; max_cost_usd := max_cost_usd s;
     current_cost_usd := current_cost_usd s;
     total_input_tokens := total_input_tokens s;
     total_output_tokens := v;
     should_stop := should_stop s; stop_callbacks := stop_callbacks s;
     notified := notified s;
     _json_buffer := _json_buffer s; _in_json_block := _in_json_block s |}.

(** [self._json_buffer = text; self._in_json_block = flag] *)
Definition set_json_buffer (text : string) (flag : bool) (s : monitor) : monitor :=
  {| tool_limits := tool_limits s; max_total_calls := max_total_calls s;
     tool_calls := tool_calls s; total_calls := total_calls s;
     id_format_stats := id_format_stats s; max_cost_usd := max_cost_usd s;
     current_cost_usd := current_cost_usd s;
     total_input_tokens := total_input_tokens s;
     total_output_tokens := total_output_tokens s;
     should_stop := should_stop s; stop_callbacks := stop_callbacks s;
     notified := notified s;
     _json_buffer := text; _in_json_block := flag |}.

(** [add_stop_callback] *)
Definition add_stop_callback (cb : callback) (s : monitor) : monitor :=
  {| tool_limits := tool_limits s; max_total_calls := max_total_calls s;
     tool_calls := tool_calls s; total_calls := total_calls s;
     id_format_stats := id_format_stats s; max_cost_usd := max_cost_usd s;
     current_cost_usd := current_cost_usd s;
     total_input_tokens := total_input_tokens s;
     total_output_tokens := total_output_tokens s;
     should_stop := should_stop s; stop_callbacks := stop_callbacks s ++ [cb];
     notified := notified s;
     _json_buffer := _json_buffer s; _in_json_block := _in_json_block s |}.

(** The calls of one round of [_notify_stop], latest first: every
    callback of [callbacks], in the order of registration. *)
Definition notify_round (callbacks : list callback) (reason : stop_reason)
  : list (callback * stop_reason) :=
  rev (map (fun cb => (cb, reason)) callbacks).

(** [_notify_stop]: every registered callback is called with the reason;
    what a callback raises is dropped. *)
Definition _notify_stop (reason : stop_reason) (s : monitor) : monitor :=
  {| tool_limits := tool_limits s; max_total_calls := max_total_calls s;
     tool_calls := tool_calls s; total_calls := total_calls s;
     id_format_stats := id_format_stats s; max_cost_usd := max_cost_usd s;
     current_cost_usd := current_cost_usd s;
     total_input_tokens := total_input_tokens s;
     total_output_tokens := total_output_tokens s;
     should_stop := should_stop s; stop_callbacks := stop_callbacks s;
     notified := notify_round (stop_callbacks s) reason ++ notified s;
     _json_buffer := _json_buffer s; _in_json_block := _in_json_block s |}.

(** [self.should_stop = True] *)
Definition set_should_stop (s : monitor) : monitor :=
  {| tool_limits := tool_limits s; max_total_calls := max_total_calls s;
     tool_calls := tool_calls s; total_calls := total_calls s;
     id_format_stats := id_format_stats s; max_cost_usd := max_cost_usd s;
     current_cost_usd := current_cost_usd s;
     total_input_tokens := total_input_tokens s;
     total_output_tokens := total_output_tokens s;
     should_stop := true; stop_callbacks := stop_callbacks s;
     notified := notified s;
     _json_buffer := _json_buffer s; _in_json_block := _in_json_block s |}.

(** [self.should_stop = True; self._notify_stop(reason)] *)
Definition stop (reason : stop_reason) (s : monitor) : monitor :=
  _notify_stop reason (set_should_stop s).

(** *** Counters in a [defaultdict(int)] *)

Section Counters.

Context {K : Type} `{Countable K}.

(** [d[key]]: reading a missing key stores 0 under it. *)
Definition getitem (key : K) (d : gmap K Z) : Z * gmap K Z :=
  match d !! key with
  | Some n => (n, d)
  | None => (0, <[key := 0]> d)
  end.

(** [d[key] += 1] *)
Definition increment (key : K) (d : gmap K Z) : gmap K Z :=
  <[key := fst (getitem key d) + 1]> d.

(** The sum of the counts of a dictionary. *)
Definition sum_counts (d : gmap K Z) : Z :=
  map_fold (fun _ n acc => n + acc) 0 d.

End Counters.

(** *** Computations that can raise *)

Definition M (A : Type) : Type := monitor -> outcome A * monitor.

Definition ret {A : Type} (a : A) : M A := fun s => (Return a, s).

Definition raise {A : Type} (e : exn) : M A := fun s => (Raise e, s).

Definition bind {A B : Type} (m : M A) (k : A -> M B) : M B :=
  fun s =>
    match m s with
    | (Return a, s') => k a s'
    | (Raise e, s') => (Raise e, s')
    end.

(** A value or an exception that does not touch the monitor. *)
Definition lift {A : Type} (o : outcome A) : M A := fun s => (o, s).

Definition get : M monitor := fun s => (Return s, s).

Definition modify (f : monitor -> monitor) : M unit := fun s => (Return tt, f s).

(** [try: body except ...: handler] *)
Definition try_except {A : Type} (body : M A) (handler : exn -> M A) : M A :=
  fun s =>
    match body s with
    | (Return a, s') => (Return a, s')
    | (Raise e, s') => handler e s'
    end.

(** [try: body except Exception: pass] *)
Definition except_pass (body : M unit) : M unit :=
  try_except body (fun _ => ret tt).

(** [except json.JSONDecodeError] around a body that answers [True]:
    the answer is [False] on a decoding error, other exceptions go on. *)
Definition false_on_decode_error (body : M bool) : M bool :=
  try_except body (fun e => if is_decode_error e then ret false else raise e).

Declare Scope monitor_scope.
Delimit Scope monitor_scope with M.
Notation "x <- m ;; k" := (bind m (fun x => k))
  (at level 100, m at next level, right associativity) : monitor_scope.
Notation "m ;; k" := (bind m (fun _ => k))
  (at level 100, right associativity) : monitor_scope.

Fixpoint for_each {A : Type} (body : A -> M unit) (l : list A) : M unit :=
  match l with
  | [] => ret tt
  | x :: l' => (body x ;; for_each body l')%M
  end.

(** The monitor a computation leaves behind. *)
Definition exec {A : Type} (m : M A) (s : monitor) : monitor := snd (m s).

(** ** Event dispatch *)

(** [_detect_tool_id_format]. An id that is false (the empty string, but
    also [None], 0, an empty list) is unknown; an id that is true and no
    string has no [startswith]: [AttributeError]. *)
Definition _detect_tool_id_format (tool_id : pyval) : outcome string :=
  match tool_id with
  | PStr tool_id =>
      Return
        (if String.eqb tool_id EmptyString then "unknown"
         else if PyStr.startswith tool_id "toolu_" then "anthropic_standard"
         else if PyStr.startswith tool_id "call_"
                 && PyStr.contains (PyStr.slice_from 5 tool_id) "_"
         then "proxy_format"
         else if PyStr.contains tool_id "_"
                 && PyStr.isdigit (List.last (PyStr.split "_" tool_id) EmptyString)
         then "simplified"
         else "custom")
  | _ => if truthy tool_id then Raise AttributeError else Return "unknown"
  end.

(** [self.id_format_stats[id_format] += 1] *)
Definition count_id_format (id_format : string) (s : monitor) : monitor :=
  set_id_format_stats (increment id_format (id_format_stats s)) s.

(** [self.total_calls >= self.max_total_calls], when a cap is set. *)
Definition total_cap_reached (s : monitor) : option Z :=
  match max_total_calls s with
  | Some m => if m <=? total_calls s then Some m else None
  | None => None
  end.

(** [self.tool_limits.get(tool_name, float('inf'))]: the limits are given
    by tool name, so only a name that is a string can have one. [None]
    stands for [float('inf')]. *)
Definition tool_limit_of (tool_name : pykey) (s : monitor) : option Z :=
  match tool_name with
  | KStr name => tool_limits s !! name
  | _ => None
  end.

(** [current_count >= tool_limit], where a tool without a limit has the
    limit [float('inf')]. *)
Definition tool_limit_reached (tool_limit : option Z) (current_count : Z) : option Z :=
  match tool_limit with
  | Some limit => if limit <=? current_count then Some limit else None
  | None => None
  end.

(** [self.tool_calls[tool_name] += 1; self.total_calls += 1] *)
Definition count_call (tool_name : pykey) (s : monitor) : monitor :=
  set_total_calls (total_calls s + 1)
    (set_tool_calls (increment tool_name (tool_calls s)) s).

(** The test that closes [_handle_tool_call],
    [self.max_total_calls and self.total_calls >= self.max_total_calls * 0.9].
    Its branch is [pass]: all that can be seen of it is the [OverflowError]
    of the product, which makes a float of the cap. *)
Definition near_total_cap (s : monitor) : outcome unit :=
  match max_total_calls s with
  | Some m =>
      if m =? 0 then Return tt
      else match float_of_int m with
           | Return _ => Return tt
           | Raise e => Raise e
           end
  | None => Return tt
  end.

(** [_handle_tool_call], on the name and the id that an event gives: any
    JSON values. The reason of a stop is written before the flag is set,
    and writing it can fail. *)
Definition _handle_tool_call (tool_name tool_id : pyval) : M unit :=
  (id_format <- lift (_detect_tool_id_format tool_id) ;;
   modify (count_id_format id_format) ;;
   s <- get ;;
   match total_cap_reached s with
   | Some m =>
       lift (format_int m) ;;
       modify (stop (TotalCallsReached m))
   | None =>
       name <- lift (hashable tool_name) ;;
       let tool_limit := tool_limit_of name s in
       let '(current_count, calls) := getitem name (tool_calls s) in
       modify (set_tool_calls calls) ;;
       match tool_limit_reached tool_limit current_count with
       | Some limit =>
           lift (format_int limit) ;;
           modify (stop (ToolLimitReached name limit))
       | None =>
           modify (count_call name) ;;
           s <- get ;;
           lift (near_total_cap s)
       end
   end)%M.

(** The price table of [__init__]. *)
Definition haiku_rates : rates := {| input_rate := 1; output_rate := 5 |}.
Definition kimi_rates : rates := {| input_rate := 1; output_rate := 5 |}.
Definition sonnet_rates : rates := {| input_rate := 3; output_rate := 15 |}.

Definition pricing : gmap string rates :=
  <["claude-3-5-haiku-20241022" := haiku_rates]>
    (<["kimi-k2-0711-preview" := kimi_rates]>
       (<["claude-3-5-sonnet-20241022" := sonnet_rates]> ∅)).

(** [self.pricing.get(model, self.pricing['claude-3-5-sonnet-20241022'])]:
    a list or an object cannot be looked up ([TypeError]); any other value
    that is not a key of the table gets the fallback. *)
Definition pricing_get (model : pyval) : outcome rates :=
  match model with
  | PStr name =>
      Return (match pricing !! name with Some r => r | None => sonnet_rates end)
  | PList _ | PDict _ => Raise TypeError
  | _ => Return sonnet_rates
  end.

(** [input_cost + output_cost] *)
Definition usage_cost (input_tokens output_tokens : pynum) (price : rates)
  : outcome float :=
  match per_million input_tokens with
  | Raise e => Raise e
  | Return i =>
      match per_million output_tokens with
      | Raise e => Raise e
      | Return o =>
          Return (PrimFloat.add (PrimFloat.mul i (input_rate price))
                                (PrimFloat.mul o (output_rate price)))
      end
  end.

(** [self.current_cost_usd += new_cost] and the check against the cap. *)
Definition add_cost (new_cost : float) (s : monitor) : monitor :=
  let s := set_current_cost_usd (PrimFloat.add (current_cost_usd s) new_cost) s in
  if PrimFloat.leb (max_cost_usd s) (current_cost_usd s)
  then stop (CostLimitReached (current_cost_usd s) (max_cost_usd s)) s
  else s.

(** [_handle_usage_data] *)
Definition _handle_usage_data (usage model : pyval) : M unit :=
  (input_value <- lift (py_get usage "input_tokens" (PNum (PyInt 0))) ;;
   output_value <- lift (py_get usage "output_tokens" (PNum (PyInt 0))) ;;
   input_tokens <- lift (as_number input_value) ;;
   any_tokens <- (if gt_zero input_tokens then ret true
                  else (output_tokens <- lift (as_number output_value) ;;
                        ret (gt_zero output_tokens))) ;;
   if any_tokens : bool then
     s <- get ;;
     total_in <- lift (py_add (total_input_tokens s) input_tokens) ;;
     modify (set_total_input_tokens total_in) ;;
     output_tokens <- lift (as_number output_value) ;;
     s <- get ;;
     total_out <- lift (py_add (total_output_tokens s) output_tokens) ;;
     modify (set_total_output_tokens total_out) ;;
     price <- lift (pricing_get model) ;;
     new_cost <- lift (usage_cost input_tokens output_tokens price) ;;
     modify (add_cost new_cost)
   else ret tt)%M.

(** [v == text] for a decoded value *)
Definition is_str (v : pyval) (text : string) : bool :=
  match v with
  | PStr s => String.eqb s text
  | _ => false
  end.

(** The body of the loop over [content]. *)
Definition _handle_content_item (item : pyval) : M unit :=
  match item with
  | PDict _ =>
      (item_type <- lift (py_get item "type" PNone) ;;
       if is_str item_type "tool_use" then
         tool_name <- lift (py_get item "name" (PStr EmptyString)) ;;
         tool_id <- lift (py_get item "id" (PStr EmptyString)) ;;
         if truthy tool_name then _handle_tool_call tool_name tool_id
         else ret tt
       else ret tt)%M
  | _ => ret tt
  end.

(** [_handle_json_message] *)
Definition _handle_json_message (data : pyval) : M unit :=
  (message_type <- lift (py_get data "type" (PStr EmptyString)) ;;
   if is_str message_type "assistant" then
     message <- lift (py_get data "message" (PDict [])) ;;
     content <- lift (py_get message "content" (PList [])) ;;
     match content with
     | PList items => for_each _handle_content_item items
     | _ => ret tt
     end ;;
     usage <- lift (py_get message "usage" (PDict [])) ;;
     if truthy usage then
       model <- lift (py_get message "model" (PStr EmptyString)) ;;
       _handle_usage_data usage model
     else ret tt
   else ret tt)%M.

(** ** The ingestion pipeline *)

Section Pipeline.

Context {decoder : JsonDecoder}.

(** [data = json.loads(text); self._handle_json_message(data)] *)
Definition loads_and_handle (text : string) : M unit :=
  (data <- lift (json_loads text) ;; _handle_json_message data)%M.

(** [_try_parse_direct_json] *)
Definition _try_parse_direct_json (json_str : string) : M bool :=
  false_on_decode_error (loads_and_handle json_str ;; ret true)%M.

(** The ceiling of the accumulation buffer. *)
Definition buffer_ceiling : Z := 50000.

(** [_try_parse_buffered_json] *)
Definition _try_parse_buffered_json : M unit :=
  try_except
    (s <- get ;;
     if String.eqb (_json_buffer s) EmptyString then ret tt
     else
       loads_and_handle (_json_buffer s) ;;
       modify (set_json_buffer EmptyString false))%M
    (fun e =>
       if is_decode_error e then
         (s <- get ;;
          if buffer_ceiling <? PyStr.len (_json_buffer s)
          then modify (set_json_buffer EmptyString false)
          else ret tt)%M
       else ret tt).

(** The markers that open an event. *)
Definition json_starts : list string :=
  [PyStr.js "{'type':'assistant'"; PyStr.js "{'type':'user'"; PyStr.js "{'type':'system'"].

(** The loop over the markers, up to the first one that [line] contains:
    where that marker starts. *)
Fixpoint first_marker (markers : list string) (line : string) : option nat :=
  match markers with
  | [] => None
  | marker :: markers' =>
      match PyStr.find line marker with
      | Some start_pos => Some start_pos
      | None => first_marker markers' line
      end
  end.

(** [_process_json_buffer] *)
Definition _process_json_buffer (line : string) : M unit :=
  except_pass
    match first_marker json_starts line with
    | Some start_pos =>
        (s <- get ;;
         (if String.eqb (_json_buffer s) EmptyString then ret tt
          else _try_parse_buffered_json) ;;
         let potential_json := PyStr.slice_from start_pos line in
         parsed <- (if (0 <? PyStr.count potential_json "{")
                       && PyStr.endswith potential_json "}"
                    then _try_parse_direct_json potential_json
                    else ret false) ;;
         if parsed : bool then ret tt
         else modify (set_json_buffer potential_json true))%M
    | None =>
        (s <- get ;;
         if _in_json_block s then
           modify (set_json_buffer (String.append (_json_buffer s) line) true) ;;
           _try_parse_buffered_json
         else ret tt)%M
    end.

(** The first pattern of [_detect_tool_calls_in_line]: the type tool_use,
    then an id, then a name, with no closing brace in between. *)
Definition tool_use_pattern : Re.regex :=
  [Re.Lit (PyStr.js "'type'")] ++ Re.colon ++ [Re.Lit (PyStr.js "'tool_use'")]
  ++ [Re.Star (Re.not_char Re.rbrace)]
  ++ [Re.Lit (PyStr.js "'id'")] ++ Re.colon ++ Re.quoted_group
  ++ [Re.Star (Re.not_char Re.rbrace)]
  ++ [Re.Lit (PyStr.js "'name'")] ++ Re.colon ++ Re.quoted_group.

(** The second pattern: an id of the shape call_, digits, underscore,
    lower-case hexadecimal digits and dashes, then a comma and a name. *)
Definition call_pattern : Re.regex :=
  [Re.Lit (PyStr.js "'id'")] ++ Re.colon
  ++ [Re.Lit (PyStr.js "'")]
  ++ Re.group [Re.Lit "call_"; Re.Plus Re.digit; Re.Lit "_"; Re.Plus Re.hex_or_dash]
  ++ [Re.Lit (PyStr.js "'")]
  ++ [Re.Star PyStr.isspace; Re.Lit ","; Re.Star PyStr.isspace]
  ++ [Re.Lit (PyStr.js "'name'")] ++ Re.colon ++ Re.quoted_group.

(** [self._handle_tool_call(tool_name, tool_id)] on a match. *)
Definition _handle_match (found : string * string) : M unit :=
  let '(tool_id, tool_name) := found in
  _handle_tool_call (PStr tool_name) (PStr tool_id).

(** [_detect_tool_calls_in_line]: the first match of the first pattern
    alone, or else every match of the second, up to one that raises. *)
Definition _detect_tool_calls_in_line (line : string) : M unit :=
  except_pass
    match Re.findall2 tool_use_pattern line with
    | found :: _ => _handle_match found
    | [] => for_each _handle_match (Re.findall2 call_pattern line)
    end.

(** The scan of [_extract_and_handle_embedded_json] for the brace that
    closes the first one: the index after it, when there is one. *)
Fixpoint find_json_end (remaining : string) (i : nat) (brace_count : Z)
  (in_string escape_next : bool) : option nat :=
  match remaining with
  | EmptyString => None
  | String char rest =>
      if escape_next then find_json_end rest (S i) brace_count in_string false
      else if Ascii.eqb char Json.backslash && in_string
      then find_json_end rest (S i) brace_count in_string true
      else if Ascii.eqb char PyStr.dquote
      then find_json_end rest (S i) brace_count (negb in_string) false
      else if in_string then find_json_end rest (S i) brace_count in_string false
      else if Ascii.eqb char "{"
      then find_json_end rest (S i) (brace_count + 1) in_string false
      else if Ascii.eqb char "}" then
        if brace_count - 1 =? 0 then Some (S i)
        else find_json_end rest (S i) (brace_count - 1) in_string false
      else find_json_end rest (S i) brace_count in_string false
  end.

Definition json_start_patterns : list string :=
  [PyStr.js "{'type':'assistant'"; PyStr.js "{'type':'system'"; PyStr.js "{'type':'user'"].

(** The body of the loop over [json_start_patterns]. *)
Definition _extract_at (line start_pattern : string) : M unit :=
  match PyStr.find line start_pattern with
  | None => ret tt
  | Some start_idx =>
      let remaining := PyStr.slice_from start_idx line in
      match find_json_end remaining 0 0 false false with
      | Some json_end =>
          try_except (loads_and_handle (PyStr.slice_to json_end remaining))
            (fun e => if is_decode_error e then ret tt else raise e)
      | None => ret tt
      end
  end.

(** [_extract_and_handle_embedded_json] *)
Definition _extract_and_handle_embedded_json (line : string) : M unit :=
  except_pass (for_each (_extract_at line) json_start_patterns).

(** The substrings that send a line to the bracket-balance extraction. *)
Definition embedded_markers : list string :=
  [PyStr.js "'type':'assistant'"; PyStr.js "'tool_use'"; PyStr.js "'name'"].

(** [_process_output_line] *)
Definition _process_output_line (line : string) : M unit :=
  except_pass
    (let cleaned_line := PyStr.strip line in
     if String.eqb cleaned_line EmptyString then ret tt
     else
       (_process_json_buffer cleaned_line ;;
        handled <- (if PyStr.startswith cleaned_line "{"
                       && PyStr.endswith cleaned_line "}"
                    then false_on_decode_error
                           (loads_and_handle cleaned_line ;; ret true)
                    else ret false) ;;
        if handled : bool then ret tt
        else
          _detect_tool_calls_in_line cleaned_line ;;
          if existsb (PyStr.contains cleaned_line) embedded_markers
          then _extract_and_handle_embedded_json cleaned_line
          else ret tt))%M.

(** The monitor after a line has been ingested. *)
Definition ingest (line : string) (s : monitor) : monitor :=
  exec (_process_output_line line) s.

(** What [analyze_completed_output] returns. *)
Record analysis_result := {
  processed_lines : Z;
  detected_tool_calls : Z;
  tool_breakdown : gmap pykey Z;
  id_format_distribution : gmap string Z;
  cost_estimation_current_cost_usd : float;
  cost_estimation_total_input_tokens : pynum;
  cost_estimation_total_output_tokens : pynum
}.

(** The three assignments that open [analyze_completed_output]. *)
Definition clear_counts (s : monitor) : monitor :=
  set_id_format_stats ∅ (set_total_calls 0 (set_tool_calls ∅ s)).

(** The loop of [analyze_completed_output] over the lines. *)
Fixpoint replay (lines : list string) (processed : Z) (s : monitor) : Z * monitor :=
  match lines with
  | [] => (processed, s)
  | line :: lines' =>
      if String.eqb (PyStr.strip line) EmptyString then replay lines' processed s
      else replay lines' (processed + 1) (ingest (PyStr.strip line) s)
  end.

(** [analyze_completed_output] *)
Definition analyze_completed_output (output_text : string) (s : monitor)
  : analysis_result * monitor :=
  let s := clear_counts s in
  let lines := PyStr.split (ascii_of_nat 10) output_text in
  let '(processed, s) := replay lines 0 s in
  ({| processed_lines := processed;
      detected_tool_calls := total_calls s;
      tool_breakdown := tool_calls s;
      id_format_distribution := id_format_stats s;
      cost_estimation_current_cost_usd := current_cost_usd s;
      cost_estimation_total_input_tokens := total_input_tokens s;
      cost_estimation_total_output_tokens := total_output_tokens s |}, s).

End Pipeline.

(** What [get_statistics] returns. *)
Record statistics := {
  stat_tool_calls : gmap pykey Z;
  stat_total_tool_calls : Z;
  stat_max_total_calls : option Z;
  stat_tool_limits : gmap string Z;
  stat_id_format_stats : gmap string Z;
  stat_current_cost_usd : float;
  stat_max_cost_usd : float;
  stat_total_input_tokens : pynum;
  stat_total_output_tokens : pynum;
  stat_cost_utilization : pynum;
  stat_tool_utilization : pynum
}.

(** [(self.current_cost_usd / self.max_cost_usd) * 100 if self.max_cost_usd > 0 else 0] *)
Definition cost_utilization (s : monitor) : pynum :=
  if PrimFloat.ltb 0%float (max_cost_usd s)
  then PyFloat (PrimFloat.mul (PrimFloat.div (current_cost_usd s) (max_cost_usd s)) 100%float)
  else PyInt 0.

(** [(self.total_calls / self.max_total_calls) * 100 if self.max_total_calls else 0] *)
Definition tool_utilization (s : monitor) : outcome pynum :=
  match max_total_calls s with
  | Some m =>
      if m =? 0 then Return (PyInt 0)
      else match int_truediv (total_calls s) m with
           | Return q => Return (PyFloat (PrimFloat.mul q 100%float))
           | Raise e => Raise e
           end
  | None => Return (PyInt 0)
  end.

(** [get_statistics]: it reads the monitor and changes nothing. *)
Definition get_statistics (s : monitor) : outcome statistics :=
  match tool_utilization s with
  | Raise e => Raise e
  | Return tool_percent =>
      Return {| stat_tool_calls := tool_calls s;
                stat_total_tool_calls := total_calls s;
                stat_max_total_calls := max_total_calls s;
                stat_tool_limits := tool_limits s;
                stat_id_format_stats := id_format_stats s;
                stat_current_cost_usd := current_cost_usd s;
                stat_max_cost_usd := max_cost_usd s;
                stat_total_input_tokens := total_input_tokens s;
                stat_total_output_tokens := total_output_tokens s;
                stat_cost_utilization := cost_utilization s;
                stat_tool_utilization := tool_percent |}
  end.

(** ** Runs of the monitor *)

(** The count of a tool, 0 for a tool that was never seen. *)
Definition calls_of (tool_name : pykey) (s : monitor) : Z :=
  default 0 (tool_calls s !! tool_name).

(** The methods that read or change the monitor. *)
Inductive op :=
| AddStopCallback (cb : callback)
| ProcessOutputLine (line : string)
| HandleJsonMessage (data : pyval)
| HandleToolCall (tool_name tool_id : pyval)
| HandleUsageData (usage model : pyval)
| AnalyzeCompletedOutput (output_text : string)
| GetStatistics.

(** The monitor after a call, whether the call returned or raised. *)
Definition step {decoder : JsonDecoder} (s : monitor) (o : op) : monitor :=
  match o with
  | AddStopCallback cb => add_stop_callback cb s
  | ProcessOutputLine line => ingest line s
  | HandleJsonMessage data => exec (_handle_json_message data) s
  | HandleToolCall tool_name tool_id => exec (_handle_tool_call tool_name tool_id) s
  | HandleUsageData usage model => exec (_handle_usage_data usage model) s
  | AnalyzeCompletedOutput output_text => snd (analyze_completed_output output_text s)
  | GetStatistics => s
  end.

Definition run {decoder : JsonDecoder} (ops : list op) (s : monitor) : monitor :=
  fold_left step ops s.

(** The states of a monitor built by [__init__] and used through its
    methods. *)
Definition reachable {decoder : JsonDecoder} (s : monitor) : Prop :=
  exists limits max_total max_cost ops,
    s = run ops (init limits max_total max_cost).

(** The ways [_handle_tool_call] ends: what it returns or raises, and the
    monitor it leaves. *)
Inductive tool_call_result (tool_name tool_id : pyval) (s : monitor)
  : outcome unit * monitor -> Prop :=
| IdWithoutFormat e :
    _detect_tool_id_format tool_id = Raise e ->
    tool_call_result tool_name tool_id s (Raise e, s)
| TotalCapNotWritten id_format m e :
    _detect_tool_id_format tool_id = Return id_format ->
    total_cap_reached s = Some m ->
    format_int m = Raise e ->
    tool_call_result tool_name tool_id s (Raise e, count_id_format id_format s)
| RejectedByTotalCap id_format m :
    _detect_tool_id_format tool_id = Return id_format ->
    total_cap_reached s = Some m ->
    format_int m = Return tt ->
    tool_call_result tool_name tool_id s
      (Return tt, stop (TotalCallsReached m) (count_id_format id_format s))
| NameWithoutHash id_format e :
    _detect_tool_id_format tool_id = Return id_format ->
    total_cap_reached s = None ->
    hashable tool_name = Raise e ->
    tool_call_result tool_name tool_id s (Raise e, count_id_format id_format s)
| ToolLimitNotWritten id_format name limit e :
    _detect_tool_id_format tool_id = Return id_format ->
    total_cap_reached s = None ->
    hashable tool_name = Return name ->
    tool_limit_reached (tool_limit_of name s) (calls_of name s) = Some limit ->
    format_int limit = Raise e ->
    tool_call_result tool_name tool_id s
      (Raise e,
       set_tool_calls (snd (getitem name (tool_calls s))) (count_id_format id_format s))
| RejectedByToolLimit id_format name limit :
    _detect_tool_id_format tool_id = Return id_format ->
    total_cap_reached s = None ->
    hashable tool_name = Return name ->
    tool_limit_reached (tool_limit_of name s) (calls_of name s) = Some limit ->
    format_int limit = Return tt ->
    tool_call_result tool_name tool_id s
      (Return tt,
       stop (ToolLimitReached name limit)
         (set_tool_calls (snd (getitem name (tool_calls s)))
            (count_id_format id_format s)))
| Counted id_format name :
    _detect_tool_id_format tool_id = Return id_format ->
    total_cap_reached s = None ->
    hashable tool_name = Return name ->
    tool_limit_reached (tool_limit_of name s) (calls_of name s) = None ->
    tool_call_result tool_name tool_id s
      (near_total_cap s,
       count_call name
         (set_tool_calls (snd (getitem name (tool_calls s)))
            (count_id_format id_format s))).

(** A computation keeps a property of the monitor when the monitor has
    it afterwards, whether the computation returns or raises. *)
Definition keeps {A : Type} (I : monitor -> Prop) (m : M A) : Prop :=
  forall s, I s -> I (exec m s).

(** A computation raises only exceptions of the kind [P]. *)
Definition raises_only {A : Type} (P : exn -> Prop) (m : M A) : Prop :=
  forall s e, fst (m s) = Raise e -> P e.

(** The exceptions that [except json.JSONDecodeError] lets through. *)
Definition not_decode_error (e : exn) : Prop := is_decode_error e = false.

(** A property of the monitor that the recording of usage keeps: it
    survives every assignment that [_handle_usage_data] makes. *)
Record usage_invariant (I : monitor -> Prop) : Prop := {
  inv_input_tokens : forall v s, I s -> I (set_total_input_tokens v s);
  inv_output_tokens : forall v s, I s -> I (set_total_output_tokens v s);
  inv_add_cost : forall cost s, I s -> I (add_cost cost s)
}.

(** A property that the dispatch of any event keeps: it survives a tool
    call as well, however the call ends. *)
Record dispatch_invariant (I : monitor -> Prop) : Prop := {
  inv_usage : usage_invariant I;
  inv_tool_call : forall tool_name tool_id, keeps I (_handle_tool_call tool_name tool_id)
}.

(** A property that the whole pipeline keeps: the accumulation buffer may
    change too. *)
Record pipeline_invariant (I : monitor -> Prop) : Prop := {
  inv_dispatch : dispatch_invariant I;
  inv_json_buffer : forall text flag s, I s -> I (set_json_buffer text flag s)
}.

(** The ledger invariant of the monitor. *)
Definition ledger_ok (s : monitor) : Prop :=
  total_calls s = sum_counts (tool_calls s)
  /\ total_calls s <= sum_counts (id_format_stats s)
  /\ 0 <= total_calls s
  /\ (forall m, max_total_calls s = Some m -> total_calls s <= Z.max 0 m).

(** ** Examples *)

(** An assistant event with one tool_use item, the id before the name. *)
Definition bash_event : string :=
  PyStr.js "{'type':'assistant','message':{'content':[{'type':'tool_use','id':'toolu_1','name':'Bash'}]}}".

(** The same event with the name before the id. *)
Definition bash_event_name_first : string :=
  PyStr.js "{'type':'assistant','message':{'content':[{'type':'tool_use','name':'Bash','id':'toolu_1'}]}}".

(** The event behind two characters of noise. *)
Definition noisy_bash_event : string := String.append "x " bash_event.

(** The two chunks of a text split at [n]. *)
Definition ingest_split (n : nat) (text : string) (s : monitor) : monitor :=
  ingest (PyStr.slice_from n text) (ingest (PyStr.slice_to n text) s).

(** A monitor with no limits and a cost cap of 10 dollars. *)
Definition fresh : monitor := init None None 10%float.

(** A usage object with integer token counts. *)
Definition usage_of (input_tokens output_tokens : Z) : pyval :=
  PDict [("input_tokens", PNum (PyInt input_tokens));
         ("output_tokens", PNum (PyInt output_tokens))].

(** A monitor stopped by its cost cap of one dollar: three dollars of
    usage have been recorded, and no call. *)
Definition stopped_by_cost : monitor :=
  exec (_handle_usage_data (usage_of 1000000 0) (PStr "claude-3-5-sonnet-20241022"))
    (init None None 1%float).

(** A monitor stopped by a total-call cap of zero. *)
Definition stopped_by_cap : monitor :=
  exec (_handle_tool_call (PStr "Bash") (PStr "toolu_1")) (init None (Some 0) 10%float).

(** An unterminated fragment of 60000 characters that opens an event. *)
Definition long_fragment : string :=
  String.append (PyStr.js "{'type':'assistant','message':'")
    (PyStr.replicate_char (Z.to_nat 59969) "a").

(** The line that closes [long_fragment]: a quote and a brace. *)
Definition closing_line : string := PyStr.js "'}".

(** A short run: an event line, then a call of another tool. *)
Definition short_run : monitor :=
  run [ProcessOutputLine bash_event; HandleToolCall (PStr "Read") (PStr "call_0_ab")]
    fresh.

(** A monitor on which [callbacks] have been registered. *)
Definition with_callbacks (callbacks : list callback) (s : monitor) : monitor :=
  fold_left (fun s cb => add_stop_callback cb s) callbacks s.

(** Three Bash calls under a total-call cap of two, on a monitor with any
    stop callbacks. *)
Definition bash_twice (limits : gmap string Z) (max_cost : float)
  (callbacks : list callback) (id1 id2 : string) : monitor :=
  exec (_handle_tool_call (PStr "Bash") (PStr id2))
    (exec (_handle_tool_call (PStr "Bash") (PStr id1))
       (with_callbacks callbacks (init (Some limits) (Some 2) max_cost))).

Definition bash_thrice (limits : gmap string Z) (max_cost : float)
  (callbacks : list callback) (id1 id2 id3 : string) : monitor :=
  exec (_handle_tool_call (PStr "Bash") (PStr id3))
    (bash_twice limits max_cost callbacks id1 id2).

(** The budget of a tool is exhausted when the total-call cap or the
    tool's own limit is reached: the next call of it is rejected. *)
Definition budget_exhausted (tool_name : pykey) (s : monitor) : Prop :=
  total_cap_reached s <> None
  \/ tool_limit_reached (tool_limit_of tool_name s) (calls_of tool_name s) <> None.

(** A usage event of one million input tokens under the baseline model. *)
Definition million_input_tokens : pyval := usage_of 1000000 0.
Definition sonnet : pyval := PStr "claude-3-5-sonnet-20241022".

(** A live monitor that has counted one call. *)
Definition one_call : monitor :=
  exec (_handle_tool_call (PStr "Bash") (PStr "toolu_1")) fresh.


(** A fragment that no structured path can read: no brace, no marker,
    the fields of a tool_use item. *)
Definition regex_only_line : string :=
  PyStr.js "'type':'tool_use','id':'toolu_9','name':'Edit'".


(** An assistant event whose tool_use item names its tool by a number. *)
Definition numbered_name_event : string :=
  PyStr.js "{'type':'assistant','message':{'content':[{'type':'tool_use','id':'toolu_1','name':5}]}}".


(** The line a direct parse applies to: a complete object. *)
Definition is_complete_object (cleaned_line : string) : bool :=
  PyStr.startswith cleaned_line "{" && PyStr.endswith cleaned_line "}".

(** ** Invariants of a run *)

(** Every count is within its budget: the total under the total-call cap,
    the count of a tool under the limit of that tool. *)
Definition within_budget (s : monitor) : Prop :=
  (forall m, max_total_calls s = Some m -> total_calls s <= Z.max 0 m)
  /\ (forall tool_name limit,
        tool_limits s !! tool_name = Some limit ->
        calls_of (KStr tool_name) s <= Z.max 0 limit).

(** What a monitor keeps of an earlier state of itself: the configuration
    of [__init__], a stop flag that was set, and the reasons the callbacks
    were called with. *)
Definition continues (s0 s : monitor) : Prop :=
  tool_limits s = tool_limits s0
  /\ max_total_calls s = max_total_calls s0
  /\ max_cost_usd s = max_cost_usd s0
  /\ (should_stop s0 = true -> should_stop s = true)
  /\ exists reasons, notified s = reasons ++ notified s0.

(** No counter of calls is lower than it was. *)
Definition counts_grow (s0 s : monitor) : Prop :=
  total_calls s0 <= total_calls s
  /\ (forall tool_name, calls_of tool_name s0 <= calls_of tool_name s)
  /\ sum_counts (id_format_stats s0) <= sum_counts (id_format_stats s).

Definition is_analysis (o : op) : bool :=
  match o with AnalyzeCompletedOutput _ => true | _ => false end.

Definition is_registration (o : op) : bool :=
  match o with AddStopCallback _ => true | _ => false end.

(** No callback is called while the stop flag is not set, and only a
    registered callback is ever called. *)
Definition calls_follow_stops (s : monitor) : Prop :=
  (should_stop s = false -> notified s = [])
  /\ (forall cb reason, In (cb, reason) (notified s) -> In cb (stop_callbacks s)).

(** The calls of one round for each of [reasons], latest first. *)
Definition notify_rounds (callbacks : list callback) (reasons : list stop_reason)
  : list (callback * stop_reason) :=
  flat_map (notify_round callbacks) reasons.

(** The monitor has [callbacks], every stop so far has called each of
    them, and the stop flag is set exactly when there was a stop. *)
Definition stops_are_notified (callbacks : list callback) (s : monitor) : Prop :=
  stop_callbacks s = callbacks
  /\ exists reasons,
       notified s = notify_rounds callbacks reasons
       /\ (should_stop s = true <-> reasons <> []).

(** A run under a cap of three calls and a limit of one Bash call. *)
Definition limited : monitor :=
  init (Some {["Bash" := 1]}) (Some 3) 10%float.

(** The same monitor as the runner uses it: its callback is registered
    before the process is read. *)
Definition watched : monitor := with_callbacks ["on_limit_reached"] limited.

Definition busy_run : list op :=
  [ProcessOutputLine bash_event; HandleToolCall (PStr "Bash") (PStr "toolu_2");
   HandleToolCall (PStr "Read") (PStr "call_0_ab");
   HandleUsageData (usage_of 1000000 0) sonnet;
   ProcessOutputLine noisy_bash_event; GetStatistics].

(** The accumulation buffer and its flag agree: while the monitor is
    accumulating, the buffer starts with one of the markers that open an
    event; otherwise it is empty. *)
Definition buffer_ok (s : monitor) : Prop :=
  if _in_json_block s
  then exists marker,
         In marker json_starts /\ PyStr.startswith (_json_buffer s) marker = true
  else _json_buffer s = EmptyString.

(** The classes of [_detect_tool_id_format]. *)
Definition id_formats : list string :=
  ["unknown"; "anthropic_standard"; "proxy_format"; "simplified"; "custom"].

Definition id_formats_known (s : monitor) : Prop :=
  forall k, is_Some (id_format_stats s !! k) -> In k id_formats.


(** A line with two tool_use fragments, and one with two proxy ids. *)
Definition two_tool_use_fragments : string :=
  PyStr.js "'type':'tool_use','id':'toolu_1','name':'Bash'} {'type':'tool_use','id':'toolu_2','name':'Read'".

Definition two_proxy_calls : string :=
  PyStr.js "'id':'call_1_ab','name':'Bash' 'id':'call_2_cd','name':'Read'".


(** A monitor whose cap on the total is past the largest float. *)
Definition huge_cap : monitor := init None (Some (2 ^ 1024)) 10%float.

(** ** The stream monitor *)

(** The line feed. *)
Definition newline : ascii := ascii_of_nat 10.

(** [s.split(c, 1)] for a one-character separator that [s] holds: the text
    before the first separator and the text after it. [None] when [s] does
    not hold the separator. *)
Fixpoint split_once (c : ascii) (s : string) : option (string * string) :=
  match s with
  | EmptyString => None
  | String a s' =>
      if Ascii.eqb a c then Some (EmptyString, s')
      else match split_once c s' with
           | Some (line, rest) => Some (String a line, rest)
           | None => None
           end
  end.

(** [''.join(pieces)] *)
Fixpoint join (pieces : list string) : string :=
  match pieces with
  | [] => EmptyString
  | piece :: pieces' => String.append piece (join pieces')
  end.

Section Streams.

Context {decoder : JsonDecoder}.

(** [for line in lines: if line.strip(): self._process_output_line(line.strip())] *)
Fixpoint process_lines (lines : list string) (s : monitor) : monitor :=
  match lines with
  | [] => s
  | line :: lines' =>
      if String.eqb (PyStr.strip line) EmptyString then process_lines lines' s
      else process_lines lines' (ingest (PyStr.strip line) s)
  end.

(** The loop [while '\n' in buffer] of [_monitor_output_stream]: the buffer
    that is left, the monitor, and whether the loop ended in
    [_force_stop_process] and [return]. Every round takes a line feed out
    of the buffer, so the length of the buffer is fuel enough. *)
Fixpoint take_lines (fuel : nat) (buffer : string) (s : monitor)
  : string * monitor * bool :=
  match fuel with
  | O => (buffer, s, false)
  | S fuel' =>
      match split_once newline buffer with
      | None => (buffer, s, false)
      | Some (line, buffer') =>
          if String.eqb (PyStr.strip line) EmptyString
          then take_lines fuel' buffer' s
          else
            let s' := ingest (PyStr.strip line) s in
            if should_stop s' then (buffer', s', true)
            else take_lines fuel' buffer' s'
      end
  end.

(** The outer loop of [_monitor_output_stream]. [reads] lists the rounds
    made while the process runs and the stop event is not set: what
    [read(1024)] gave in each, decoded, or [None] for a round without data
    (a stream that is not readable, nothing to read, an exception of the
    read). *)
Fixpoint monitor_rounds (reads : list (option string)) (buffer : string) (s : monitor)
  : string * monitor * bool :=
  match reads with
  | [] => (buffer, s, false)
  | None :: reads' => monitor_rounds reads' buffer s
  | Some decoded_data :: reads' =>
      let buffer := String.append buffer decoded_data in
      let '(buffer, s, stopped) := take_lines (String.length buffer) buffer s in
      if stopped then (buffer, s, true) else monitor_rounds reads' buffer s
  end.

(** [_monitor_output_stream]: the monitor afterwards, and whether the
    process was stopped by [_force_stop_process]. The [finally] clause
    ingests what is left in the buffer in both cases. *)
Definition _monitor_output_stream (reads : list (option string)) (s : monitor)
  : monitor * bool :=
  let '(buffer, s, stopped) := monitor_rounds reads EmptyString s in
  (if String.eqb (PyStr.strip buffer) EmptyString then s
   else ingest (PyStr.strip buffer) s,
   stopped).

End Streams.

(** All the data of a stream, whatever the chunks. *)
Definition data_of (reads : list (option string)) : string :=
  join (map (default EmptyString) reads).

(** Two ways a stream of two events can arrive. *)
Definition read_event : string :=
  PyStr.js "'type':'tool_use','id':'toolu_9','name':'Edit'".

Definition whole_chunks : list (option string) :=
  [Some (String.append read_event (String newline EmptyString)); None;
   Some (String.append read_event (String newline EmptyString))].

Definition torn_chunks : list (option string) :=
  [Some (PyStr.slice_to 10 read_event); None;
   Some (String.append (PyStr.slice_from 10 read_event) (String newline read_event));
   Some (String newline EmptyString)].

(** A chunk of three lines under a cap of one call. *)
Definition three_line_chunk : list (option string) :=
  [Some (String.append read_event
           (String newline
              (String.append read_event
                 (String newline
                    (String.append read_event (String newline read_event))))))].

(** ** The stream readers *)

(** [f > n] for a [float] and an [int], which Python compares by value,
    without rounding the [int]. *)
Definition float_gt_int (f : float) (n : Z) : bool :=
  match Prim2SF f with
  | S754_zero _ => n <? 0
  | S754_infinity negative => negb negative
  | S754_nan => false
  | S754_finite negative m e =>
      let v := if negative then Zneg m else Zpos m in
      if 0 <=? e then n <? v * 2 ^ e else n * 2 ^ (- e) <? v
  end.

(** [timeout and (time.time() - start_time) > timeout], where [now] is
    what [time.time()] gives. *)
Definition timeout_expired (timeout : option Z) (start_time now : float) : bool :=
  match timeout with
  | Some t => negb (t =? 0) && float_gt_int (PrimFloat.sub now start_time) t
  | None => false
  end.

(** One round of the loop of [read_with_monitoring] in which [poll()]
    finds the process running: the clock when the timeout is looked at,
    and what [readline()] gave, decoded. [None] stands for a round without
    a line: no [stdout], an empty read, an exception of the read. *)
Record round := { round_time : float; round_line : option string }.

(** How the loop ends. *)
Inductive loop_end := ProcessExited | MonitorStopped | TimedOut.

(** What [read_with_monitoring] does: it returns the output or raises
    [subprocess.TimeoutExpired]. *)
Inductive read_result :=
| Output (text : string)
| TimeoutExpired.

Section Readers.

Context {decoder : JsonDecoder}.

(** The loop of [ProcessStreamReader.read_with_monitoring]. The process
    runs during [rounds] and has exited when the loop comes round again,
    at [exit_time]. *)
Fixpoint read_rounds (timeout : option Z) (start_time : float) (rounds : list round)
  (exit_time : float) (output_lines : list string) (s : monitor)
  : loop_end * list string * monitor :=
  match rounds with
  | [] =>
      if timeout_expired timeout start_time exit_time then (TimedOut, output_lines, s)
      else (ProcessExited, output_lines, s)
  | r :: rounds' =>
      if timeout_expired timeout start_time (round_time r) then (TimedOut, output_lines, s)
      else if should_stop s then (MonitorStopped, output_lines, s)
      else
        match round_line r with
        | Some decoded_line =>
            let output_lines := output_lines ++ [decoded_line] in
            let s := ingest (PyStr.strip decoded_line) s in
            if should_stop s then (MonitorStopped, output_lines, s)
            else read_rounds timeout start_time rounds' exit_time output_lines s
        | None => read_rounds timeout start_time rounds' exit_time output_lines s
        end
  end.

(** The [finally] clause: what [read()] still gives is added to the output
    and ingested line by line. [None] stands for no [stdout], an empty read
    or an exception of the read. *)
Definition drain (remaining_output : option string) (output_lines : list string)
  (s : monitor) : list string * monitor :=
  match remaining_output with
  | Some decoded_output =>
      (output_lines ++ [decoded_output],
       process_lines (PyStr.split newline decoded_output) s)
  | None => (output_lines, s)
  end.

(** [ProcessStreamReader.read_with_monitoring] *)
Definition read_with_monitoring (timeout : option Z) (start_time : float)
  (rounds : list round) (exit_time : float) (remaining_output : option string)
  (s : monitor) : read_result * monitor :=
  let '(ending, output_lines, s) :=
    read_rounds timeout start_time rounds exit_time [] s in
  let '(output_lines, s) := drain remaining_output output_lines s in
  (match ending with
   | TimedOut => TimeoutExpired
   | _ => Output (join output_lines)
   end, s).

End Readers.

(** A round of [EnhancedProcessStreamReader.read_with_monitoring]: the
    clock is read once more after a line, for the log. *)
Record enhanced_round := {
  enhanced_time : float;
  enhanced_line : option string;
  log_time : float
}.

Definition plain_round (r : enhanced_round) : round :=
  {| round_time := enhanced_time r; round_line := enhanced_line r |}.

(** The chunks not yet handed to the runner, the time of the last
    hand-over, and the texts the runner's [_update_real_time_log] was called
    with. *)
Record log_state := {
  output_chunk_buffer : list string;
  last_log_update : float;
  handed : list string
}.

(** [EnhancedProcessStreamReader._update_real_time_log] *)
Definition _update_real_time_log (has_runner : bool) (output_chunks : list string)
  (handed_so_far : list string) : list string :=
  match output_chunks with
  | [] => handed_so_far
  | _ => if has_runner then handed_so_far ++ [join output_chunks] else handed_so_far
  end.

(** The chunk buffer is handed over when two seconds have passed or fifty
    chunks have gathered. *)
Definition flush_if_due (has_runner : bool) (current_time : float) (log : log_state)
  : log_state :=
  if PrimFloat.ltb 2%float (PrimFloat.sub current_time (last_log_update log))
     || (50 <=? length (output_chunk_buffer log))%nat
  then {| output_chunk_buffer := [];
          last_log_update := current_time;
          handed := _update_real_time_log has_runner (output_chunk_buffer log)
                      (handed log) |}
  else log.

Definition add_chunk (chunk : string) (log : log_state) : log_state :=
  {| output_chunk_buffer := output_chunk_buffer log ++ [chunk];
     last_log_update := last_log_update log;
     handed := handed log |}.

Section Enhanced_reader.

Context {decoder : JsonDecoder}.

(** The loop of [EnhancedProcessStreamReader.read_with_monitoring]. *)
Fixpoint enhanced_rounds (has_runner : bool) (timeout : option Z) (start_time : float)
  (rounds : list enhanced_round) (exit_time : float) (output_lines : list string)
  (log : log_state) (s : monitor) : loop_end * list string * log_state * monitor :=
  match rounds with
  | [] =>
      if timeout_expired timeout start_time exit_time
      then (TimedOut, output_lines, log, s)
      else (ProcessExited, output_lines, log, s)
  | r :: rounds' =>
      if timeout_expired timeout start_time (enhanced_time r)
      then (TimedOut, output_lines, log, s)
      else if should_stop s then (MonitorStopped, output_lines, log, s)
      else
        match enhanced_line r with
        | Some decoded_line =>
            let output_lines := output_lines ++ [decoded_line] in
            let log := add_chunk decoded_line log in
            let s := ingest (PyStr.strip decoded_line) s in
            let log := flush_if_due has_runner (log_time r) log in
            if should_stop s then (MonitorStopped, output_lines, log, s)
            else enhanced_rounds has_runner timeout start_time rounds' exit_time
                   output_lines log s
        | None =>
            enhanced_rounds has_runner timeout start_time rounds' exit_time
              output_lines log s
        end
  end.

(** The loop and the [finally] clause: how the loop ended, the output
    lines, the texts handed to the runner, the monitor. *)
Definition enhanced_run (has_runner : bool) (timeout : option Z)
  (start_time first_log_time : float) (rounds : list enhanced_round) (exit_time : float)
  (remaining_output : option string) (s : monitor)
  : loop_end * list string * list string * monitor :=
  let log := {| output_chunk_buffer := []; last_log_update := first_log_time;
                handed := [] |} in
  let '(ending, output_lines, log, s) :=
    enhanced_rounds has_runner timeout start_time rounds exit_time [] log s in
  let '(output_lines, s) := drain remaining_output output_lines s in
  let log := match remaining_output with
             | Some decoded_output => add_chunk decoded_output log
             | None => log
             end in
  (ending, output_lines,
   _update_real_time_log has_runner (output_chunk_buffer log) (handed log), s).

(** [EnhancedProcessStreamReader.read_with_monitoring]: the result, the
    monitor, and the texts handed to the runner. *)
Definition enhanced_read_with_monitoring (has_runner : bool) (timeout : option Z)
  (start_time first_log_time : float) (rounds : list enhanced_round) (exit_time : float)
  (remaining_output : option string) (s : monitor)
  : read_result * monitor * list string :=
  let '(ending, output_lines, handed_over, s) :=
    enhanced_run has_runner timeout start_time first_log_time rounds exit_time
      remaining_output s in
  (match ending with
   | TimedOut => TimeoutExpired
   | _ => Output (join output_lines)
   end, s, handed_over).

End Enhanced_reader.

(** A text that [readline()] gives before the end of the stream: it ends
    with its only line feed. *)
Definition is_line (text : string) : bool :=
  match split_once newline text with
  | Some (_, EmptyString) => true
  | _ => false
  end.

Definition lines_only (rounds : list round) : Prop :=
  Forall (fun r => match round_line r with
                   | Some text => is_line text = true
                   | None => True
                   end) rounds.

(** What the reader has ingested after reading [lines]. *)
Definition ingested {decoder : JsonDecoder} (lines : list string) (s : monitor) : monitor :=
  fold_left (fun s line => ingest (PyStr.strip line) s) lines s.



(** A process that writes an event, idles, writes a second event and
    exits, leaving a third one unread. *)
Definition event_line : string := String.append read_event (String newline EmptyString).




Definition two_event_rounds : list enhanced_round :=
  [ {| enhanced_time := 1; enhanced_line := Some event_line; log_time := 1 |};
    {| enhanced_time := 2; enhanced_line := None; log_time := 2 |};
    {| enhanced_time := 5; enhanced_line := Some event_line; log_time := 5 |} ].

(** ** The pattern extractor *)

(** [[^{}]] *)
Definition not_brace (c : ascii) : bool :=
  negb (Ascii.eqb c "{") && negb (Ascii.eqb c "}").

(** The pattern of [_extract_tool_use_block]: an object without inner
    braces that holds the type tool_use. *)
Definition tool_use_block_pattern : Re.regex :=
  [Re.Lit "{"; Re.Star not_brace; Re.Lit (PyStr.js "'type'")] ++ Re.colon
  ++ [Re.Lit (PyStr.js "'tool_use'"); Re.Star not_brace; Re.Lit "}"].

(** [re.findall] for a pattern without groups: the matched texts. *)
Definition findall_texts (r : Re.regex) (s : string) : list string :=
  map (fun groups => hd EmptyString groups) (Re.findall (Re.group r) s).

Section Extraction.

Context {decoder : JsonDecoder}.

(** The body of the loop of [_extract_tool_use_block]. *)
Definition _extract_block (matched : string) : M unit :=
  try_except
    (tool_data <- lift (json_loads matched) ;;
     tool_name <- lift (py_get tool_data "name" (PStr EmptyString)) ;;
     tool_id <- lift (py_get tool_data "id" (PStr EmptyString)) ;;
     if truthy tool_name then _handle_tool_call tool_name tool_id
     else ret tt)%M
    (fun e => if is_decode_error e then ret tt else raise e).

(** [_extract_tool_use_block] *)
Definition _extract_tool_use_block (line : string) : M unit :=
  except_pass (for_each _extract_block (findall_texts tool_use_block_pattern line)).

End Extraction.

(** A line with two flat tool_use objects, the second without a name. *)
Definition two_blocks : string :=
  PyStr.js "x {'type':'tool_use','id':'toolu_1','name':'Bash'} y {'id':'toolu_2','type':'tool_use'}".

(** A usage event whose input tokens are too many for a float. *)
Definition huge_usage : pyval := usage_of (10 ^ 400) 0.

(** The two lines of an event torn behind its marker. *)
Definition event_head : string := PyStr.slice_to 44 bash_event.
Definition event_tail : string := PyStr.slice_from 44 bash_event.

(** Rounds in which a process writes three events, read under a cap of
    one call. *)
Definition three_event_rounds : list round :=
  [ {| round_time := 1; round_line := Some event_line |};
    {| round_time := 2; round_line := Some event_line |};
    {| round_time := 3; round_line := Some event_line |} ].

(** A monitor that is not stopped has recorded no cost or is under its
    cost cap. *)
Definition under_cost_cap (s : monitor) : Prop :=
  should_stop s = false ->
  current_cost_usd s = 0%float
  \/ PrimFloat.leb (max_cost_usd s) (current_cost_usd s) = false.

(** A run of two usage events of a thousand input tokens. *)
Definition light_usage_run : list op :=
  [HandleUsageData (usage_of 1000 0) sonnet; ProcessOutputLine bash_event;
   HandleUsageData (usage_of 1000 0) sonnet].

(** * Properties *)

(** ** Counters *)

Section Counter_properties.

Context {K : Type} `{Countable K}.

Implicit Types (key k : K) (d : gmap K Z).

Lemma sum_counts_empty : sum_counts (∅ : gmap K Z) = 0.
Proof. apply map_fold_empty. Qed.

Lemma sum_counts_insert_fresh key (n : Z) d :
  d !! key = None -> sum_counts (<[key := n]> d) = n + sum_counts d.
Proof.
  intros Hfresh. unfold sum_counts.
  rewrite map_fold_insert_L; [reflexivity | intros; lia | exact Hfresh].
Qed.

Lemma sum_counts_delete key (n : Z) d :
  d !! key = Some n -> sum_counts d = n + sum_counts (delete key d).
Proof.
  intros Hin. unfold sum_counts.
  rewrite (map_fold_delete_L _ _ key n d); [reflexivity | intros; lia | exact Hin].
Qed.

Lemma sum_counts_insert key (n : Z) d :
  sum_counts (<[key := n]> d) = n - default 0 (d !! key) + sum_counts d.
Proof.
  destruct (d !! key) as [n0|] eqn:Hkey; simpl.
  - rewrite <- (insert_delete_eq d key n).
    rewrite sum_counts_insert_fresh by apply lookup_delete_eq.
    rewrite (sum_counts_delete key n0 d Hkey). lia.
  - rewrite sum_counts_insert_fresh by exact Hkey. lia.
Qed.

Lemma getitem_value key d : fst (getitem key d) = default 0 (d !! key).
Proof. unfold getitem. destruct (d !! key); reflexivity. Qed.

Lemma getitem_lookup key k d :
  default 0 (snd (getitem key d) !! k) = default 0 (d !! k).
Proof.
  unfold getitem. destruct (d !! key) eqn:Hkey; simpl; [reflexivity|].
  destruct (decide (key = k)) as [->|Hne].
  - rewrite lookup_insert_eq, Hkey. reflexivity.
  - rewrite lookup_insert_ne by exact Hne. reflexivity.
Qed.

Lemma sum_counts_getitem key d : sum_counts (snd (getitem key d)) = sum_counts d.
Proof.
  unfold getitem. destruct (d !! key) eqn:Hkey; simpl; [reflexivity|].
  rewrite sum_counts_insert_fresh by exact Hkey. lia.
Qed.

Lemma sum_counts_increment key d : sum_counts (increment key d) = sum_counts d + 1.
Proof.
  unfold increment. rewrite sum_counts_insert, getitem_value. lia.
Qed.

Lemma increment_lookup key k d :
  default 0 (increment key d !! k)
  = default 0 (d !! k) + (if decide (key = k) then 1 else 0).
Proof.
  unfold increment. rewrite getitem_value.
  destruct (decide (key = k)) as [->|Hne].
  - rewrite lookup_insert_eq. reflexivity.
  - rewrite lookup_insert_ne by exact Hne. lia.
Qed.

End Counter_properties.

(** ** One tool call *)

Lemma handle_tool_call_result (tool_name tool_id : pyval) (s : monitor) :
  tool_call_result tool_name tool_id s (_handle_tool_call tool_name tool_id s).
Proof.
  unfold _handle_tool_call, bind, lift, modify, get.
  destruct (_detect_tool_id_format tool_id) as [id_format|e] eqn:Hid;
    [|apply IdWithoutFormat; exact Hid].
  change (total_cap_reached (count_id_format id_format s)) with (total_cap_reached s).
  destruct (total_cap_reached s) as [m|] eqn:Hcap.
  { destruct (format_int m) as [[]|e] eqn:Hwrite.
    - apply (RejectedByTotalCap _ _ _ id_format m); assumption.
    - apply (TotalCapNotWritten _ _ _ id_format m e); assumption. }
  destruct (hashable tool_name) as [name|e] eqn:Hname;
    [|apply (NameWithoutHash _ _ _ id_format e); assumption].
  change (tool_limit_of name (count_id_format id_format s)) with (tool_limit_of name s).
  change (tool_calls (count_id_format id_format s)) with (tool_calls s).
  pose proof (getitem_value name (tool_calls s)) as Hval.
  destruct (getitem name (tool_calls s)) as [current_count calls] eqn:Hget.
  cbn [fst] in Hval.
  assert (Hcalls : calls = snd (getitem name (tool_calls s)))
    by (rewrite Hget; reflexivity).
  fold (calls_of name s) in Hval.
  destruct (tool_limit_reached (tool_limit_of name s) current_count)
    as [limit|] eqn:Hlimit; rewrite Hval in Hlimit; rewrite Hcalls.
  - destruct (format_int limit) as [[]|e] eqn:Hwrite.
    + apply (RejectedByToolLimit _ _ _ id_format name limit); assumption.
    + apply (ToolLimitNotWritten _ _ _ id_format name limit e); assumption.
  - change (near_total_cap
              (count_call name
                 (set_tool_calls (snd (getitem name (tool_calls s)))
                    (count_id_format id_format s))))
      with (near_total_cap s).
    apply (Counted _ _ _ id_format name); assumption.
Qed.

Lemma total_cap_reached_spec (s : monitor) :
  match total_cap_reached s with
  | Some m => max_total_calls s = Some m /\ m <= total_calls s
  | None => forall m, max_total_calls s = Some m -> total_calls s < m
  end.
Proof.
  unfold total_cap_reached. destruct (max_total_calls s) as [m|]; [|discriminate].
  destruct (m <=? total_calls s) eqn:Hle.
  - split; [reflexivity | lia].
  - intros m' [= <-]. lia.
Qed.

(** A tool call whose id has a format adds one to the id-format
    distribution, however it ends; a call whose id has none changes
    nothing. *)
Lemma handle_tool_call_id_formats (tool_name tool_id : pyval) (s : monitor) :
  match _detect_tool_id_format tool_id with
  | Return id_format =>
      id_format_stats (exec (_handle_tool_call tool_name tool_id) s)
      = increment id_format (id_format_stats s)
      /\ sum_counts (id_format_stats (exec (_handle_tool_call tool_name tool_id) s))
         = sum_counts (id_format_stats s) + 1
  | Raise e => _handle_tool_call tool_name tool_id s = (Raise e, s)
  end.
Proof.
  unfold exec.
  destruct (handle_tool_call_result tool_name tool_id s) as
    [e Hid|id_format m e Hid|id_format m Hid|id_format e Hid|id_format name limit e Hid
    |id_format name limit Hid|id_format name Hid];
    rewrite Hid; cbn [snd]; try reflexivity;
    (split; [reflexivity | apply sum_counts_increment]).
Qed.

(** The sum of the id-format distribution never goes down, and goes up by
    at most one. *)
Lemma handle_tool_call_id_sum (tool_name tool_id : pyval) (s : monitor) :
  sum_counts (id_format_stats s)
  <= sum_counts (id_format_stats (exec (_handle_tool_call tool_name tool_id) s))
  <= sum_counts (id_format_stats s) + 1.
Proof.
  pose proof (handle_tool_call_id_formats tool_name tool_id s) as Hids.
  destruct (_detect_tool_id_format tool_id).
  - destruct Hids as [_ ->]. lia.
  - unfold exec. rewrite Hids. cbn [snd]. lia.
Qed.

(** A tool call never lowers a count, and adds at most one call. *)
Lemma handle_tool_call_counts (tool_name tool_id : pyval) (s : monitor) :
  let s' := exec (_handle_tool_call tool_name tool_id) s in
  (total_calls s' = total_calls s /\ forall k, calls_of k s' = calls_of k s)
  \/ (exists name,
        hashable tool_name = Return name
        /\ total_calls s' = total_calls s + 1
        /\ forall k, calls_of k s' = calls_of k s + (if decide (name = k) then 1 else 0)).
Proof.
  cbn zeta. unfold exec.
  destruct (handle_tool_call_result tool_name tool_id s) as
    [e Hid|id_format m e Hid|id_format m Hid|id_format e Hid|id_format name limit e Hid
    |id_format name limit Hid|id_format name Hid Hcap Hname];
    unfold calls_of; cbn [snd].
  1-4: left; split; reflexivity.
  1-2: left; split; [reflexivity | intros k; apply getitem_lookup].
  right. exists name. split; [exact Hname|]. split; [reflexivity|]. intros k.
  cbn. rewrite increment_lookup, getitem_lookup. reflexivity.
Qed.

(** What a tool call leaves alone. *)
Lemma handle_tool_call_frame (tool_name tool_id : pyval) (s : monitor) :
  let s' := exec (_handle_tool_call tool_name tool_id) s in
  tool_limits s' = tool_limits s
  /\ max_total_calls s' = max_total_calls s
  /\ max_cost_usd s' = max_cost_usd s
  /\ current_cost_usd s' = current_cost_usd s
  /\ total_input_tokens s' = total_input_tokens s
  /\ total_output_tokens s' = total_output_tokens s
  /\ _json_buffer s' = _json_buffer s
  /\ _in_json_block s' = _in_json_block s
  /\ stop_callbacks s' = stop_callbacks s
  /\ (should_stop s = true -> should_stop s' = true).
Proof.
  cbn zeta. unfold exec.
  destruct (handle_tool_call_result tool_name tool_id s); cbn;
    repeat split; auto.
Qed.

Lemma with_callbacks_eq (callbacks : list callback) (s : monitor) :
  with_callbacks callbacks s
  = {| tool_limits := tool_limits s; max_total_calls := max_total_calls s;
       tool_calls := tool_calls s; total_calls := total_calls s;
       id_format_stats := id_format_stats s; max_cost_usd := max_cost_usd s;
       current_cost_usd := current_cost_usd s;
       total_input_tokens := total_input_tokens s;
       total_output_tokens := total_output_tokens s;
       should_stop := should_stop s;
       stop_callbacks := stop_callbacks s ++ callbacks;
       notified := notified s;
       _json_buffer := _json_buffer s; _in_json_block := _in_json_block s |}.
Proof.
  revert s. induction callbacks as [|cb callbacks IH]; intros s; cbn [with_callbacks fold_left].
  - rewrite app_nil_r. destruct s; reflexivity.
  - fold (with_callbacks callbacks (add_stop_callback cb s)). rewrite IH. cbn.
    rewrite <- app_assoc. reflexivity.
Qed.

Lemma handle_tool_call_counted (tool_name tool_id : pyval) (s : monitor)
  (id_format : string) (name : pykey) :
  _detect_tool_id_format tool_id = Return id_format ->
  total_cap_reached s = None ->
  hashable tool_name = Return name ->
  tool_limit_reached (tool_limit_of name s) (calls_of name s) = None ->
  _handle_tool_call tool_name tool_id s
  = (near_total_cap s,
     count_call name
       (set_tool_calls (snd (getitem name (tool_calls s))) (count_id_format id_format s))).
Proof.
  intros Hid Hcap Hname Hlimit.
  destruct (handle_tool_call_result tool_name tool_id s); congruence.
Qed.

Lemma handle_tool_call_rejected_by_cap (tool_name tool_id : pyval) (s : monitor)
  (id_format : string) (m : Z) :
  _detect_tool_id_format tool_id = Return id_format ->
  total_cap_reached s = Some m ->
  _handle_tool_call tool_name tool_id s
  = match format_int m with
    | Return _ => (Return tt, stop (TotalCallsReached m) (count_id_format id_format s))
    | Raise e => (Raise e, count_id_format id_format s)
    end.
Proof.
  intros Hid Hcap.
  destruct (handle_tool_call_result tool_name tool_id s) as
    [e Hid'|id_format' m' e Hid' Hcap' Hw|id_format' m' Hid' Hcap' Hw|id_format' e Hid' Hcap'
    |id_format' name limit e Hid' Hcap'|id_format' name limit Hid' Hcap'
    |id_format' name Hid' Hcap']; try congruence.
  - assert (m' = m) as -> by congruence. rewrite Hw. congruence.
  - assert (m' = m) as -> by congruence. rewrite Hw. congruence.
Qed.

Lemma increment_getitem `{Countable K} (key : K) (d : gmap K Z) :
  increment key (snd (getitem key d)) = <[key := default 0 (d !! key) + 1]> d.
Proof.
  unfold increment, getitem. destruct (d !! key) as [n|] eqn:Hkey; cbn [snd fst default].
  - rewrite Hkey. reflexivity.
  - rewrite lookup_insert_eq. cbn [fst]. apply insert_insert_eq.
Qed.

Lemma detect_tool_id_format_str (tool_id : string) :
  exists id_format, _detect_tool_id_format (PStr tool_id) = Return id_format.
Proof. eexists. reflexivity. Qed.

Lemma ledger_ok_init limits max_total max_cost :
  ledger_ok (init limits max_total max_cost).
Proof.
  unfold ledger_ok, sum_counts. simpl. rewrite !map_fold_empty.
  repeat split; intros; lia.
Qed.

Lemma ledger_ok_tool_call (tool_name tool_id : pyval) :
  keeps ledger_ok (_handle_tool_call tool_name tool_id).
Proof.
  intros s (Hsum & Hids & Hpos & Hmax). unfold exec.
  pose proof (total_cap_reached_spec s) as Hcap.
  destruct (handle_tool_call_result tool_name tool_id s) as
    [e Hid|id_format m e Hid|id_format m Hid|id_format e Hid|id_format name limit e Hid
    |id_format name limit Hid|id_format name Hid Hm];
    unfold ledger_ok; cbn;
    rewrite ?sum_counts_increment, ?sum_counts_getitem;
    try (repeat split; auto; lia).
  rewrite Hm in Hcap.
  repeat split; try lia. intros m Hsome. specialize (Hcap m Hsome). lia.
Qed.

Lemma ledger_ok_usage : usage_invariant ledger_ok.
Proof.
  split.
  - intros v s H. exact H.
  - intros v s H. exact H.
  - intros cost s H. unfold add_cost. simpl.
    destruct (PrimFloat.leb _ _); exact H.
Qed.

Lemma ledger_ok_dispatch : dispatch_invariant ledger_ok.
Proof. split; [exact ledger_ok_usage | exact ledger_ok_tool_call]. Qed.

Lemma ledger_ok_pipeline : pipeline_invariant ledger_ok.
Proof.
  split; [exact ledger_ok_dispatch | intros text flag s H; exact H].
Qed.

Lemma ledger_ok_clear_counts (s : monitor) : ledger_ok (clear_counts s).
Proof.
  unfold ledger_ok, clear_counts, sum_counts. simpl. rewrite !map_fold_empty.
  repeat split; intros; lia.
Qed.

(** ** Invariants through the pipeline *)

Section Keeps.

Context {A B : Type} (I : monitor -> Prop).

Lemma keeps_ret (a : A) : keeps I (ret a).
Proof. intros s H. exact H. Qed.

Lemma keeps_raise (e : exn) : keeps I (@raise A e).
Proof. intros s H. exact H. Qed.

Lemma keeps_lift (o : outcome A) : keeps I (lift o).
Proof. intros s H. exact H. Qed.

Lemma keeps_get : keeps I get.
Proof. intros s H. exact H. Qed.

Lemma keeps_modify (f : monitor -> monitor) :
  (forall s, I s -> I (f s)) -> keeps I (modify f).
Proof. intros Hf s H. apply Hf, H. Qed.

Lemma keeps_bind (m : M A) (k : A -> M B) :
  keeps I m -> (forall a, keeps I (k a)) -> keeps I (bind m k).
Proof.
  intros Hm Hk s H. unfold exec, bind. specialize (Hm s H). unfold exec in Hm.
  destruct (m s) as [[a|e] s']; simpl in *; [apply Hk, Hm | exact Hm].
Qed.

Lemma keeps_try_except (body : M A) (handler : exn -> M A) :
  keeps I body -> (forall e, keeps I (handler e)) -> keeps I (try_except body handler).
Proof.
  intros Hm Hh s H. unfold exec, try_except. specialize (Hm s H). unfold exec in Hm.
  destruct (body s) as [[a|e] s']; simpl in *; [exact Hm | apply Hh, Hm].
Qed.

End Keeps.

Lemma keeps_except_pass (I : monitor -> Prop) (body : M unit) :
  keeps I body -> keeps I (except_pass body).
Proof. intros H. apply keeps_try_except; [exact H | intros e; apply keeps_ret]. Qed.

Lemma keeps_false_on_decode_error (I : monitor -> Prop) (body : M bool) :
  keeps I body -> keeps I (false_on_decode_error body).
Proof.
  intros H. apply keeps_try_except; [exact H|].
  intros e. destruct (is_decode_error e); [apply keeps_ret | apply keeps_raise].
Qed.

Lemma keeps_for_each {A : Type} (I : monitor -> Prop) (body : A -> M unit) (l : list A) :
  (forall x, keeps I (body x)) -> keeps I (for_each body l).
Proof.
  intros Hbody. induction l as [|x l IH]; simpl.
  - apply keeps_ret.
  - apply keeps_bind; [apply Hbody | intros _; exact IH].
Qed.

(** One step through a computation built from the combinators. *)
Ltac keeps_step :=
  match goal with
  | |- keeps _ (bind _ _) => apply keeps_bind; [|intros ?]
  | |- keeps _ (ret _) => apply keeps_ret
  | |- keeps _ (raise _) => apply keeps_raise
  | |- keeps _ (lift _) => apply keeps_lift
  | |- keeps _ get => apply keeps_get
  | |- keeps _ (except_pass _) => apply keeps_except_pass
  | |- keeps _ (false_on_decode_error _) => apply keeps_false_on_decode_error
  | |- keeps _ (try_except _ _) => apply keeps_try_except; [|intros ?]
  | |- keeps _ (for_each _ _) => apply keeps_for_each; intros ?
  | |- keeps _ (if ?b then _ else _) => destruct b
  | |- keeps _ (match ?x with _ => _ end) => destruct x
  end.

Lemma keeps_handle_usage_data (I : monitor -> Prop) (usage model : pyval) :
  usage_invariant I -> keeps I (_handle_usage_data usage model).
Proof.
  intros HI. unfold _handle_usage_data.
  repeat keeps_step; try (apply keeps_modify; intros s0).
  all: first [apply (inv_input_tokens I HI) | apply (inv_output_tokens I HI)
             | apply (inv_add_cost I HI)].
Qed.

Section Dispatch.

Context (I : monitor -> Prop) (HI : dispatch_invariant I).

Lemma keeps_handle_content_item (item : pyval) : keeps I (_handle_content_item item).
Proof.
  unfold _handle_content_item. destruct item; try apply keeps_ret.
  repeat keeps_step. apply (inv_tool_call I HI).
Qed.

Lemma keeps_handle_json_message (data : pyval) : keeps I (_handle_json_message data).
Proof.
  unfold _handle_json_message.
  apply keeps_bind; [apply keeps_lift | intros message_type].
  destruct (is_str message_type "assistant"); [|apply keeps_ret].
  apply keeps_bind; [apply keeps_lift | intros message].
  apply keeps_bind; [apply keeps_lift | intros content].
  apply keeps_bind.
  - destruct content; try apply keeps_ret.
    apply keeps_for_each. intros item. apply keeps_handle_content_item.
  - intros _. apply keeps_bind; [apply keeps_lift | intros usage].
    destruct (truthy usage); [|apply keeps_ret].
    apply keeps_bind; [apply keeps_lift | intros model].
    apply keeps_handle_usage_data, (inv_usage I HI).
Qed.

Context {decoder : JsonDecoder}.

Lemma keeps_loads_and_handle (text : string) : keeps I (loads_and_handle text).
Proof.
  unfold loads_and_handle.
  apply keeps_bind; [apply keeps_lift | intros data; apply keeps_handle_json_message].
Qed.

Lemma keeps_try_parse_direct_json (json_str : string) :
  keeps I (_try_parse_direct_json json_str).
Proof.
  unfold _try_parse_direct_json. apply keeps_false_on_decode_error.
  apply keeps_bind; [apply keeps_loads_and_handle | intros _; apply keeps_ret].
Qed.

Lemma keeps_handle_match (found : string * string) : keeps I (_handle_match found).
Proof. destruct found as [tool_id tool_name]. apply (inv_tool_call I HI). Qed.

Lemma keeps_detect_tool_calls_in_line (line : string) :
  keeps I (_detect_tool_calls_in_line line).
Proof.
  unfold _detect_tool_calls_in_line. apply keeps_except_pass.
  destruct (Re.findall2 tool_use_pattern line) as [|found _].
  - apply keeps_for_each, keeps_handle_match.
  - apply keeps_handle_match.
Qed.

Lemma keeps_extract_and_handle_embedded_json (line : string) :
  keeps I (_extract_and_handle_embedded_json line).
Proof.
  unfold _extract_and_handle_embedded_json. apply keeps_except_pass.
  apply keeps_for_each. intros start_pattern. unfold _extract_at.
  destruct (PyStr.find line start_pattern); [|apply keeps_ret].
  destruct (find_json_end _ _ _ _ _); [|apply keeps_ret].
  apply keeps_try_except; [apply keeps_loads_and_handle|].
  intros e. destruct (is_decode_error e); [apply keeps_ret | apply keeps_raise].
Qed.

End Dispatch.

Section Pipeline_invariants.

Context {decoder : JsonDecoder} (I : monitor -> Prop) (HI : pipeline_invariant I).

Lemma keeps_try_parse_buffered_json : keeps I _try_parse_buffered_json.
Proof.
  unfold _try_parse_buffered_json. apply keeps_try_except.
  - apply keeps_bind; [apply keeps_get | intros s].
    destruct (String.eqb (_json_buffer s) EmptyString); [apply keeps_ret|].
    apply keeps_bind; [apply keeps_loads_and_handle, HI | intros _].
    apply keeps_modify. intros s0. apply (inv_json_buffer I HI).
  - intros e. destruct (is_decode_error e); [|apply keeps_ret].
    apply keeps_bind; [apply keeps_get | intros s].
    destruct (buffer_ceiling <? PyStr.len (_json_buffer s)); [|apply keeps_ret].
    apply keeps_modify. intros s0. apply (inv_json_buffer I HI).
Qed.

Lemma keeps_process_json_buffer (line : string) : keeps I (_process_json_buffer line).
Proof.
  unfold _process_json_buffer. apply keeps_except_pass.
  destruct (first_marker json_starts line) as [start_pos|].
  - apply keeps_bind; [apply keeps_get | intros s].
    apply keeps_bind.
    { destruct (String.eqb (_json_buffer s) EmptyString);
        [apply keeps_ret | apply keeps_try_parse_buffered_json]. }
    intros _. apply keeps_bind.
    { destruct (_ && _); [apply keeps_try_parse_direct_json, HI | apply keeps_ret]. }
    intros parsed. destruct parsed; [apply keeps_ret|].
    apply keeps_modify. intros s0. apply (inv_json_buffer I HI).
  - apply keeps_bind; [apply keeps_get | intros s].
    destruct (_in_json_block s); [|apply keeps_ret].
    apply keeps_bind; [|intros _; apply keeps_try_parse_buffered_json].
    apply keeps_modify. intros s0. apply (inv_json_buffer I HI).
Qed.

Lemma keeps_process_output_line (line : string) : keeps I (_process_output_line line).
Proof.
  unfold _process_output_line. apply keeps_except_pass.
  destruct (String.eqb (PyStr.strip line) EmptyString); [apply keeps_ret|].
  apply keeps_bind; [apply keeps_process_json_buffer | intros _].
  apply keeps_bind.
  { destruct (_ && _); [|apply keeps_ret]. apply keeps_false_on_decode_error.
    apply keeps_bind; [apply keeps_loads_and_handle, HI | intros _; apply keeps_ret]. }
  intros handled. destruct handled; [apply keeps_ret|].
  apply keeps_bind; [apply keeps_detect_tool_calls_in_line, HI | intros _].
  destruct (existsb _ _); [|apply keeps_ret].
  apply keeps_extract_and_handle_embedded_json, HI.
Qed.

Lemma ingest_keeps (line : string) (s : monitor) : I s -> I (ingest line s).
Proof. apply keeps_process_output_line. Qed.


End Pipeline_invariants.

(** ** From one operation to a run *)

(** An invariant of the pipeline is an invariant of every operation, when
    the clearing of the counters that opens an analysis and the
    registration of a callback keep it too. *)
Lemma step_keeps {decoder : JsonDecoder} (I : monitor -> Prop) (s : monitor) (o : op) :
  dispatch_invariant I ->
  (forall line s', I s' -> I (ingest line s')) ->
  (is_analysis o = true -> forall s', I s' -> I (clear_counts s')) ->
  (is_registration o = true -> forall cb s', I s' -> I (add_stop_callback cb s')) ->
  I s -> I (step s o).
Proof.
  intros HI Hingest Hclear Hadd H. destruct o; simpl.
  - apply (Hadd eq_refl), H.
  - apply Hingest, H.
  - apply keeps_handle_json_message; [exact HI | exact H].
  - apply (inv_tool_call I HI), H.
  - apply keeps_handle_usage_data; [exact (inv_usage I HI) | exact H].
  - unfold analyze_completed_output.
    assert (Hreplay : forall lines processed s',
               I s' -> I (snd (replay lines processed s'))).
    { induction lines as [|line lines IH]; intros processed s' Hs'; simpl.
      - exact Hs'.
      - destruct (String.eqb (PyStr.strip line) EmptyString);
          [apply IH, Hs' | apply IH, Hingest, Hs']. }
    specialize (Hreplay (PyStr.split (ascii_of_nat 10) output_text) 0
                  (clear_counts s) (Hclear eq_refl s H)).
    destruct (replay _ 0 (clear_counts s)) as [processed s']. exact Hreplay.
  - exact H.
Qed.

Lemma run_keeps {decoder : JsonDecoder} (I : monitor -> Prop) (ops : list op) (s : monitor) :
  dispatch_invariant I ->
  (forall line s', I s' -> I (ingest line s')) ->
  (existsb is_analysis ops = true -> forall s', I s' -> I (clear_counts s')) ->
  (existsb is_registration ops = true ->
   forall cb s', I s' -> I (add_stop_callback cb s')) ->
  I s -> I (run ops s).
Proof.
  intros HI Hingest. revert s.
  induction ops as [|o ops IH]; intros s Hclear Hadd H; simpl.
  - exact H.
  - simpl in Hclear, Hadd. apply IH.
    + intros Hsome. apply Hclear. rewrite Hsome. apply orb_true_r.
    + intros Hsome. apply Hadd. rewrite Hsome. apply orb_true_r.
    + apply step_keeps; [exact HI | exact Hingest | | | exact H].
      * intros Ho. apply Hclear. rewrite Ho. reflexivity.
      * intros Ho. apply Hadd. rewrite Ho. reflexivity.
Qed.

Lemma run_keeps_pipeline {decoder : JsonDecoder} (I : monitor -> Prop) (ops : list op)
  (s : monitor) :
  pipeline_invariant I ->
  (existsb is_analysis ops = true -> forall s', I s' -> I (clear_counts s')) ->
  (existsb is_registration ops = true ->
   forall cb s', I s' -> I (add_stop_callback cb s')) ->
  I s -> I (run ops s).
Proof.
  intros HI. apply run_keeps; [exact (inv_dispatch I HI)|].
  intros line s'. apply ingest_keeps, HI.
Qed.

(** ** The call ledger *)

(** C4. With a total-call cap of 2 and no limit on Bash, three Bash
    tool-use events from the initial state leave the count of Bash at 2,
    the total at 2 and [should_stop] set; the monitor was not stopped
    after the second event, and the third event changes no call counter.
    Every stop callback registered on the monitor has been called once,
    with the reason that the total has reached 2. *)
Theorem three_bash_calls_under_cap_two
  (limits : gmap string Z) (max_cost : float) (callbacks : list callback)
  (id1 id2 id3 : string) :
  limits !! "Bash" = None ->
  let s2 := bash_twice limits max_cost callbacks id1 id2 in
  let s3 := bash_thrice limits max_cost callbacks id1 id2 id3 in
  tool_calls s3 = {[KStr "Bash" := 2]}
  /\ calls_of (KStr "Bash") s3 = 2
  /\ total_calls s3 = 2
  /\ should_stop s3 = true
  /\ should_stop s2 = false
  /\ tool_calls s3 = tool_calls s2
  /\ total_calls s3 = total_calls s2
  /\ notified s3 = notify_round callbacks (TotalCallsReached 2).
Proof.
  intros Hlimit s2 s3.
  assert (Hcounted : forall tool_id s,
             total_calls s < 2 ->
             max_total_calls s = Some 2 -> tool_limits s = limits ->
             let s' := exec (_handle_tool_call (PStr "Bash") (PStr tool_id)) s in
             tool_calls s' = <[KStr "Bash" := calls_of (KStr "Bash") s + 1]> (tool_calls s)
             /\ total_calls s' = total_calls s + 1
             /\ max_total_calls s' = Some 2 /\ tool_limits s' = limits
             /\ should_stop s' = should_stop s /\ notified s' = notified s
             /\ stop_callbacks s' = stop_callbacks s).
  { intros tool_id s Htotal Hmax Hlimits. cbn zeta. unfold exec.
    destruct (detect_tool_id_format_str tool_id) as [id_format Hid].
    rewrite (handle_tool_call_counted _ _ s id_format (KStr "Bash") Hid).
    - cbn [snd]. unfold calls_of. rewrite <- increment_getitem.
      repeat split; assumption.
    - unfold total_cap_reached. rewrite Hmax.
      destruct (2 <=? total_calls s) eqn:Hle; [apply Z.leb_le in Hle; lia | reflexivity].
    - reflexivity.
    - unfold tool_limit_of. rewrite Hlimits, Hlimit. reflexivity. }
  set (s0 := with_callbacks callbacks (init (Some limits) (Some 2) max_cost)).
  assert (H0 : tool_calls s0 = ∅ /\ total_calls s0 = 0 /\ max_total_calls s0 = Some 2
               /\ tool_limits s0 = limits /\ should_stop s0 = false /\ notified s0 = []
               /\ stop_callbacks s0 = callbacks).
  { subst s0. rewrite with_callbacks_eq. cbn. repeat split; reflexivity. }
  destruct H0 as (Hcalls0 & Htotal0 & Hmax0 & Hlimits0 & Hstop0 & Hnote0 & Hcbs0).
  set (s1 := exec (_handle_tool_call (PStr "Bash") (PStr id1)) s0).
  destruct (Hcounted id1 s0) as (Hcalls1 & Htotal1 & Hmax1 & Hlimits1 & Hstop1 & Hnote1 & Hcbs1);
    [lia | assumption | assumption |].
  fold s1 in Hcalls1, Htotal1, Hmax1, Hlimits1, Hstop1, Hnote1, Hcbs1.
  destruct (Hcounted id2 s1) as (Hcalls2 & Htotal2 & Hmax2 & Hlimits2 & Hstop2 & Hnote2 & Hcbs2);
    [lia | assumption | assumption |].
  change (exec (_handle_tool_call (PStr "Bash") (PStr id2)) s1) with s2
    in Hcalls2, Htotal2, Hmax2, Hlimits2, Hstop2, Hnote2, Hcbs2.
  unfold calls_of in Hcalls1, Hcalls2. rewrite Hcalls0 in Hcalls1.
  rewrite lookup_empty in Hcalls1. cbn in Hcalls1.
  rewrite Hcalls1, lookup_insert_eq, insert_insert_eq in Hcalls2. cbn in Hcalls2.
  rewrite insert_empty in Hcalls2.
  rewrite Htotal1, Htotal0 in Htotal2. cbn in Htotal2.
  assert (Hs3 : exists id_format,
             s3 = stop (TotalCallsReached 2) (count_id_format id_format s2)).
  { destruct (detect_tool_id_format_str id3) as [id_format Hid]. exists id_format.
    subst s3. unfold bash_thrice. fold s2. unfold exec.
    rewrite (handle_tool_call_rejected_by_cap _ _ s2 id_format 2 Hid).
    - reflexivity.
    - unfold total_cap_reached. rewrite Hmax2, Htotal2. reflexivity. }
  destruct Hs3 as [id_format ->]. unfold calls_of. cbn.
  rewrite Hcalls2, Htotal2, Hnote2, Hnote1, Hnote0, Hcbs2, Hcbs1, Hcbs0, Hstop2, Hstop1.
  rewrite lookup_singleton_eq, app_nil_r. repeat split; auto.
Qed.

Lemma three_bash_calls_under_cap_two_witness :
  let s3 := bash_thrice ∅ 10%float ["on_limit_reached"] "toolu_1" "toolu_2" "toolu_3" in
  calls_of (KStr "Bash") s3 = 2 /\ total_calls s3 = 2 /\ should_stop s3 = true
  /\ notified s3 = [("on_limit_reached", TotalCallsReached 2)].
Proof.
  destruct (three_bash_calls_under_cap_two ∅ 10%float ["on_limit_reached"]
              "toolu_1" "toolu_2" "toolu_3")
    as (_ & Hcount & Htotal & Hstop & _ & _ & _ & Hnote).
  - reflexivity.
  - repeat split; assumption.
Defined.

Lemma run_keeps_ledger_ok {decoder : JsonDecoder} (ops : list op) (s : monitor) :
  ledger_ok s -> ledger_ok (run ops s).
Proof.
  apply run_keeps_pipeline.
  - exact ledger_ok_pipeline.
  - intros _ s' _. apply ledger_ok_clear_counts.
  - intros _ cb s' H. exact H.
Qed.

Lemma reachable_ledger_ok {decoder : JsonDecoder} (s : monitor) :
  reachable s -> ledger_ok s.
Proof.
  intros (limits & max_total & max_cost & ops & ->).
  apply run_keeps_ledger_ok, ledger_ok_init.
Qed.

Lemma float_overflow_threshold_large : 1 < float_overflow_threshold.
Proof. vm_compute. reflexivity. Qed.

(** A quotient of magnitude at most one is a float. *)
Lemma int_truediv_returns (a b : Z) :
  b <> 0 -> Z.abs a <= Z.abs b -> exists q, int_truediv a b = Return q.
Proof.
  intros Hb Hab. unfold int_truediv.
  pose proof float_overflow_threshold_large as Hlarge.
  destruct (Z.abs b * float_overflow_threshold <=? Z.abs a) eqn:Hover.
  - apply Z.leb_le in Hover. generalize dependent float_overflow_threshold.
    intros threshold Hlarge Hover. nia.
  - eexists. reflexivity.
Qed.

Lemma get_statistics_returns (s : monitor) :
  ledger_ok s ->
  exists tool_percent,
    get_statistics s
    = Return {| stat_tool_calls := tool_calls s;
                stat_total_tool_calls := total_calls s;
                stat_max_total_calls := max_total_calls s;
                stat_tool_limits := tool_limits s;
                stat_id_format_stats := id_format_stats s;
                stat_current_cost_usd := current_cost_usd s;
                stat_max_cost_usd := max_cost_usd s;
                stat_total_input_tokens := total_input_tokens s;
                stat_total_output_tokens := total_output_tokens s;
                stat_cost_utilization := cost_utilization s;
                stat_tool_utilization := tool_percent |}.
Proof.
  intros (_ & _ & Hpos & Hmax). unfold get_statistics, tool_utilization.
  destruct (max_total_calls s) as [m|]; [|eexists; reflexivity].
  destruct (m =? 0) eqn:Hzero; [eexists; reflexivity|].
  apply Z.eqb_neq in Hzero. specialize (Hmax m eq_refl).
  destruct (int_truediv_returns (total_calls s) m Hzero) as [q ->]; [lia|].
  eexists. reflexivity.
Qed.

(** C5. In every state that a sequence of monitor operations reaches from
    the initial state, [total_calls] is the sum of the per-tool counts, and
    the statistics snapshot is produced and shows these two values as they
    are. *)
Theorem total_calls_is_sum_of_tool_counts {decoder : JsonDecoder} (s : monitor) :
  reachable s ->
  total_calls s = sum_counts (tool_calls s)
  /\ exists snapshot,
       get_statistics s = Return snapshot
       /\ stat_total_tool_calls snapshot = total_calls s
       /\ stat_tool_calls snapshot = tool_calls s
       /\ stat_total_tool_calls snapshot = sum_counts (stat_tool_calls snapshot).
Proof.
  intros Hreach. pose proof (reachable_ledger_ok s Hreach) as Hok.
  destruct (get_statistics_returns s Hok) as [tool_percent Hstats].
  destruct Hok as (Hsum & _). split; [exact Hsum|].
  eexists. split; [exact Hstats|]. simpl. auto.
Qed.

Lemma total_calls_is_sum_of_tool_counts_witness :
  total_calls short_run = sum_counts (tool_calls short_run)
  /\ exists snapshot,
       get_statistics short_run = Return snapshot
       /\ stat_total_tool_calls snapshot = total_calls short_run
       /\ stat_tool_calls snapshot = tool_calls short_run
       /\ stat_total_tool_calls snapshot = sum_counts (stat_tool_calls snapshot).
Proof.
  apply (total_calls_is_sum_of_tool_counts (decoder := py_json) short_run).
  exists None, None, 10%float,
    [ProcessOutputLine bash_event; HandleToolCall (PStr "Read") (PStr "call_0_ab")].
  reflexivity.
Defined.

(** C5, on an event that names its tool by the number 5: the line is
    dispatched twice, and the count of the key 5 and the total are both 2. *)
Lemma numbered_name_is_counted :
  tool_calls (ingest numbered_name_event fresh) = {[KInt 5 := 2]}
  /\ total_calls (ingest numbered_name_event fresh) = 2
  /\ sum_counts (tool_calls (ingest numbered_name_event fresh)) = 2.
Proof. vm_compute. repeat split; reflexivity. Qed.


Lemma detect_tool_id_format_error (tool_id : pyval) (e : exn) :
  _detect_tool_id_format tool_id = Raise e -> e = AttributeError.
Proof.
  destruct tool_id; cbn; try discriminate;
    match goal with |- context [if ?c then _ else _] => destruct c end; congruence.
Qed.






(** ** The cost ledger *)

Lemma int_truediv_million (n : Z) :
  Z.abs n < float_overflow_threshold -> exists q, int_truediv n 1000000 = Return q.
Proof.
  intros Hn. unfold int_truediv.
  destruct (Z.abs 1000000 * float_overflow_threshold <=? Z.abs n) eqn:Hover.
  - apply Z.leb_le in Hover. change (Z.abs 1000000) with 1000000 in Hover. lia.
  - eexists. reflexivity.
Qed.

Lemma py_add_int_returns (total : pynum) (n : Z) :
  Z.abs n < float_overflow_threshold -> exists sum, py_add total (PyInt n) = Return sum.
Proof.
  intros Hn. destruct total as [z|f]; simpl; [eexists; reflexivity|].
  unfold float_of_int.
  destruct (float_overflow_threshold <=? Z.abs n) eqn:Hover.
  - apply Z.leb_le in Hover. lia.
  - eexists. reflexivity.
Qed.

(** A usage object with integer token counts, not both zero, is recorded
    in full: tokens first, then the cost. *)
Lemma handle_usage_data_integers
  (d : list (string * pyval)) (model : string) (i o : Z) (s : monitor) :
  assoc_get d "input_tokens" = Some (PNum (PyInt i)) ->
  assoc_get d "output_tokens" = Some (PNum (PyInt o)) ->
  0 <= i < float_overflow_threshold ->
  0 <= o < float_overflow_threshold ->
  0 < i \/ 0 < o ->
  exists in_millions out_millions total_in total_out,
    int_truediv i 1000000 = Return in_millions
    /\ int_truediv o 1000000 = Return out_millions
    /\ py_add (total_input_tokens s) (PyInt i) = Return total_in
    /\ py_add (total_output_tokens s) (PyInt o) = Return total_out
    /\ _handle_usage_data (PDict d) (PStr model) s
       = (Return tt,
          add_cost
            (PrimFloat.add
               (PrimFloat.mul in_millions
                  (input_rate (default sonnet_rates (pricing !! model))))
               (PrimFloat.mul out_millions
                  (output_rate (default sonnet_rates (pricing !! model)))))
            (set_total_output_tokens total_out (set_total_input_tokens total_in s))).
Proof.
  intros Hin Hout Hi Ho Hsome.
  destruct (int_truediv_million i) as [in_millions Hdiv_in]; [lia|].
  destruct (int_truediv_million o) as [out_millions Hdiv_out]; [lia|].
  destruct (py_add_int_returns (total_input_tokens s) i) as [total_in Hadd_in]; [lia|].
  destruct (py_add_int_returns (total_output_tokens s) o) as [total_out Hadd_out]; [lia|].
  exists in_millions, out_millions, total_in, total_out.
  repeat (split; [assumption|]).
  assert (Hany : (if 0 <? i then true else 0 <? o) = true).
  { destruct (0 <? i) eqn:Hpos; [reflexivity|]. apply Z.ltb_lt. apply Z.ltb_ge in Hpos. lia. }
  unfold _handle_usage_data, bind, lift, ret, get, modify, py_get. simpl.
  rewrite Hin, Hout. simpl.
  destruct (0 <? i); simpl; [|rewrite Hany]; simpl;
    rewrite Hadd_in; simpl; rewrite Hadd_out; simpl;
    unfold usage_cost, per_million; rewrite Hdiv_in, Hdiv_out;
    destruct (pricing !! model); reflexivity.
Qed.

Lemma add_cost_fields (cost : float) (s : monitor) :
  let s' := add_cost cost s in
  current_cost_usd s' = PrimFloat.add (current_cost_usd s) cost
  /\ should_stop s'
     = (PrimFloat.leb (max_cost_usd s) (PrimFloat.add (current_cost_usd s) cost)
        || should_stop s)
  /\ total_input_tokens s' = total_input_tokens s
  /\ total_output_tokens s' = total_output_tokens s.
Proof.
  unfold add_cost. simpl.
  destruct (PrimFloat.leb _ _); simpl; repeat split; reflexivity.
Qed.

Lemma million_tokens_cost_three (model : string) (s : monitor) :
  default sonnet_rates (pricing !! model) = sonnet_rates ->
  _handle_usage_data million_input_tokens (PStr model) s
  = (Return tt,
     add_cost 3%float
       (set_total_output_tokens
          (match total_output_tokens s with
           | PyInt z => PyInt (z + 0)
           | PyFloat f => PyFloat (PrimFloat.add f 0%float)
           end)
          (set_total_input_tokens
             (match total_input_tokens s with
              | PyInt z => PyInt (z + 1000000)
              | PyFloat f => PyFloat (PrimFloat.add f 1000000%float)
              end) s))).
Proof.
  intros Hprice.
  destruct (handle_usage_data_integers
              [("input_tokens", PNum (PyInt 1000000)); ("output_tokens", PNum (PyInt 0))]
              model 1000000 0 s)
    as (in_millions & out_millions & total_in & total_out
        & Hin & Hout & Htotal_in & Htotal_out & Hrun);
    try reflexivity; try (split; [lia | vm_compute; reflexivity]); [left; lia|].
  unfold million_input_tokens, usage_of. rewrite Hrun, Hprice.
  assert (in_millions = 1%float) as -> by (vm_compute in Hin; congruence).
  assert (out_millions = 0%float) as -> by (vm_compute in Hout; congruence).
  replace total_in with
    (match total_input_tokens s with
     | PyInt z => PyInt (z + 1000000)
     | PyFloat f => PyFloat (PrimFloat.add f 1000000%float)
     end).
  2:{ destruct (total_input_tokens s); [simpl in Htotal_in; congruence|].
      vm_compute in Htotal_in. congruence. }
  replace total_out with
    (match total_output_tokens s with
     | PyInt z => PyInt (z + 0)
     | PyFloat f => PyFloat (PrimFloat.add f 0%float)
     end).
  2:{ destruct (total_output_tokens s); [simpl in Htotal_out; congruence|].
      vm_compute in Htotal_out. congruence. }
  reflexivity.
Qed.

(** C8. A usage event with integer token counts is priced at tokens
    divided by one million times the rate per million, the rates being
    those of the model's exact name in the table and those of the baseline
    model for any other name. The cost is added to the cumulative cost
    before the cap is looked at, so a cost that reaches past the cap stays
    counted. One million input tokens at 3 dollars per million add exactly
    3 dollars. *)
Theorem usage_is_priced_per_million_tokens :
  (forall model,
     pricing_get (PStr model) = Return (default sonnet_rates (pricing !! model)))
  /\ pricing !! "claude-3-5-sonnet-20241022" = Some sonnet_rates
  /\ input_rate sonnet_rates = 3%float
  /\ (forall d model i o s,
        assoc_get d "input_tokens" = Some (PNum (PyInt i)) ->
        assoc_get d "output_tokens" = Some (PNum (PyInt o)) ->
        0 <= i < float_overflow_threshold ->
        0 <= o < float_overflow_threshold ->
        0 < i \/ 0 < o ->
        exists in_millions out_millions,
          int_truediv i 1000000 = Return in_millions
          /\ int_truediv o 1000000 = Return out_millions
          /\ let price := default sonnet_rates (pricing !! model) in
             let new_cost :=
               PrimFloat.add (PrimFloat.mul in_millions (input_rate price))
                             (PrimFloat.mul out_millions (output_rate price)) in
             let s' := exec (_handle_usage_data (PDict d) (PStr model)) s in
             fst (_handle_usage_data (PDict d) (PStr model) s) = Return tt
             /\ current_cost_usd s' = PrimFloat.add (current_cost_usd s) new_cost
             /\ should_stop s'
                = (PrimFloat.leb (max_cost_usd s) (current_cost_usd s')
                   || should_stop s))
  /\ (forall model s,
        default sonnet_rates (pricing !! model) = sonnet_rates ->
        current_cost_usd (exec (_handle_usage_data million_input_tokens (PStr model)) s)
        = PrimFloat.add (current_cost_usd s) 3%float)
  /\ (forall limits max_total max_cost,
        current_cost_usd
          (exec (_handle_usage_data million_input_tokens sonnet)
             (init limits max_total max_cost))
        = 3%float)
  /\ (let s' := exec (_handle_usage_data million_input_tokens sonnet)
                  (init None None 2.5%float) in
      current_cost_usd s' = 3%float /\ should_stop s' = true).
Proof.
  split; [|split; [|split; [|split; [|split; [|split]]]]].
  - intros model. simpl. destruct (pricing !! model); reflexivity.
  - vm_compute. reflexivity.
  - reflexivity.
  - intros d model i o s Hin Hout Hi Ho Hsome.
    destruct (handle_usage_data_integers d model i o s Hin Hout Hi Ho Hsome)
      as (in_millions & out_millions & total_in & total_out
          & Hdiv_in & Hdiv_out & _ & _ & Hrun).
    exists in_millions, out_millions. repeat (split; [assumption|]).
    simpl. unfold exec. rewrite Hrun. simpl.
    split; [reflexivity|]. 
    match goal with |- context [add_cost ?c ?st] =>
      destruct (add_cost_fields c st) as (Hcost & Hstop & _) end.
    simpl in Hcost, Hstop. rewrite Hstop, Hcost. split; reflexivity.
  - intros model s Hprice. unfold exec.
    rewrite (million_tokens_cost_three model s Hprice). simpl.
    match goal with |- context [add_cost ?c ?st] =>
      destruct (add_cost_fields c st) as (Hcost & _) end.
    exact Hcost.
  - intros limits max_total max_cost. unfold exec, sonnet.
    rewrite million_tokens_cost_three by (vm_compute; reflexivity). simpl.
    match goal with |- context [add_cost ?c ?st] =>
      destruct (add_cost_fields c st) as (Hcost & _) end.
    rewrite Hcost. reflexivity.
  - vm_compute. split; reflexivity.
Qed.

(** ** After the stop flag is set *)

Lemma usage_keeps_calls_and_stop (s : monitor) :
  usage_invariant (fun s' =>
    (should_stop s = true -> should_stop s' = true)
    /\ total_calls s' = total_calls s /\ tool_calls s' = tool_calls s
    /\ id_format_stats s' = id_format_stats s).
Proof.
  split.
  - intros v s' H. exact H.
  - intros v s' H. exact H.
  - intros cost s' (Hstop & Htotal & Hcalls & Hids). unfold add_cost.
    destruct (PrimFloat.leb _ _); simpl; auto.
Qed.

(** C2, the code's side: a monitor stopped by its cost cap still counts a
    tool call, and a monitor stopped by its call cap still adds the tokens
    and the cost of a usage event. *)
Lemma counters_move_after_stop :
  should_stop stopped_by_cost = true
  /\ total_calls stopped_by_cost = 0
  /\ total_calls (exec (_handle_tool_call (PStr "Bash") (PStr "toolu_1")) stopped_by_cost)
     = 1
  /\ calls_of (KStr "Bash")
       (exec (_handle_tool_call (PStr "Bash") (PStr "toolu_1")) stopped_by_cost) = 1
  /\ should_stop stopped_by_cap = true
  /\ total_input_tokens stopped_by_cap = PyInt 0
  /\ current_cost_usd stopped_by_cap = 0%float
  /\ total_input_tokens
       (exec (_handle_usage_data million_input_tokens sonnet) stopped_by_cap)
     = PyInt 1000000
  /\ current_cost_usd
       (exec (_handle_usage_data million_input_tokens sonnet) stopped_by_cap)
     = 3%float.
Proof. vm_compute. repeat split; reflexivity. Qed.

(** C2, amended. In a state in which [should_stop] is true, a further
    tool-use event leaves [should_stop] true, lowers no call counter and
    leaves the cost and the token totals as they are. It leaves every call
    counter unchanged when the total-call cap or the tool's own limit is
    reached; otherwise, when its id has a format and its name can be a key,
    it is counted: [total_calls] and the count of the tool grow by one. A
    further usage event leaves [should_stop] true and the call counters
    unchanged, and its tokens and its cost are added to the totals (here
    for integer token counts, not both zero). *)
Theorem stop_persists_and_budget_gates_calls (s : monitor) :
  should_stop s = true ->
  (forall tool_name tool_id,
     let s' := exec (_handle_tool_call tool_name tool_id) s in
     should_stop s' = true
     /\ total_calls s <= total_calls s'
     /\ (forall k, calls_of k s <= calls_of k s')
     /\ current_cost_usd s' = current_cost_usd s
     /\ total_input_tokens s' = total_input_tokens s
     /\ total_output_tokens s' = total_output_tokens s
     /\ (total_cap_reached s <> None ->
         total_calls s' = total_calls s /\ forall k, calls_of k s' = calls_of k s)
     /\ (forall name,
           hashable tool_name = Return name ->
           budget_exhausted name s ->
           total_calls s' = total_calls s /\ forall k, calls_of k s' = calls_of k s)
     /\ (forall name id_format,
           hashable tool_name = Return name ->
           _detect_tool_id_format tool_id = Return id_format ->
           total_cap_reached s = None ->
           tool_limit_reached (tool_limit_of name s) (calls_of name s) = None ->
           total_calls s' = total_calls s + 1
           /\ forall k,
                calls_of k s' = calls_of k s + (if decide (name = k) then 1 else 0)))
  /\ (forall usage model,
        let s' := exec (_handle_usage_data usage model) s in
        should_stop s' = true
        /\ total_calls s' = total_calls s
        /\ tool_calls s' = tool_calls s)
  /\ (forall d model i o,
        assoc_get d "input_tokens" = Some (PNum (PyInt i)) ->
        assoc_get d "output_tokens" = Some (PNum (PyInt o)) ->
        0 <= i < float_overflow_threshold ->
        0 <= o < float_overflow_threshold ->
        0 < i \/ 0 < o ->
        exists in_millions out_millions total_in total_out,
          int_truediv i 1000000 = Return in_millions
          /\ int_truediv o 1000000 = Return out_millions
          /\ py_add (total_input_tokens s) (PyInt i) = Return total_in
          /\ py_add (total_output_tokens s) (PyInt o) = Return total_out
          /\ let price := default sonnet_rates (pricing !! model) in
             let s' := exec (_handle_usage_data (PDict d) (PStr model)) s in
             total_input_tokens s' = total_in
             /\ total_output_tokens s' = total_out
             /\ current_cost_usd s'
                = PrimFloat.add (current_cost_usd s)
                    (PrimFloat.add (PrimFloat.mul in_millions (input_rate price))
                                   (PrimFloat.mul out_millions (output_rate price)))).
Proof.
  intros Hstop. split; [|split].
  - intros tool_name tool_id s'.
    destruct (handle_tool_call_frame tool_name tool_id s)
      as (_ & _ & _ & Hcost & Hin & Hout & _ & _ & _ & Hkeep).
    pose proof (handle_tool_call_counts tool_name tool_id s) as Hcounts.
    fold s' in Hcost, Hin, Hout, Hkeep, Hcounts.
    split; [exact (Hkeep Hstop)|].
    split; [destruct Hcounts as [[-> _]|(name & _ & -> & _)]; lia|].
    split.
    { intros k. destruct Hcounts as [[_ Hk]|(name & _ & _ & Hk)]; rewrite Hk; [lia|].
      destruct (decide (name = k)); lia. }
    repeat (split; [assumption|]).
    assert (Hgate : total_cap_reached s <> None
                    \/ (exists name, hashable tool_name = Return name
                                     /\ tool_limit_reached (tool_limit_of name s)
                                          (calls_of name s) <> None) ->
                    total_calls s' = total_calls s
                    /\ forall k, calls_of k s' = calls_of k s).
    { intros Hrejected. subst s'. unfold exec, calls_of.
      destruct (handle_tool_call_result tool_name tool_id s) as
        [e Hid'|id_format' m e Hid'|id_format' m Hid'|id_format' e Hid'
        |id_format' name limit e Hid'|id_format' name limit Hid'
        |id_format' name Hid' Hcap Hname Hlimit]; cbn [snd].
      1-4: split; reflexivity.
      1-2: split; [reflexivity | intros k; apply getitem_lookup].
      destruct Hrejected as [Hno|(name' & Hname' & Hno)]; [congruence|].
      assert (name' = name) as -> by congruence. congruence. }
    split; [intros Hcap; apply Hgate; left; exact Hcap|].
    split.
    + intros name Hname [Hcap|Hlimit]; apply Hgate; [left; exact Hcap|].
      right. exists name. split; assumption.
    + intros name id_format Hname Hid Hcap Hlimit. subst s'. unfold exec.
      rewrite (handle_tool_call_counted _ _ s id_format name Hid Hcap Hname Hlimit).
      cbn [snd]. split; [reflexivity|]. intros k. unfold calls_of. cbn.
      rewrite increment_lookup, getitem_lookup. reflexivity.
  - intros usage model s'.
    destruct (keeps_handle_usage_data _ usage model (usage_keeps_calls_and_stop s) s)
      as (Hkeep & Htotal & Hcalls & _); auto.
  - intros d model i o Hin Hout Hi Ho Hsome.
    destruct (handle_usage_data_integers d model i o s Hin Hout Hi Ho Hsome)
      as (in_millions & out_millions & total_in & total_out
          & Hdiv_in & Hdiv_out & Hadd_in & Hadd_out & Hrun).
    exists in_millions, out_millions, total_in, total_out.
    repeat (split; [assumption|]). cbn zeta. unfold exec. rewrite Hrun. cbn [snd].
    match goal with |- context [add_cost ?c ?st] =>
      destruct (add_cost_fields c st) as (Hcost & _ & Htin & Htout) end.
    cbn zeta in Hcost, Htin, Htout. rewrite Hcost, Htin, Htout.
    repeat split; reflexivity.
Qed.

Lemma stop_persists_and_budget_gates_calls_witness :
  should_stop stopped_by_cost = true
  /\ total_calls (exec (_handle_tool_call (PStr "Bash") (PStr "toolu_1")) stopped_by_cost)
     = total_calls stopped_by_cost + 1
  /\ total_calls (exec (_handle_tool_call (PStr "Bash") (PStr "toolu_1")) stopped_by_cap)
     = total_calls stopped_by_cap
  /\ current_cost_usd (exec (_handle_usage_data million_input_tokens sonnet) stopped_by_cost)
     = PrimFloat.add (current_cost_usd stopped_by_cost) 3.
Proof.
  destruct (stop_persists_and_budget_gates_calls stopped_by_cost) as (Hcall & _ & Husage);
    [reflexivity|].
  destruct (stop_persists_and_budget_gates_calls stopped_by_cap) as (Hcapped & _);
    [reflexivity|].
  split; [reflexivity|]. split; [|split].
  - destruct (Hcall (PStr "Bash") (PStr "toolu_1")) as (_ & _ & _ & _ & _ & _ & _ & _ & Hcounted).
    apply (Hcounted (KStr "Bash") "anthropic_standard"); reflexivity.
  - destruct (Hcapped (PStr "Bash") (PStr "toolu_1")) as (_ & _ & _ & _ & _ & _ & Hgate & _).
    apply Hgate. vm_compute. discriminate.
  - destruct (Husage [("input_tokens", PNum (PyInt 1000000));
                      ("output_tokens", PNum (PyInt 0))]
                "claude-3-5-sonnet-20241022" 1000000 0)
      as (in_millions & out_millions & total_in & total_out
          & Hdiv_in & Hdiv_out & _ & _ & _ & _ & Hcost).
    + reflexivity.
    + reflexivity.
    + split; [lia | vm_compute; reflexivity].
    + split; [lia | vm_compute; reflexivity].
    + left. lia.
    + assert (in_millions = 1%float) as -> by (vm_compute in Hdiv_in; congruence).
      assert (out_millions = 0%float) as -> by (vm_compute in Hdiv_out; congruence).
      exact Hcost.
Defined.

(** ** Split and whole ingestion *)

(** C1, the code's side. A complete event line is dispatched twice, once
    by [_process_json_buffer] and once by the direct parse of
    [_process_output_line], so ingesting the object whole counts its tool
    call twice. Split behind the opening marker, the object is dispatched
    once, from the buffer. Split inside the marker, nothing is buffered:
    the tool call is seen by the regular expression alone when the id
    stands before the name, and not at all when the name stands first.
    Split right behind the marker, the buffer and the regular expression
    both count it. *)
Lemma split_ingestion_differs_from_whole :
  total_calls (ingest bash_event fresh) = 2
  /\ calls_of (KStr "Bash") (ingest bash_event fresh) = 2
  /\ total_calls (exec (_process_json_buffer bash_event) fresh) = 1
  /\ total_calls (ingest_split 44 bash_event fresh) = 1
  /\ ingest_split 44 bash_event fresh <> ingest bash_event fresh
  /\ total_calls (ingest_split 5 bash_event fresh) = 1
  /\ total_calls (ingest_split 5 bash_event_name_first fresh) = 0
  /\ total_calls (ingest_split 19 bash_event fresh) = 2.
Proof.
  assert (Hwhole : total_calls (ingest bash_event fresh) = 2)
    by (vm_compute; reflexivity).
  assert (Hsplit : total_calls (ingest_split 44 bash_event fresh) = 1)
    by (vm_compute; reflexivity).
  repeat split; try (vm_compute; reflexivity).
  intros Heq. rewrite Heq, Hwhole in Hsplit. discriminate.
Qed.

(** ** Which strategy a line takes *)

Section Raises.

Context {A B : Type} (P : exn -> Prop).

Lemma raises_only_ret (a : A) : raises_only P (ret a).
Proof. intros s e. discriminate. Qed.

Lemma raises_only_get : raises_only P get.
Proof. intros s e. discriminate. Qed.

Lemma raises_only_modify (f : monitor -> monitor) : raises_only P (modify f).
Proof. intros s e. discriminate. Qed.

Lemma raises_only_raise (e : exn) : P e -> raises_only P (@raise A e).
Proof. intros He s e' [= <-]. exact He. Qed.

Lemma raises_only_lift (o : outcome A) :
  (forall e, o = Raise e -> P e) -> raises_only P (lift o).
Proof. intros Ho s e. apply Ho. Qed.

Lemma raises_only_bind (m : M A) (k : A -> M B) :
  raises_only P m -> (forall a, raises_only P (k a)) -> raises_only P (bind m k).
Proof.
  intros Hm Hk s e. unfold bind. specialize (Hm s).
  destruct (m s) as [[a|e'] s']; simpl in *; [apply Hk | intros [= <-]; auto].
Qed.

End Raises.

Lemma raises_only_for_each {A : Type} (P : exn -> Prop) (body : A -> M unit)
  (l : list A) :
  (forall x, raises_only P (body x)) -> raises_only P (for_each body l).
Proof.
  intros Hbody. induction l as [|x l IH]; simpl.
  - apply raises_only_ret.
  - apply raises_only_bind; [apply Hbody | intros _; exact IH].
Qed.

(** What the operations on decoded values raise is never a decoding
    error. *)
Lemma py_get_raises (v : pyval) (key : string) (default : pyval) (e : exn) :
  py_get v key default = Raise e -> not_decode_error e.
Proof. destruct v; simpl; intros [= <-]; reflexivity. Qed.

Lemma as_number_raises (v : pyval) (e : exn) :
  as_number v = Raise e -> not_decode_error e.
Proof. destruct v; simpl; intros [= <-]; reflexivity. Qed.

Lemma float_of_int_raises (z : Z) (e : exn) :
  float_of_int z = Raise e -> not_decode_error e.
Proof. unfold float_of_int. destruct (_ <=? _); intros [= <-]; reflexivity. Qed.

Lemma int_truediv_raises (a b : Z) (e : exn) :
  int_truediv a b = Raise e -> not_decode_error e.
Proof. unfold int_truediv. destruct (_ <=? _); intros [= <-]; reflexivity. Qed.

Lemma py_add_raises (x y : pynum) (e : exn) :
  py_add x y = Raise e -> not_decode_error e.
Proof.
  destruct x as [a|f], y as [b|g]; simpl; try discriminate.
  - destruct (float_of_int a) eqn:H; [discriminate|].
    intros [= <-]. exact (float_of_int_raises a _ H).
  - destruct (float_of_int b) eqn:H; [discriminate|].
    intros [= <-]. exact (float_of_int_raises b _ H).
Qed.

Lemma per_million_raises (x : pynum) (e : exn) :
  per_million x = Raise e -> not_decode_error e.
Proof. destruct x; simpl; [apply int_truediv_raises | discriminate]. Qed.

Lemma usage_cost_raises (i o : pynum) (price : rates) (e : exn) :
  usage_cost i o price = Raise e -> not_decode_error e.
Proof.
  unfold usage_cost.
  destruct (per_million i) eqn:Hi; [|intros [= <-]; exact (per_million_raises i _ Hi)].
  destruct (per_million o) eqn:Ho; [discriminate|].
  intros [= <-]. exact (per_million_raises o _ Ho).
Qed.

Lemma pricing_get_raises (model : pyval) (e : exn) :
  pricing_get model = Raise e -> not_decode_error e.
Proof. destruct model; simpl; intros [= <-]; reflexivity. Qed.

(** One step through a computation, for [raises_only]. *)
Ltac raises_step :=
  match goal with
  | |- raises_only _ (bind _ _) => apply raises_only_bind; [|intros ?]
  | |- raises_only _ (ret _) => apply raises_only_ret
  | |- raises_only _ get => apply raises_only_get
  | |- raises_only _ (modify _) => apply raises_only_modify
  | |- raises_only _ (raise _) => apply raises_only_raise; reflexivity
  | |- raises_only _ (lift (py_get _ _ _)) => apply raises_only_lift, py_get_raises
  | |- raises_only _ (lift (as_number _)) => apply raises_only_lift, as_number_raises
  | |- raises_only _ (lift (py_add _ _)) => apply raises_only_lift, py_add_raises
  | |- raises_only _ (lift (pricing_get _)) => apply raises_only_lift, pricing_get_raises
  | |- raises_only _ (lift (usage_cost _ _ _)) => apply raises_only_lift, usage_cost_raises
  | |- raises_only _ (if ?b then _ else _) => destruct b
  | |- raises_only _ (match ?x with _ => _ end) => destruct x
  end.

Lemma handle_usage_data_raises (usage model : pyval) :
  raises_only not_decode_error (_handle_usage_data usage model).
Proof. unfold _handle_usage_data. repeat raises_step. Qed.

Lemma format_int_error (n : Z) (e : exn) : format_int n = Raise e -> e = ValueError.
Proof. unfold format_int. destruct (_ <=? _); congruence. Qed.

Lemma hashable_error (v : pyval) (e : exn) : hashable v = Raise e -> e = TypeError.
Proof. destruct v as [| |[]| | |]; simpl; congruence. Qed.

Lemma near_total_cap_error (s : monitor) (e : exn) :
  near_total_cap s = Raise e -> e = OverflowError.
Proof.
  unfold near_total_cap, float_of_int. destruct (max_total_calls s) as [m|]; [|discriminate].
  destruct (m =? 0); [discriminate|]. destruct (_ <=? _); congruence.
Qed.

(** What [_handle_tool_call] raises: its four exceptions, and what the
    monitor has counted by then. *)
Lemma handle_tool_call_error (tool_name tool_id : pyval) (s : monitor) (e : exn) :
  fst (_handle_tool_call tool_name tool_id s) = Raise e ->
  e = AttributeError \/ e = ValueError \/ e = TypeError \/ e = OverflowError.
Proof.
  destruct (handle_tool_call_result tool_name tool_id s) as
    [e' Hid|id_format m e' Hid Hcap Hwrite|id_format m Hid|id_format e' Hid Hcap Hname
    |id_format name limit e' Hid Hcap Hname Hlimit Hwrite|id_format name limit Hid
    |id_format name Hid]; cbn [fst]; try discriminate; intros Hraise.
  - injection Hraise as <-. left. exact (detect_tool_id_format_error _ _ Hid).
  - injection Hraise as <-. right. left. exact (format_int_error _ _ Hwrite).
  - injection Hraise as <-. right. right. left. exact (hashable_error _ _ Hname).
  - injection Hraise as <-. right. left. exact (format_int_error _ _ Hwrite).
  - right. right. right. exact (near_total_cap_error _ _ Hraise).
Qed.

Lemma handle_tool_call_raises (tool_name tool_id : pyval) :
  raises_only not_decode_error (_handle_tool_call tool_name tool_id).
Proof.
  intros s e Hraise.
  destruct (handle_tool_call_error tool_name tool_id s e Hraise) as [->|[->|[->| ->]]];
    reflexivity.
Qed.

Lemma handle_content_item_raises (item : pyval) :
  raises_only not_decode_error (_handle_content_item item).
Proof.
  unfold _handle_content_item. destruct item; try apply raises_only_ret.
  repeat raises_step. apply handle_tool_call_raises.
Qed.

Lemma handle_json_message_raises (data : pyval) :
  raises_only not_decode_error (_handle_json_message data).
Proof.
  unfold _handle_json_message.
  apply raises_only_bind; [raises_step | intros message_type].
  destruct (is_str message_type "assistant"); [|apply raises_only_ret].
  apply raises_only_bind; [raises_step | intros message].
  apply raises_only_bind; [raises_step | intros content].
  apply raises_only_bind.
  - destruct content; try apply raises_only_ret.
    apply raises_only_for_each, handle_content_item_raises.
  - intros _. apply raises_only_bind; [raises_step | intros usage].
    destruct (truthy usage); [|apply raises_only_ret].
    apply raises_only_bind; [raises_step | intros model].
    apply handle_usage_data_raises.
Qed.

Lemma except_pass_run (body : M unit) (s : monitor) :
  except_pass body s = (Return tt, exec body s).
Proof.
  unfold except_pass, try_except, exec, ret.
  destruct (body s) as [[[]|e] s']; reflexivity.
Qed.

Lemma exec_bind {A B : Type} (m : M A) (k : A -> M B) (s s1 : monitor) (a : A) :
  m s = (Return a, s1) -> exec (bind m k) s = exec (k a) s1.
Proof. intros H. unfold exec, bind. rewrite H. reflexivity. Qed.

Lemma bind_get {B : Type} (k : monitor -> M B) (s : monitor) : bind get k s = k s s.
Proof. reflexivity. Qed.

Lemma bind_returns {A B : Type} (m : M A) (k : A -> M B) (s s1 : monitor) (a : A) :
  m s = (Return a, s1) -> bind m k s = k a s1.
Proof. intros H. unfold bind. rewrite H. reflexivity. Qed.

Lemma startswith_not_empty (s : string) (c : ascii) :
  PyStr.startswith s (String c EmptyString) = true -> String.eqb s EmptyString = false.
Proof. destruct s; simpl; [discriminate | reflexivity]. Qed.

Section Strategies.

Context {decoder : JsonDecoder}.

Lemma process_json_buffer_run (line : string) (s : monitor) :
  _process_json_buffer line s = (Return tt, exec (_process_json_buffer line) s).
Proof.
  unfold _process_json_buffer at 1. rewrite except_pass_run.
  unfold _process_json_buffer, exec at 2. rewrite except_pass_run. reflexivity.
Qed.

(** A line that is a complete object and decodes is dispatched by the
    direct parse, and that ends the work on the line. *)
Lemma direct_parse_ends_the_line (line : string) (s : monitor) (data : pyval) :
  is_complete_object (PyStr.strip line) = true ->
  json_loads (PyStr.strip line) = Return data ->
  ingest line s
  = exec (_handle_json_message data) (exec (_process_json_buffer (PyStr.strip line)) s).
Proof.
  intros Hcomplete Hloads. unfold is_complete_object in Hcomplete.
  assert (Hnonempty : String.eqb (PyStr.strip line) EmptyString = false).
  { apply andb_prop in Hcomplete as [Hstart _].
    exact (startswith_not_empty _ _ Hstart). }
  unfold ingest, _process_output_line.
  unfold exec at 1. rewrite except_pass_run. rewrite Hnonempty, Hcomplete.
  rewrite (exec_bind _ _ s _ tt (process_json_buffer_run _ s)).
  set (s1 := exec (_process_json_buffer (PyStr.strip line)) s).
  pose proof (handle_json_message_raises data s1) as Hraises.
  unfold false_on_decode_error, loads_and_handle, try_except, exec, bind, lift, ret.
  rewrite Hloads.
  destruct (_handle_json_message data s1) as [[[]|e] s2]; simpl.
  - reflexivity.
  - specialize (Hraises e eq_refl). unfold not_decode_error in Hraises.
    rewrite Hraises. reflexivity.
Qed.

Lemma detect_tool_calls_in_line_run (line : string) (s : monitor) :
  _detect_tool_calls_in_line line s
  = (Return tt, exec (_detect_tool_calls_in_line line) s).
Proof.
  unfold _detect_tool_calls_in_line at 1. rewrite except_pass_run.
  unfold _detect_tool_calls_in_line, exec at 2. rewrite except_pass_run. reflexivity.
Qed.

Lemma no_marker_no_extraction (line : string) (s : monitor) :
  first_marker json_starts line = None ->
  _extract_and_handle_embedded_json line s = (Return tt, s).
Proof.
  intros Hnone. unfold first_marker, json_starts in Hnone.
  destruct (PyStr.find line (PyStr.js "{'type':'assistant'")) eqn:Hassistant;
    [discriminate|].
  destruct (PyStr.find line (PyStr.js "{'type':'user'")) eqn:Huser; [discriminate|].
  destruct (PyStr.find line (PyStr.js "{'type':'system'")) eqn:Hsystem; [discriminate|].
  unfold _extract_and_handle_embedded_json. rewrite except_pass_run.
  unfold json_start_patterns, for_each, _extract_at, exec, bind, ret.
  rewrite Hassistant, Hsystem, Huser. reflexivity.
Qed.

(** C7, amended. A line that is itself a complete JSON object and decodes
    is dispatched by the direct parse, and neither the regular expressions
    nor the bracket-balance extraction are applied to it. A line that is
    not read by the direct parse, holds no marker of an event and comes
    while nothing is being accumulated is left to the regular expressions
    alone. *)
Theorem regex_is_skipped_after_a_direct_parse :
  (forall line s data,
     is_complete_object (PyStr.strip line) = true ->
     json_loads (PyStr.strip line) = Return data ->
     ingest line s
     = exec (_handle_json_message data)
         (exec (_process_json_buffer (PyStr.strip line)) s))
  /\ (forall line s,
        String.eqb (PyStr.strip line) EmptyString = false ->
        is_complete_object (PyStr.strip line) = false
        \/ json_loads (PyStr.strip line) = Raise JSONDecodeError ->
        first_marker json_starts (PyStr.strip line) = None ->
        _in_json_block s = false ->
        ingest line s = exec (_detect_tool_calls_in_line (PyStr.strip line)) s).
Proof.
  split; [exact direct_parse_ends_the_line|].
  intros line s Hnonempty Hdirect Hmarker Hidle.
  unfold ingest, _process_output_line.
  unfold exec at 1. rewrite except_pass_run. rewrite Hnonempty.
  assert (Hbuffer : _process_json_buffer (PyStr.strip line) s = (Return tt, s)).
  { unfold _process_json_buffer. rewrite except_pass_run, Hmarker.
    unfold exec, bind, get. cbn beta iota. rewrite Hidle. reflexivity. }
  rewrite (exec_bind _ _ s s tt Hbuffer).
  assert (Hhandled :
            (if PyStr.startswith (PyStr.strip line) "{"
                && PyStr.endswith (PyStr.strip line) "}"
             then false_on_decode_error
                    (bind (loads_and_handle (PyStr.strip line)) (fun _ => ret true))
             else ret false) s = (Return false, s)).
  { fold (is_complete_object (PyStr.strip line)).
    destruct (is_complete_object (PyStr.strip line)) eqn:Hcomplete; [|reflexivity].
    destruct Hdirect as [Hno|Hraise]; [discriminate|].
    unfold false_on_decode_error, loads_and_handle, try_except, bind, lift.
    rewrite Hraise. reflexivity. }
  rewrite (exec_bind _ _ s s false Hhandled).
  rewrite (exec_bind _ _ s _ tt (detect_tool_calls_in_line_run _ s)).
  destruct (existsb _ embedded_markers); [|reflexivity].
  unfold exec at 1. rewrite no_marker_no_extraction by exact Hmarker. reflexivity.
Qed.

End Strategies.

(** C7, the code's side. The line holds an event behind two characters
    of noise. The buffered path reads the event and dispatches it; the
    regular expression is applied all the same and finds the tool call
    again; the bracket-balance extraction then finds it a third time. *)
Lemma regex_runs_after_a_structured_path :
  first_marker json_starts noisy_bash_event = Some 2%nat
  /\ is_complete_object noisy_bash_event = false
  /\ total_calls (exec (_process_json_buffer noisy_bash_event) fresh) = 1
  /\ Re.findall2 tool_use_pattern noisy_bash_event = [("toolu_1", "Bash")]
  /\ total_calls
       (exec (_detect_tool_calls_in_line noisy_bash_event)
          (exec (_process_json_buffer noisy_bash_event) fresh)) = 2
  /\ ingest noisy_bash_event fresh
     = exec (_extract_and_handle_embedded_json noisy_bash_event)
         (exec (_detect_tool_calls_in_line noisy_bash_event)
            (exec (_process_json_buffer noisy_bash_event) fresh))
  /\ total_calls (ingest noisy_bash_event fresh) = 3.
Proof. vm_compute. repeat split; reflexivity. Qed.

Lemma regex_is_skipped_after_a_direct_parse_witness :
  (exists data,
     json_loads (PyStr.strip bash_event) = Return data
     /\ ingest bash_event fresh
        = exec (_handle_json_message data)
            (exec (_process_json_buffer (PyStr.strip bash_event)) fresh))
  /\ ingest regex_only_line fresh
     = exec (_detect_tool_calls_in_line (PyStr.strip regex_only_line)) fresh.
Proof.
  destruct (regex_is_skipped_after_a_direct_parse (decoder := py_json))
    as [Hdirect Hregex].
  split.
  - eexists. split.
    + vm_compute. reflexivity.
    + apply Hdirect; vm_compute; reflexivity.
  - apply (Hregex regex_only_line fresh).
    + vm_compute. reflexivity.
    + left. vm_compute. reflexivity.
    + vm_compute. reflexivity.
    + reflexivity.
Defined.

(** ** The accumulation buffer *)

Lemma length_append (a b : string) :
  String.length (String.append a b) = (String.length a + String.length b)%nat.
Proof. induction a as [|c a IH]; simpl; [reflexivity | rewrite IH; reflexivity]. Qed.

Lemma len_append (a b : string) :
  PyStr.len (String.append a b) = PyStr.len a + PyStr.len b.
Proof. unfold PyStr.len. rewrite length_append. lia. Qed.

Lemma len_nonneg (a : string) : 0 <= PyStr.len a.
Proof. unfold PyStr.len. lia. Qed.

Lemma long_is_not_empty (a : string) :
  buffer_ceiling < PyStr.len a -> String.eqb a EmptyString = false.
Proof. destruct a; [unfold buffer_ceiling, PyStr.len; simpl; lia | reflexivity]. Qed.

(** The dispatch of events leaves the accumulation buffer alone. *)
Lemma buffer_is_framed (text : string) (flag : bool) :
  dispatch_invariant (fun s => _json_buffer s = text /\ _in_json_block s = flag).
Proof.
  split; [split|].
  - intros v s H. exact H.
  - intros v s H. exact H.
  - intros cost s H. unfold add_cost. destruct (PrimFloat.leb _ _); exact H.
  - intros tool_name tool_id s [Hbuf Hflag].
    destruct (handle_tool_call_frame tool_name tool_id s)
      as (_ & _ & _ & _ & _ & _ & Hbuf' & Hflag' & _).
    split; congruence.
Qed.

Section Buffer.

Context {decoder : JsonDecoder}.

(** Ingestion never raises. *)
Lemma process_output_line_returns (line : string) (s : monitor) :
  fst (_process_output_line line s) = Return tt.
Proof. unfold _process_output_line. rewrite except_pass_run. reflexivity. Qed.

(** What follows [_process_json_buffer] in [_process_output_line] keeps
    the buffer. *)
Lemma ingest_after_buffer (line : string) (s : monitor) (text : string) (flag : bool) :
  String.eqb (PyStr.strip line) EmptyString = false ->
  _json_buffer (exec (_process_json_buffer (PyStr.strip line)) s) = text ->
  _in_json_block (exec (_process_json_buffer (PyStr.strip line)) s) = flag ->
  _json_buffer (ingest line s) = text /\ _in_json_block (ingest line s) = flag.
Proof.
  intros Hnonempty Hbuf Hflag. unfold ingest, _process_output_line.
  unfold exec at 1 2. rewrite !except_pass_run. rewrite Hnonempty.
  rewrite (exec_bind _ _ s _ tt (process_json_buffer_run _ s)).
  set (s1 := exec (_process_json_buffer (PyStr.strip line)) s) in *.
  assert (Hkeeps : keeps (fun s' => _json_buffer s' = text /\ _in_json_block s' = flag)
                     (bind
                        (if PyStr.startswith (PyStr.strip line) "{"
                            && PyStr.endswith (PyStr.strip line) "}"
                         then false_on_decode_error
                                (bind (loads_and_handle (PyStr.strip line))
                                   (fun _ => ret true))
                         else ret false)
                        (fun handled : bool =>
                           if handled then ret tt
                           else bind (_detect_tool_calls_in_line (PyStr.strip line))
                                  (fun _ =>
                                     if existsb (PyStr.contains (PyStr.strip line))
                                          embedded_markers
                                     then _extract_and_handle_embedded_json
                                            (PyStr.strip line)
                                     else ret tt)))).
  { pose proof (buffer_is_framed text flag) as Hframe.
    apply keeps_bind.
    - destruct (_ && _); [|apply keeps_ret]. apply keeps_false_on_decode_error.
      apply keeps_bind; [exact (keeps_loads_and_handle _ Hframe _) | intros _; apply keeps_ret].
    - intros handled. destruct handled; [apply keeps_ret|].
      apply keeps_bind.
      + exact (keeps_detect_tool_calls_in_line _ Hframe _).
      + intros _. destruct (existsb _ _); [|apply keeps_ret].
        exact (keeps_extract_and_handle_embedded_json _ Hframe _). }
  exact (Hkeeps s1 (conj Hbuf Hflag)).
Qed.

Lemma try_parse_buffered_json_returns (s : monitor) :
  fst (_try_parse_buffered_json s) = Return tt.
Proof.
  unfold _try_parse_buffered_json, try_except.
  destruct (bind get _ s) as [[[]|e] s1]; [reflexivity|].
  destruct (is_decode_error e); [|reflexivity].
  unfold bind, get. cbn beta iota.
  destruct (buffer_ceiling <? PyStr.len (_json_buffer s1)); reflexivity.
Qed.

(** A line that opens an event and does not end with a closing brace
    becomes the buffer, whatever its length. *)
Lemma unterminated_event_is_buffered (line : string) (s : monitor) (start_pos : nat) :
  first_marker json_starts (PyStr.strip line) = Some start_pos ->
  PyStr.endswith (PyStr.slice_from start_pos (PyStr.strip line)) "}" = false ->
  String.eqb (PyStr.strip line) EmptyString = false ->
  _json_buffer (ingest line s) = PyStr.slice_from start_pos (PyStr.strip line)
  /\ _in_json_block (ingest line s) = true.
Proof.
  intros Hmarker Hopen Hnonempty. apply ingest_after_buffer; [exact Hnonempty|..].
  all: unfold _process_json_buffer, exec; rewrite except_pass_run, Hmarker.
  all: unfold exec, bind, get; cbn beta iota.
  all: rewrite Hopen, andb_false_r.
  all: assert (Hfirst : fst ((if String.eqb (_json_buffer s) EmptyString
                              then ret tt else _try_parse_buffered_json) s)
                        = Return tt)
    by (destruct (String.eqb (_json_buffer s) EmptyString);
        [reflexivity | apply try_parse_buffered_json_returns]).
  all: destruct ((if String.eqb (_json_buffer s) EmptyString
                  then ret tt else _try_parse_buffered_json) s) as [[[]|e] s1];
    [reflexivity | discriminate].
Qed.

(** A buffer over the ceiling that does not decode is dropped by the next
    attempt to parse it. *)
Lemma overflow_is_dropped (s : monitor) :
  buffer_ceiling < PyStr.len (_json_buffer s) ->
  json_loads (_json_buffer s) = Raise JSONDecodeError ->
  _try_parse_buffered_json s = (Return tt, set_json_buffer EmptyString false s).
Proof.
  intros Hlong Hraise.
  unfold _try_parse_buffered_json, try_except, loads_and_handle, bind, get, lift, modify.
  cbn beta iota. rewrite (long_is_not_empty _ Hlong), Hraise. cbn.
  apply Z.ltb_lt in Hlong. rewrite Hlong. reflexivity.
Qed.

Lemma process_json_buffer_after_overflow (cleaned_line : string) (s : monitor) :
  buffer_ceiling < PyStr.len (_json_buffer s) ->
  json_loads (_json_buffer s) = Raise JSONDecodeError ->
  _in_json_block s = true ->
  first_marker json_starts cleaned_line <> None
  \/ json_loads (String.append (_json_buffer s) cleaned_line) = Raise JSONDecodeError ->
  _process_json_buffer cleaned_line s
  = _process_json_buffer cleaned_line (set_json_buffer EmptyString false s).
Proof.
  intros Hlong Hraise Hblock Hnext. unfold _process_json_buffer.
  rewrite !except_pass_run. f_equal. unfold exec.
  destruct (first_marker json_starts cleaned_line) as [start_pos|] eqn:Hmarker.
  - rewrite !bind_get. cbn beta.
    rewrite (long_is_not_empty _ Hlong).
    rewrite (bind_returns _ _ s _ tt (overflow_is_dropped s Hlong Hraise)).
    change (_json_buffer (set_json_buffer EmptyString false s)) with EmptyString.
    rewrite String.eqb_refl.
    rewrite (bind_returns (ret tt) _ (set_json_buffer EmptyString false s) _ tt eq_refl).
    reflexivity.
  - destruct Hnext as [Hmark|Happend]; [congruence|].
    rewrite !bind_get. cbn beta.
    change (_in_json_block (set_json_buffer EmptyString false s)) with false.
    rewrite Hblock. cbn iota.
    rewrite (bind_returns
               (modify (set_json_buffer (String.append (_json_buffer s) cleaned_line) true))
               _ s _ tt eq_refl).
    rewrite overflow_is_dropped.
    + reflexivity.
    + change (_json_buffer (set_json_buffer ?text true s)) with text.
      rewrite len_append. pose proof (len_nonneg cleaned_line). lia.
    + exact Happend.
Qed.

Lemma exec_bind_from {A B : Type} (m : M A) (k : A -> M B) (s s' : monitor) :
  m s = m s' -> exec (bind m k) s = exec (bind m k) s'.
Proof. intros H. unfold exec, bind. rewrite H. reflexivity. Qed.

(** A buffer over the ceiling that does not decode is dropped by the next
    line that is not blank, when that line opens an event or leaves the
    buffer undecodable; the line is then read as by a monitor that is
    accumulating nothing. *)
Lemma overflow_is_dropped_by_the_next_line (next : string) (s : monitor) :
  buffer_ceiling < PyStr.len (_json_buffer s) ->
  json_loads (_json_buffer s) = Raise JSONDecodeError ->
  _in_json_block s = true ->
  String.eqb (PyStr.strip next) EmptyString = false ->
  first_marker json_starts (PyStr.strip next) <> None
  \/ json_loads (String.append (_json_buffer s) (PyStr.strip next))
     = Raise JSONDecodeError ->
  ingest next s = ingest next (set_json_buffer EmptyString false s).
Proof.
  intros Hlong Hraise Hblock Hnonempty Hnext.
  unfold ingest, _process_output_line. unfold exec at 1 2.
  rewrite !except_pass_run. rewrite Hnonempty.
  apply exec_bind_from.
  apply process_json_buffer_after_overflow; assumption.
Qed.

End Buffer.

(** C6, the code's side. Ingestion never raises, whatever the line, the
    monitor and the decoder. The fragment of 60000 characters, longer than
    the ceiling of 50000, is still the buffer after the call that ingests
    it, the monitor accumulating: the ceiling is looked at only when a
    buffered text fails to decode. The line that
    closes it makes an object of 60002 characters whose dispatch raises
    (its message is a string); the exception is dropped and the buffer
    stays, also through a complete event line that follows, which is
    counted as usual. Without the closing line, a following event line
    drops the buffer. *)
Lemma long_fragment_outlives_the_ceiling :
  (forall (decoder : JsonDecoder) (line : string) (s : monitor),
     fst (_process_output_line line s) = Return tt)
  /\ PyStr.len long_fragment = 60000
  /\ buffer_ceiling = 50000
  /\ fst (_process_output_line long_fragment fresh) = Return tt
  /\ PyStr.len (_json_buffer (ingest long_fragment fresh)) = 60000
  /\ _in_json_block (ingest long_fragment fresh) = true
  /\ PyStr.len (_json_buffer (ingest closing_line (ingest long_fragment fresh))) = 60002
  /\ _in_json_block (ingest closing_line (ingest long_fragment fresh)) = true
  /\ PyStr.len
       (_json_buffer
          (ingest bash_event (ingest closing_line (ingest long_fragment fresh))))
     = 60002
  /\ total_calls (ingest bash_event (ingest closing_line (ingest long_fragment fresh)))
     = 2
  /\ _json_buffer (ingest bash_event (ingest long_fragment fresh)) = EmptyString
  /\ total_calls (ingest bash_event (ingest long_fragment fresh)) = 2.
Proof.
  split; [intros decoder line s; apply process_output_line_returns|].
  vm_compute. repeat split; reflexivity.
Qed.

(** ** Budgets, stops and counters over a run *)

Lemma within_budget_tool_call (tool_name tool_id : pyval) :
  keeps within_budget (_handle_tool_call tool_name tool_id).
Proof.
  intros s [Hcap Hlimits]. unfold exec.
  pose proof (total_cap_reached_spec s) as Hspec.
  destruct (handle_tool_call_result tool_name tool_id s) as
    [e Hid|id_format m e Hid|id_format m Hid|id_format e Hid|id_format name limit e Hid
    |id_format name limit Hid|id_format name Hid Hm Hname Hl];
    unfold within_budget, calls_of in *; cbn.
  1-4: split; assumption.
  1-2: split; [assumption|]; intros k limit' Hk; rewrite getitem_lookup; auto.
  rewrite Hm in Hspec. split.
  - intros m Hsome. specialize (Hspec m Hsome). lia.
  - intros k limit Hk. rewrite increment_lookup, getitem_lookup.
    specialize (Hlimits k limit Hk).
    destruct (decide (name = KStr k)) as [->|Hne]; [|lia].
    cbn in Hl. rewrite Hk in Hl. unfold tool_limit_reached in Hl.
    destruct (limit <=? default 0 (tool_calls s !! KStr k)) eqn:Hle; [discriminate|].
    apply Z.leb_gt in Hle. lia.
Qed.

Lemma within_budget_pipeline : pipeline_invariant within_budget.
Proof.
  split; [split; [split|]|].
  - intros v s H. exact H.
  - intros v s H. exact H.
  - intros cost s H. unfold add_cost. destruct (PrimFloat.leb _ _); exact H.
  - exact within_budget_tool_call.
  - intros text flag s H. exact H.
Qed.

Lemma within_budget_clear_counts (s : monitor) :
  within_budget s -> within_budget (clear_counts s).
Proof.
  intros _. unfold within_budget, clear_counts, calls_of. simpl.
  split; intros; [lia | rewrite lookup_empty; simpl; lia].
Qed.

Lemma within_budget_init limits max_total max_cost :
  within_budget (init limits max_total max_cost).
Proof.
  unfold within_budget, calls_of. simpl.
  split; intros; [lia | rewrite lookup_empty; simpl; lia].
Qed.

(** X1. In every state that a sequence of monitor operations reaches from the
    initial state, the total count is at most the total-call cap when one is
    set, and the count of every tool that has a limit is at most that limit
    (at most 0 for a cap or a limit below 0). *)
Theorem budgets_are_never_exceeded {decoder : JsonDecoder} (s : monitor) :
  reachable s ->
  (forall m, max_total_calls s = Some m -> total_calls s <= Z.max 0 m)
  /\ (forall tool_name limit,
        tool_limits s !! tool_name = Some limit ->
        calls_of (KStr tool_name) s <= Z.max 0 limit).
Proof.
  intros (limits & max_total & max_cost & ops & ->).
  apply (run_keeps_pipeline within_budget).
  - exact within_budget_pipeline.
  - intros _. exact within_budget_clear_counts.
  - intros _ cb s' H. exact H.
  - apply within_budget_init.
Qed.

Lemma budgets_are_never_exceeded_witness :
  total_calls (run busy_run limited) <= 3
  /\ calls_of (KStr "Bash") (run busy_run limited) <= 1.
Proof.
  destruct (budgets_are_never_exceeded (decoder := py_json) (run busy_run limited))
    as [Hcap Hlimit].
  - exists (Some {["Bash" := 1]}), (Some 3), 10%float, busy_run. reflexivity.
  - split.
    + apply (Hcap 3). reflexivity.
    + apply (Hlimit "Bash" 1). reflexivity.
Defined.

Lemma continues_refl (s : monitor) : continues s s.
Proof. unfold continues. repeat split; auto. exists []. reflexivity. Qed.

Lemma continues_stop (s0 : monitor) (reason : stop_reason) (s : monitor) :
  continues s0 s -> continues s0 (stop reason s).
Proof.
  intros (Hl & Hm & Hc & Hs & reasons & Hn). unfold continues. cbn.
  repeat split; auto.
  exists (notify_round (stop_callbacks s) reason ++ reasons).
  rewrite Hn, app_assoc. reflexivity.
Qed.

Lemma continues_tool_call (s0 : monitor) (tool_name tool_id : pyval) :
  keeps (continues s0) (_handle_tool_call tool_name tool_id).
Proof.
  intros s H. unfold exec.
  destruct (handle_tool_call_result tool_name tool_id s); cbn [snd];
    try apply continues_stop; exact H.
Qed.

Lemma continues_pipeline (s0 : monitor) : pipeline_invariant (continues s0).
Proof.
  split; [split; [split|]|].
  - intros v s H. exact H.
  - intros v s H. exact H.
  - intros cost s H. unfold add_cost.
    destruct (PrimFloat.leb _ _); [apply continues_stop|]; exact H.
  - apply continues_tool_call.
  - intros text flag s H. exact H.
Qed.

(** X2. No operation changes the limits, the total-call cap or the cost cap
    given to [__init__], none clears the stop flag once it is set, and the
    reasons given to the stop callbacks only grow; the analysis of a
    completed output is no exception. *)
Theorem stop_and_configuration_are_kept {decoder : JsonDecoder} (ops : list op)
  (s : monitor) :
  tool_limits (run ops s) = tool_limits s
  /\ max_total_calls (run ops s) = max_total_calls s
  /\ max_cost_usd (run ops s) = max_cost_usd s
  /\ (should_stop s = true -> should_stop (run ops s) = true)
  /\ exists reasons, notified (run ops s) = reasons ++ notified s.
Proof.
  apply (run_keeps_pipeline (continues s)).
  - apply continues_pipeline.
  - intros _ s' H. exact H.
  - intros _ cb s' H. exact H.
  - apply continues_refl.
Qed.

Lemma calls_follow_stops_stop (reason : stop_reason) (s : monitor) :
  calls_follow_stops s -> calls_follow_stops (stop reason s).
Proof.
  intros [_ Hregistered]. unfold calls_follow_stops. cbn. split; [discriminate|].
  intros cb reason' Hin. apply in_app_or in Hin as [Hround|Hearlier].
  - unfold notify_round in Hround. apply in_rev in Hround.
    apply in_map_iff in Hround as (cb' & [= <- <-] & Hcb). exact Hcb.
  - exact (Hregistered cb reason' Hearlier).
Qed.

Lemma calls_follow_stops_tool_call (tool_name tool_id : pyval) :
  keeps calls_follow_stops (_handle_tool_call tool_name tool_id).
Proof.
  intros s H. unfold exec.
  destruct (handle_tool_call_result tool_name tool_id s); cbn [snd];
    try apply calls_follow_stops_stop; exact H.
Qed.

Lemma calls_follow_stops_pipeline : pipeline_invariant calls_follow_stops.
Proof.
  split; [split; [split|]|].
  - intros v s H. exact H.
  - intros v s H. exact H.
  - intros cost s H. unfold add_cost.
    destruct (PrimFloat.leb _ _); [apply calls_follow_stops_stop|]; exact H.
  - exact calls_follow_stops_tool_call.
  - intros text flag s H. exact H.
Qed.

Lemma calls_follow_stops_add (cb : callback) (s : monitor) :
  calls_follow_stops s -> calls_follow_stops (add_stop_callback cb s).
Proof.
  intros [Hquiet Hregistered]. unfold calls_follow_stops. cbn.
  split; [exact Hquiet|]. intros cb' reason Hin. apply in_or_app. left.
  exact (Hregistered cb' reason Hin).
Qed.

Lemma stops_are_notified_stop (callbacks : list callback) (reason : stop_reason)
  (s : monitor) :
  stops_are_notified callbacks s -> stops_are_notified callbacks (stop reason s).
Proof.
  intros (Hcallbacks & reasons & Hnotified & _). unfold stops_are_notified. cbn.
  split; [exact Hcallbacks|]. exists (reason :: reasons).
  rewrite Hnotified, Hcallbacks. split; [reflexivity|].
  split; [discriminate | reflexivity].
Qed.

Lemma stops_are_notified_tool_call (callbacks : list callback)
  (tool_name tool_id : pyval) :
  keeps (stops_are_notified callbacks) (_handle_tool_call tool_name tool_id).
Proof.
  intros s H. unfold exec.
  destruct (handle_tool_call_result tool_name tool_id s); cbn [snd];
    try apply stops_are_notified_stop; exact H.
Qed.

Lemma stops_are_notified_pipeline (callbacks : list callback) :
  pipeline_invariant (stops_are_notified callbacks).
Proof.
  split; [split; [split|]|].
  - intros v s H. exact H.
  - intros v s H. exact H.
  - intros cost s H. unfold add_cost.
    destruct (PrimFloat.leb _ _); [apply stops_are_notified_stop|]; exact H.
  - apply stops_are_notified_tool_call.
  - intros text flag s H. exact H.
Qed.

(** X3. Stop callbacks are called by a stop only: in every reachable state,
    no callback has been called while the stop flag is not set, and every
    callback that was called is a registered one. When the callbacks are
    registered before the monitor is used and none is added later, every
    stop has called each of them once, in the order of registration, with
    the reason of that stop, and the stop flag is set exactly when there
    was a stop. *)
Theorem stop_flag_means_callbacks_were_called {decoder : JsonDecoder}
  (limits : option (gmap string Z)) (max_total : option Z) (max_cost : float)
  (callbacks : list callback) (ops : list op) :
  let s := run ops (with_callbacks callbacks (init limits max_total max_cost)) in
  (should_stop s = false -> notified s = [])
  /\ (forall cb reason, In (cb, reason) (notified s) -> In cb (stop_callbacks s))
  /\ (existsb is_registration ops = false ->
      stop_callbacks s = callbacks
      /\ exists reasons,
           notified s = notify_rounds callbacks reasons
           /\ (should_stop s = true <-> reasons <> [])).
Proof.
  cbn zeta.
  assert (Hfollow : calls_follow_stops
                      (run ops (with_callbacks callbacks (init limits max_total max_cost)))).
  { apply (run_keeps_pipeline calls_follow_stops).
    - exact calls_follow_stops_pipeline.
    - intros _ s' H. exact H.
    - intros _. exact calls_follow_stops_add.
    - rewrite with_callbacks_eq. split; [reflexivity | intros cb reason []]. }
  destruct Hfollow as [Hquiet Hregistered].
  split; [exact Hquiet|]. split; [exact Hregistered|].
  intros Hfixed. apply (run_keeps_pipeline (stops_are_notified callbacks)).
  - apply stops_are_notified_pipeline.
  - intros _ s' H. exact H.
  - rewrite Hfixed. discriminate.
  - rewrite with_callbacks_eq. split; [reflexivity|]. exists [].
    split; [reflexivity|]. split; [discriminate | congruence].
Qed.

Lemma stop_flag_means_callbacks_were_called_witness :
  should_stop (run busy_run watched) = true
  /\ exists reasons,
       notified (run busy_run watched) = notify_rounds ["on_limit_reached"] reasons
       /\ reasons <> [].
Proof.
  destruct (stop_flag_means_callbacks_were_called (decoder := py_json)
              (Some {["Bash" := 1]}) (Some 3) 10%float ["on_limit_reached"] busy_run)
    as (_ & _ & Hrounds).
  destruct (Hrounds eq_refl) as (_ & reasons & Hnotified & Hstop).
  assert (Hset : should_stop (run busy_run watched) = true) by (vm_compute; reflexivity).
  split; [exact Hset|]. exists reasons. split; [exact Hnotified|].
  apply Hstop. exact Hset.
Defined.

Lemma counts_grow_refl (s : monitor) : counts_grow s s.
Proof. unfold counts_grow. repeat split; intros; lia. Qed.

Lemma counts_grow_tool_call (s0 : monitor) (tool_name tool_id : pyval) :
  keeps (counts_grow s0) (_handle_tool_call tool_name tool_id).
Proof.
  intros s (Ht & Hk & Hi).
  pose proof (handle_tool_call_counts tool_name tool_id s) as Hcounts.
  pose proof (handle_tool_call_id_sum tool_name tool_id s) as Hids.
  cbn zeta in Hcounts. unfold counts_grow.
  destruct Hcounts as [[-> Hsame]|(name & _ & -> & Hmore)].
  - repeat split; try lia. intros k. rewrite Hsame. apply Hk.
  - repeat split; try lia. intros k. rewrite Hmore. specialize (Hk k).
    destruct (decide (name = k)); lia.
Qed.

Lemma counts_grow_pipeline (s0 : monitor) : pipeline_invariant (counts_grow s0).
Proof.
  split; [split; [split|]|].
  - intros v s H. exact H.
  - intros v s H. exact H.
  - intros cost s H. unfold add_cost. destruct (PrimFloat.leb _ _); exact H.
  - apply counts_grow_tool_call.
  - intros text flag s H. exact H.
Qed.

(** X4. Over a run without [analyze_completed_output], the total count, the
    count of every tool and the sum of the id-format distribution never
    decrease. *)
Theorem counters_never_decrease_without_analysis {decoder : JsonDecoder}
  (ops : list op) (s : monitor) :
  existsb is_analysis ops = false ->
  total_calls s <= total_calls (run ops s)
  /\ (forall tool_name, calls_of tool_name s <= calls_of tool_name (run ops s))
  /\ sum_counts (id_format_stats s) <= sum_counts (id_format_stats (run ops s)).
Proof.
  intros Hlive. apply (run_keeps_pipeline (counts_grow s)).
  - apply counts_grow_pipeline.
  - rewrite Hlive. discriminate.
  - intros _ cb s' H. exact H.
  - apply counts_grow_refl.
Qed.

Lemma counters_never_decrease_without_analysis_witness :
  total_calls one_call <= total_calls (run busy_run one_call)
  /\ (forall tool_name,
        calls_of tool_name one_call <= calls_of tool_name (run busy_run one_call))
  /\ sum_counts (id_format_stats one_call)
     <= sum_counts (id_format_stats (run busy_run one_call)).
Proof.
  apply (counters_never_decrease_without_analysis (decoder := py_json)).
  reflexivity.
Defined.

(** ** The buffer and the dispatch of a line *)

Lemma find_from_startswith (s sub : string) (i p : nat) :
  PyStr.find_from i s sub = Some p ->
  (i <= p)%nat /\ PyStr.startswith (PyStr.slice_from (p - i) s) sub = true.
Proof.
  revert i. induction s as [|c s IH]; intros i; cbn [PyStr.find_from].
  - destruct (PyStr.startswith EmptyString sub) eqn:Hstart; [|discriminate].
    intros [= <-]. rewrite Nat.sub_diag. split; [lia | exact Hstart].
  - destruct (PyStr.startswith (String c s) sub) eqn:Hstart.
    + intros [= <-]. rewrite Nat.sub_diag. split; [lia | exact Hstart].
    + intros Hfind. destruct (IH (S i) Hfind) as [Hle Hsub].
      split; [lia|]. replace (p - i)%nat with (S (p - S i)) by lia. exact Hsub.
Qed.

Lemma first_marker_startswith (markers : list string) (line : string) (p : nat) :
  first_marker markers line = Some p ->
  exists marker,
    In marker markers /\ PyStr.startswith (PyStr.slice_from p line) marker = true.
Proof.
  induction markers as [|m markers IH]; simpl; [discriminate|].
  destruct (PyStr.find line m) as [q|] eqn:Hfind.
  - intros [= <-]. exists m. split; [left; reflexivity|].
    destruct (find_from_startswith line m 0 q Hfind) as [_ Hsub].
    rewrite Nat.sub_0_r in Hsub. exact Hsub.
  - intros H. destruct (IH H) as (marker & Hin & Hsub).
    exists marker. split; [right; exact Hin | exact Hsub].
Qed.

Lemma startswith_append (a b p : string) :
  PyStr.startswith a p = true -> PyStr.startswith (String.append a b) p = true.
Proof.
  revert a. induction p as [|c p IH]; intros a; simpl.
  - destruct (String.append a b); reflexivity.
  - destruct a as [|d a]; simpl; [discriminate|].
    intros H. apply andb_prop in H as [Hc Hp]. rewrite Hc. simpl. apply IH, Hp.
Qed.

Lemma count_nonneg (s : string) (c : ascii) : 0 <= PyStr.count s c.
Proof.
  induction s as [|d s IH]; cbn [PyStr.count]; [lia|].
  destruct (Ascii.eqb d c); lia.
Qed.

Lemma startswith_count (s : string) (c : ascii) :
  PyStr.startswith s (String c EmptyString) = true -> 0 < PyStr.count s c.
Proof.
  destruct s as [|d rest]; cbn [PyStr.startswith PyStr.count]; [discriminate|].
  intros H. apply andb_prop in H as [Hc _]. apply Ascii.eqb_eq in Hc. subst d.
  rewrite Ascii.eqb_refl. pose proof (count_nonneg rest c). lia.
Qed.

Lemma buffer_ok_dispatch : dispatch_invariant buffer_ok.
Proof.
  split; [split|].
  - intros v s H. exact H.
  - intros v s H. exact H.
  - intros cost s H. unfold add_cost. destruct (PrimFloat.leb _ _); exact H.
  - intros tool_name tool_id s H.
    destruct (handle_tool_call_frame tool_name tool_id s)
      as (_ & _ & _ & _ & _ & _ & Hbuf & Hflag & _).
    unfold buffer_ok in *. rewrite Hbuf, Hflag. exact H.
Qed.

Lemma buffer_ok_cleared (s : monitor) : buffer_ok (set_json_buffer EmptyString false s).
Proof. reflexivity. Qed.

Lemma keeps_from_get {B : Type} (I : monitor -> Prop) (k : monitor -> M B) :
  (forall s, I s -> I (exec (k s) s)) -> keeps I (bind get k).
Proof. intros H s Hs. apply H, Hs. Qed.

Section Buffer_invariant.

Context {decoder : JsonDecoder}.

Lemma buffer_ok_try_parse_buffered_json : keeps buffer_ok _try_parse_buffered_json.
Proof.
  unfold _try_parse_buffered_json. apply keeps_try_except.
  - apply keeps_bind; [apply keeps_get | intros s].
    destruct (String.eqb (_json_buffer s) EmptyString); [apply keeps_ret|].
    apply keeps_bind; [exact (keeps_loads_and_handle _ buffer_ok_dispatch _) | intros _].
    apply keeps_modify. intros s0 _. apply buffer_ok_cleared.
  - intros e. destruct (is_decode_error e); [|apply keeps_ret].
    apply keeps_bind; [apply keeps_get | intros s].
    destruct (buffer_ceiling <? PyStr.len (_json_buffer s)); [|apply keeps_ret].
    apply keeps_modify. intros s0 _. apply buffer_ok_cleared.
Qed.

Lemma buffer_ok_process_json_buffer (line : string) :
  keeps buffer_ok (_process_json_buffer line).
Proof.
  unfold _process_json_buffer. apply keeps_except_pass.
  destruct (first_marker json_starts line) as [start_pos|] eqn:Hmarker.
  - apply keeps_bind; [apply keeps_get | intros s].
    apply keeps_bind.
    { destruct (String.eqb (_json_buffer s) EmptyString);
        [apply keeps_ret | apply buffer_ok_try_parse_buffered_json]. }
    intros _. apply keeps_bind.
    { destruct (_ && _); [|apply keeps_ret].
      exact (keeps_try_parse_direct_json _ buffer_ok_dispatch _). }
    intros parsed. destruct parsed; [apply keeps_ret|].
    apply keeps_modify. intros s0 _. unfold buffer_ok. simpl.
    exact (first_marker_startswith _ _ _ Hmarker).
  - apply keeps_from_get. intros s Hs.
    destruct (_in_json_block s) eqn:Hblock; [|exact Hs].
    change (buffer_ok
              (exec _try_parse_buffered_json
                 (set_json_buffer (String.append (_json_buffer s) line) true s))).
    apply buffer_ok_try_parse_buffered_json.
    unfold buffer_ok in *. rewrite Hblock in Hs. simpl.
    destruct Hs as (marker & Hin & Hstart).
    exists marker. split; [exact Hin | apply startswith_append, Hstart].
Qed.

Lemma buffer_ok_ingest (line : string) (s : monitor) :
  buffer_ok s -> buffer_ok (ingest line s).
Proof.
  revert s. change (keeps buffer_ok (_process_output_line line)).
  unfold _process_output_line. apply keeps_except_pass.
  destruct (String.eqb (PyStr.strip line) EmptyString); [apply keeps_ret|].
  apply keeps_bind; [apply buffer_ok_process_json_buffer | intros _].
  apply keeps_bind.
  { destruct (_ && _); [|apply keeps_ret]. apply keeps_false_on_decode_error.
    apply keeps_bind; [|intros _; apply keeps_ret].
    exact (keeps_loads_and_handle _ buffer_ok_dispatch _). }
  intros handled. destruct handled; [apply keeps_ret|].
  apply keeps_bind;
    [exact (keeps_detect_tool_calls_in_line _ buffer_ok_dispatch _) | intros _].
  destruct (existsb _ _); [|apply keeps_ret].
  exact (keeps_extract_and_handle_embedded_json _ buffer_ok_dispatch _).
Qed.

(** X5. In every reachable state the accumulation buffer is empty exactly when
    [_in_json_block] is false, and while the monitor accumulates, the buffer
    starts with one of the three markers that open an event. *)
Theorem buffer_is_empty_or_opens_an_event (s : monitor) :
  reachable s ->
  (_in_json_block s = false <-> _json_buffer s = EmptyString)
  /\ (_in_json_block s = true ->
      exists marker,
        In marker json_starts /\ PyStr.startswith (_json_buffer s) marker = true).
Proof.
  intros (limits & max_total & max_cost & ops & ->).
  assert (Hok : buffer_ok (run ops (init limits max_total max_cost))).
  { apply (run_keeps buffer_ok).
    - exact buffer_ok_dispatch.
    - intros line s'. apply buffer_ok_ingest.
    - intros _ s' H. exact H.
    - intros _ cb s' H. exact H.
    - reflexivity. }
  unfold buffer_ok in Hok.
  destruct (_in_json_block (run ops (init limits max_total max_cost))).
  - split; [|intros _; exact Hok]. split; [discriminate|].
    intros Hempty. destruct Hok as (marker & Hin & Hstart).
    rewrite Hempty in Hstart.
    unfold json_starts in Hin. simpl in Hin.
    destruct Hin as [<-|[<-|[<-|[]]]]; discriminate.
  - split; [|discriminate]. split; [intros _; exact Hok | reflexivity].
Qed.

(** A complete event line on an empty buffer: [_process_json_buffer]
    dispatches it, and the direct parse dispatches it again. *)
Lemma complete_line_is_dispatched_twice (line : string) (s : monitor) (data : pyval) :
  is_complete_object (PyStr.strip line) = true ->
  first_marker json_starts (PyStr.strip line) = Some 0%nat ->
  _json_buffer s = EmptyString ->
  json_loads (PyStr.strip line) = Return data ->
  exec (_process_json_buffer (PyStr.strip line)) s = exec (_handle_json_message data) s
  /\ ingest line s
     = exec (_handle_json_message data) (exec (_handle_json_message data) s).
Proof.
  intros Hcomplete Hmarker Hbuf Hloads.
  assert (Hfirst : exec (_process_json_buffer (PyStr.strip line)) s
                   = exec (_handle_json_message data) s).
  { unfold is_complete_object in Hcomplete.
    apply andb_prop in Hcomplete as [Hstart Hend].
    assert (Hcount : (0 <? PyStr.count (PyStr.strip line) "{") = true).
    { apply Z.ltb_lt, startswith_count, Hstart. }
    unfold _process_json_buffer, exec. rewrite except_pass_run, Hmarker.
    unfold exec. rewrite bind_get. cbn beta. rewrite Hbuf. simpl String.eqb. cbn iota.
    rewrite (bind_returns (ret tt) _ s s tt eq_refl).
    simpl PyStr.slice_from. rewrite Hcount, Hend. simpl andb. cbn iota.
    pose proof (handle_json_message_raises data s) as Hraises.
    unfold _try_parse_direct_json, false_on_decode_error, loads_and_handle, try_except,
      bind, lift, ret.
    rewrite Hloads.
    destruct (_handle_json_message data s) as [[[]|e] s1]; simpl.
    - reflexivity.
    - specialize (Hraises e eq_refl). unfold not_decode_error in Hraises.
      rewrite Hraises. reflexivity. }
  split; [exact Hfirst|].
  rewrite (direct_parse_ends_the_line line s data Hcomplete Hloads), Hfirst.
  reflexivity.
Qed.

(** X6. A line that is a complete object and decodes, in which the marker
    that [_process_json_buffer] finds stands at the start, ingested while
    the buffer is empty, is dispatched twice: once by
    [_process_json_buffer] and once by the direct parse of
    [_process_output_line], whether the dispatch returns or raises. *)
Theorem complete_event_line_is_dispatched_twice (line : string) (s : monitor)
  (data : pyval) :
  is_complete_object (PyStr.strip line) = true ->
  first_marker json_starts (PyStr.strip line) = Some 0%nat ->
  _json_buffer s = EmptyString ->
  json_loads (PyStr.strip line) = Return data ->
  exec (_process_json_buffer (PyStr.strip line)) s = exec (_handle_json_message data) s
  /\ ingest line s
     = exec (_handle_json_message data) (exec (_handle_json_message data) s).
Proof. exact (complete_line_is_dispatched_twice line s data). Qed.

End Buffer_invariant.

Lemma buffer_is_empty_or_opens_an_event_witness :
  _in_json_block (ingest_split 44 bash_event fresh) = false
  <-> _json_buffer (ingest_split 44 bash_event fresh) = EmptyString.
Proof.
  apply (buffer_is_empty_or_opens_an_event (decoder := py_json)).
  exists None, None, 10%float,
    [ProcessOutputLine (PyStr.slice_to 44 bash_event);
     ProcessOutputLine (PyStr.slice_from 44 bash_event)].
  reflexivity.
Defined.

Lemma complete_event_line_is_dispatched_twice_witness :
  exists data,
    json_loads (PyStr.strip bash_event) = Return data
    /\ ingest bash_event one_call
       = exec (_handle_json_message data) (exec (_handle_json_message data) one_call).
Proof.
  eexists. split.
  - vm_compute. reflexivity.
  - apply (complete_event_line_is_dispatched_twice (decoder := py_json) bash_event one_call).
    + vm_compute. reflexivity.
    + vm_compute. reflexivity.
    + reflexivity.
    + vm_compute. reflexivity.
Defined.

Lemma detect_tool_id_format_known (tool_id : pyval) (id_format : string) :
  _detect_tool_id_format tool_id = Return id_format -> In id_format id_formats.
Proof.
  unfold _detect_tool_id_format, id_formats. destruct tool_id;
    repeat match goal with |- context [if ?b then _ else _] => destruct b end;
    intros [= <-]; simpl; auto 10.
Qed.

Lemma id_formats_known_count (id_format : string) (s : monitor) :
  In id_format id_formats ->
  id_formats_known s -> id_formats_known (count_id_format id_format s).
Proof.
  intros Hknown H k. unfold count_id_format, increment. simpl.
  destruct (decide (id_format = k)) as [<-|Hne].
  - intros _. exact Hknown.
  - rewrite lookup_insert_ne by exact Hne. apply H.
Qed.

Lemma id_formats_known_tool_call (tool_name tool_id : pyval) :
  keeps id_formats_known (_handle_tool_call tool_name tool_id).
Proof.
  intros s H. unfold exec.
  destruct (handle_tool_call_result tool_name tool_id s) as
    [e Hid|id_format m e Hid|id_format m Hid|id_format e Hid|id_format name limit e Hid
    |id_format name limit Hid|id_format name Hid]; cbn [snd];
    [exact H|..];
    exact (id_formats_known_count id_format s (detect_tool_id_format_known _ _ Hid) H).
Qed.

Lemma id_formats_known_pipeline : pipeline_invariant id_formats_known.
Proof.
  split; [split; [split|]|].
  - intros v s H. exact H.
  - intros v s H. exact H.
  - intros cost s H. unfold add_cost. destruct (PrimFloat.leb _ _); exact H.
  - exact id_formats_known_tool_call.
  - intros text flag s H. exact H.
Qed.

(** X7. In every reachable state the keys of the id-format distribution are
    among the five class names of [_detect_tool_id_format]. *)
Theorem id_format_classes_are_closed {decoder : JsonDecoder} (s : monitor) (k : string) :
  reachable s ->
  is_Some (id_format_stats s !! k) ->
  In k id_formats.
Proof.
  intros (limits & max_total & max_cost & ops & ->). revert k.
  apply (run_keeps_pipeline id_formats_known).
  - exact id_formats_known_pipeline.
  - intros _ s' _ k. unfold clear_counts. simpl. rewrite lookup_empty.
    intros [x Hx]. discriminate.
  - intros _ cb s' H. exact H.
  - intros k. simpl. rewrite lookup_empty. intros [x Hx]. discriminate.
Qed.

Lemma id_format_classes_are_closed_witness :
  In "anthropic_standard" id_formats.
Proof.
  apply (id_format_classes_are_closed (decoder := py_json) one_call).
  - exists None, None, 10%float, [HandleToolCall (PStr "Bash") (PStr "toolu_1")].
    reflexivity.
  - eexists. vm_compute. reflexivity.
Defined.












(** X8, on two lines, and under a cap that no float can hold: the first
    proxy call is counted and the [OverflowError] of its closing test ends
    the loop before the second. *)
Lemma regex_path_on_two_fragments :
  length (Re.findall2 tool_use_pattern two_tool_use_fragments) = 2%nat
  /\ total_calls (exec (_detect_tool_calls_in_line two_tool_use_fragments) fresh) = 1
  /\ length (Re.findall2 call_pattern two_proxy_calls) = 2%nat
  /\ total_calls (exec (_detect_tool_calls_in_line two_proxy_calls) fresh) = 2
  /\ total_calls (exec (_detect_tool_calls_in_line two_proxy_calls) huge_cap) = 1
  /\ sum_counts
       (id_format_stats (exec (_detect_tool_calls_in_line two_proxy_calls) huge_cap))
     = 1.
Proof. vm_compute. repeat split; reflexivity. Qed.

(** ** Chunks and lines *)

Lemma append_cons (c : ascii) (a b : string) :
  String.append (String c a) b = String c (String.append a b).
Proof. reflexivity. Qed.

Lemma append_nil_l (a : string) : String.append EmptyString a = a.
Proof. reflexivity. Qed.

Lemma append_nil_r (a : string) : String.append a EmptyString = a.
Proof.
  induction a as [|c a IH]; [reflexivity | rewrite append_cons, IH; reflexivity].
Qed.

Lemma append_assoc (a b c : string) :
  String.append (String.append a b) c = String.append a (String.append b c).
Proof.
  induction a as [|d a IH]; [reflexivity | rewrite !append_cons, IH; reflexivity].
Qed.

Lemma split_not_nil (c : ascii) (s : string) : PyStr.split c s <> [].
Proof.
  induction s as [|a s IH]; cbn [PyStr.split]; [discriminate|].
  destruct (Ascii.eqb a c); [discriminate|].
  destruct (PyStr.split c s); [contradiction | discriminate].
Qed.

Lemma split_once_none (c : ascii) (s : string) :
  split_once c s = None -> PyStr.split c s = [s].
Proof.
  induction s as [|a s IH]; cbn [split_once PyStr.split]; [reflexivity|].
  destruct (Ascii.eqb a c); [discriminate|].
  destruct (split_once c s) as [[line rest]|]; [discriminate|].
  intros _. rewrite IH by reflexivity. reflexivity.
Qed.

Lemma split_once_some (c : ascii) (s line rest : string) :
  split_once c s = Some (line, rest) ->
  PyStr.split c s = line :: PyStr.split c rest
  /\ (String.length rest < String.length s)%nat.
Proof.
  revert line. induction s as [|a s IH]; intros line; cbn [split_once PyStr.split];
    [discriminate|].
  destruct (Ascii.eqb a c).
  - intros [= <- <-]. split; [reflexivity | simpl; lia].
  - destruct (split_once c s) as [[line' rest']|]; [|discriminate].
    intros [= <- <-]. destruct (IH line' eq_refl) as [-> Hlen].
    split; [reflexivity | simpl; lia].
Qed.

(** The pieces of [a ++ b]: the pieces of [a] but the last, then the
    pieces of the last one followed by [b]. *)
Lemma split_append (c : ascii) (a b : string) :
  PyStr.split c (String.append a b)
  = removelast (PyStr.split c a)
    ++ PyStr.split c (String.append (List.last (PyStr.split c a) EmptyString) b).
Proof.
  induction a as [|d a IH]; [reflexivity|].
  rewrite append_cons. cbn [PyStr.split].
  pose proof (split_not_nil c a) as Hne.
  destruct (Ascii.eqb d c) eqn:Hd.
  - rewrite IH. destruct (PyStr.split c a) as [|p ps]; [contradiction|]. reflexivity.
  - rewrite IH. destruct (PyStr.split c a) as [|p ps]; [contradiction|].
    destruct ps as [|p2 ps].
    + cbn [removelast List.last app]. rewrite append_cons. cbn [PyStr.split].
      rewrite Hd. reflexivity.
    + reflexivity.
Qed.

(** A piece holds no separator. *)
Lemma split_piece (c : ascii) (s p : string) :
  In p (PyStr.split c s) -> split_once c p = None.
Proof.
  revert p. induction s as [|a s IH]; intros p; cbn [PyStr.split].
  - intros [<-|[]]. reflexivity.
  - pose proof (split_not_nil c s) as Hne.
    destruct (Ascii.eqb a c) eqn:Ha.
    + intros [<-|Hin]; [reflexivity | apply IH, Hin].
    + destruct (PyStr.split c s) as [|q qs]; [contradiction|].
      intros [<-|Hin].
      * cbn [split_once]. rewrite Ha, (IH q) by (left; reflexivity). reflexivity.
      * apply IH. right. exact Hin.
Qed.

Lemma last_in {A : Type} (l : list A) (d : A) : l <> [] -> In (List.last l d) l.
Proof.
  induction l as [|x l IH]; [contradiction|]. intros _.
  destruct l as [|y l]; [left; reflexivity|].
  right. apply IH. discriminate.
Qed.

Lemma list_last_app {A : Type} (l1 l2 : list A) (d : A) :
  l2 <> [] -> List.last (l1 ++ l2) d = List.last l2 d.
Proof.
  intros Hne. induction l1 as [|x l1 IH]; [reflexivity|].
  cbn [app List.last]. destruct (l1 ++ l2) eqn:Happ; [|exact IH].
  destruct l1; [contradiction | discriminate].
Qed.

Section Stream_properties.

Context {decoder : JsonDecoder}.

Lemma process_lines_app (l1 l2 : list string) (s : monitor) :
  process_lines (l1 ++ l2) s = process_lines l2 (process_lines l1 s).
Proof.
  revert s. induction l1 as [|line l1 IH]; intros s; simpl; [reflexivity|].
  destruct (String.eqb (PyStr.strip line) EmptyString); apply IH.
Qed.

Lemma ingest_keeps_stop (line : string) (s : monitor) :
  should_stop s = true -> should_stop (ingest line s) = true.
Proof.
  intros Hstop.
  destruct (ingest_keeps (continues s) (continues_pipeline s) line s (continues_refl s))
    as (_ & _ & _ & Hkeep & _).
  exact (Hkeep Hstop).
Qed.

Lemma process_lines_keeps_stop (lines : list string) (s : monitor) :
  should_stop s = true -> should_stop (process_lines lines s) = true.
Proof.
  revert s. induction lines as [|line lines IH]; intros s Hstop; simpl; [exact Hstop|].
  destruct (String.eqb (PyStr.strip line) EmptyString);
    [apply IH, Hstop | apply IH, ingest_keeps_stop, Hstop].
Qed.

(** While no line sets the stop flag, the inner loop ingests every line
    that a line feed ends and leaves the rest in the buffer. *)
Lemma take_lines_unstopped (fuel : nat) (buffer : string) (s : monitor) :
  (String.length buffer <= fuel)%nat ->
  should_stop (process_lines (removelast (PyStr.split newline buffer)) s) = false ->
  take_lines fuel buffer s
  = (List.last (PyStr.split newline buffer) EmptyString,
     process_lines (removelast (PyStr.split newline buffer)) s, false).
Proof.
  revert buffer s. induction fuel as [|fuel IH]; intros buffer s Hfuel Hfree.
  - destruct buffer; [reflexivity | simpl in Hfuel; lia].
  - cbn [take_lines].
    destruct (split_once newline buffer) as [[line rest]|] eqn:Honce.
    + destruct (split_once_some _ _ _ _ Honce) as [Hsplit Hlen].
      pose proof (split_not_nil newline rest) as Hne.
      rewrite Hsplit in Hfree |- *.
      destruct (PyStr.split newline rest) as [|p ps] eqn:Hrest; [contradiction|].
      change (removelast (line :: p :: ps)) with (line :: removelast (p :: ps)) in *.
      change (List.last (line :: p :: ps) EmptyString)
        with (List.last (p :: ps) EmptyString).
      cbn [process_lines] in Hfree |- *.
      destruct (String.eqb (PyStr.strip line) EmptyString).
      * rewrite IH; rewrite ?Hrest; [reflexivity | lia | exact Hfree].
      * destruct (should_stop (ingest (PyStr.strip line) s)) eqn:Hstop.
        { rewrite process_lines_keeps_stop in Hfree by exact Hstop. discriminate. }
        rewrite IH; rewrite ?Hrest; [reflexivity | lia | exact Hfree].
    + rewrite (split_once_none _ _ Honce). reflexivity.
Qed.

Lemma monitor_rounds_unstopped (reads : list (option string)) (buffer : string)
  (s : monitor) :
  split_once newline buffer = None ->
  let text := String.append buffer (data_of reads) in
  should_stop (process_lines (removelast (PyStr.split newline text)) s) = false ->
  monitor_rounds reads buffer s
  = (List.last (PyStr.split newline text) EmptyString,
     process_lines (removelast (PyStr.split newline text)) s, false).
Proof.
  revert buffer s. induction reads as [|[decoded_data|] reads IH];
    intros buffer s Hbuffer; cbn zeta.
  - unfold data_of. cbn [map join]. rewrite append_nil_r.
    rewrite (split_once_none _ _ Hbuffer). intros _. reflexivity.
  - unfold data_of. cbn [map join default monitor_rounds].
    fold (data_of reads). unfold id.
    rewrite <- append_assoc.
    rewrite (split_append newline (String.append buffer decoded_data) (data_of reads)).
    pose proof (split_not_nil newline
                  (String.append
                     (List.last (PyStr.split newline (String.append buffer decoded_data))
                        EmptyString) (data_of reads))) as Hne.
    rewrite removelast_app by exact Hne.
    rewrite process_lines_app. intros Hfree.
    assert (Hfirst :
              should_stop
                (process_lines
                   (removelast (PyStr.split newline (String.append buffer decoded_data)))
                   s) = false).
    { destruct (should_stop (process_lines (removelast (PyStr.split newline
                  (String.append buffer decoded_data))) s)) eqn:Hstop; [|reflexivity].
      rewrite process_lines_keeps_stop in Hfree by exact Hstop. discriminate. }
    rewrite take_lines_unstopped by (try lia; exact Hfirst).
    rewrite IH.
    + rewrite list_last_app by exact Hne. reflexivity.
    + apply (split_piece newline (String.append buffer decoded_data)).
      apply last_in, split_not_nil.
    + exact Hfree.
  - unfold data_of. cbn [map join default monitor_rounds]. rewrite append_nil_l.
    apply IH, Hbuffer.
Qed.

(** X9. [_monitor_output_stream] ingests the stream line by line, however the
    data is cut into chunks: while no line that a line feed ends sets the
    stop flag, the monitor it leaves is the one that ingesting the lines of
    the whole data leaves, and the process is not stopped. *)
Theorem stream_is_ingested_line_by_line (reads : list (option string)) (s : monitor) :
  should_stop (process_lines (removelast (PyStr.split newline (data_of reads))) s)
  = false ->
  _monitor_output_stream reads s
  = (process_lines (PyStr.split newline (data_of reads)) s, false).
Proof.
  intros Hfree. unfold _monitor_output_stream.
  rewrite (monitor_rounds_unstopped reads EmptyString s eq_refl Hfree).
  rewrite append_nil_l.
  set (pieces := PyStr.split newline (data_of reads)).
  replace (process_lines pieces s)
    with (process_lines (removelast pieces ++ [List.last pieces EmptyString]) s).
  - rewrite process_lines_app. reflexivity.
  - f_equal. symmetry. apply app_removelast_last, split_not_nil.
Qed.

End Stream_properties.

Lemma stream_is_ingested_line_by_line_witness :
  _monitor_output_stream torn_chunks fresh = _monitor_output_stream whole_chunks fresh
  /\ total_calls (fst (_monitor_output_stream torn_chunks fresh)) = 2.
Proof.
  rewrite (stream_is_ingested_line_by_line (decoder := py_json) torn_chunks fresh)
    by (vm_compute; reflexivity).
  rewrite (stream_is_ingested_line_by_line (decoder := py_json) whole_chunks fresh)
    by (vm_compute; reflexivity).
  split; vm_compute; reflexivity.
Defined.

(** After a stop, what is left of the chunk is ingested as one line. *)
Lemma rest_of_the_chunk_is_one_line :
  let s := init None (Some 1) 10%float in
  monitor_rounds three_line_chunk EmptyString (ingest read_event s)
  = (String.append read_event
       (String newline (String.append read_event (String newline read_event))),
     ingest read_event (ingest read_event s), true)
  /\ total_calls (fst (_monitor_output_stream three_line_chunk (ingest read_event s))) = 1
  /\ sum_counts (id_format_stats
                   (fst (_monitor_output_stream three_line_chunk (ingest read_event s))))
     = 3.
Proof. vm_compute. repeat split; reflexivity. Qed.

(** ** The readers *)

Lemma join_app (a b : list string) : join (a ++ b) = String.append (join a) (join b).
Proof.
  induction a as [|x a IH]; [reflexivity|].
  cbn [app join]. rewrite IH, append_assoc. reflexivity.
Qed.

Lemma join_singleton (a : string) : join [a] = a.
Proof. cbn [join]. apply append_nil_r. Qed.

(** *** Stripping a line *)

Lemma rev_onto_append (s acc : string) :
  PyStr.rev_onto s acc = String.append (PyStr.reverse s) acc.
Proof.
  unfold PyStr.reverse. revert acc. induction s as [|c s IH]; intros acc; [reflexivity|].
  cbn [PyStr.rev_onto]. rewrite IH, (IH (String c EmptyString)), append_assoc.
  reflexivity.
Qed.

Lemma reverse_append (a b : string) :
  PyStr.reverse (String.append a b)
  = String.append (PyStr.reverse b) (PyStr.reverse a).
Proof.
  induction a as [|c a IH].
  - rewrite append_nil_l. change (PyStr.reverse EmptyString) with EmptyString.
    rewrite append_nil_r. reflexivity.
  - rewrite append_cons. unfold PyStr.reverse at 1 3. cbn [PyStr.rev_onto].
    rewrite !rev_onto_append, IH, append_assoc. reflexivity.
Qed.

Lemma rstrip_line (t : string) :
  PyStr.rstrip (String.append t (String newline EmptyString)) = PyStr.rstrip t.
Proof. unfold PyStr.rstrip. rewrite reverse_append. reflexivity. Qed.

Lemma lstrip_line (body : string) :
  PyStr.lstrip (String.append body (String newline EmptyString))
  = match PyStr.lstrip body with
    | EmptyString => EmptyString
    | _ => String.append (PyStr.lstrip body) (String newline EmptyString)
    end.
Proof.
  induction body as [|c body IH]; [reflexivity|].
  rewrite append_cons. cbn [PyStr.lstrip].
  destruct (PyStr.isspace c); [exact IH | reflexivity].
Qed.

Lemma strip_line (body : string) :
  PyStr.strip (String.append body (String newline EmptyString)) = PyStr.strip body.
Proof.
  unfold PyStr.strip. rewrite lstrip_line.
  destruct (PyStr.lstrip body) eqn:Hbody; [reflexivity|].
  apply rstrip_line.
Qed.

Lemma split_once_append (c : ascii) (s a b : string) :
  split_once c s = Some (a, b) -> s = String.append a (String c b).
Proof.
  revert a. induction s as [|d s IH]; intros a; cbn [split_once]; [discriminate|].
  destruct (Ascii.eqb d c) eqn:Hd.
  - intros [= <- <-]. apply Ascii.eqb_eq in Hd. subst d. reflexivity.
  - destruct (split_once c s) as [[a' b']|]; [|discriminate].
    intros [= <- <-]. rewrite append_cons, <- (IH a' eq_refl). reflexivity.
Qed.

Lemma is_line_body (text : string) :
  is_line text = true ->
  exists body,
    text = String.append body (String newline EmptyString)
    /\ PyStr.split newline text = [body; EmptyString].
Proof.
  unfold is_line. destruct (split_once newline text) as [[body rest]|] eqn:Honce;
    [|discriminate].
  destruct rest; [|discriminate]. intros _. exists body.
  split; [exact (split_once_append _ _ _ _ Honce)|].
  destruct (split_once_some _ _ _ _ Honce) as [Hsplit _]. exact Hsplit.
Qed.

Section Reader_properties.

Context {decoder : JsonDecoder}.

Lemma ingest_blank (line : string) (s : monitor) :
  PyStr.strip line = EmptyString -> ingest line s = s.
Proof.
  intros Hblank. unfold ingest, _process_output_line, exec.
  rewrite except_pass_run, Hblank. reflexivity.
Qed.

Lemma ingest_strip_line (body : string) (s : monitor) :
  ingest (PyStr.strip (String.append body (String newline EmptyString))) s
  = process_lines [body] s.
Proof.
  rewrite strip_line. cbn [process_lines].
  destruct (String.eqb (PyStr.strip body) EmptyString) eqn:Hblank; [|reflexivity].
  apply String.eqb_eq in Hblank. apply ingest_blank. rewrite Hblank. reflexivity.
Qed.

(** Reading lines one by one ingests what the analysis of their
    concatenation ingests. *)
Lemma process_lines_of_lines (lines : list string) (rest : string) (s : monitor) :
  Forall (fun text => is_line text = true) lines ->
  process_lines (PyStr.split newline (String.append (join lines) rest)) s
  = process_lines (PyStr.split newline rest) (ingested lines s).
Proof.
  intros Hlines. revert s. induction Hlines as [|text lines Htext _ IH]; intros s.
  - reflexivity.
  - destruct (is_line_body text Htext) as (body & Hbody & Hsplit).
    cbn [join]. rewrite append_assoc, split_append, Hsplit.
    cbn [removelast List.last]. rewrite append_nil_l, process_lines_app.
    change (ingested (text :: lines) s)
      with (ingested lines (ingest (PyStr.strip text) s)).
    rewrite <- IH. rewrite Hbody, ingest_strip_line. reflexivity.
Qed.

Lemma read_rounds_lines (timeout : option Z) (start_time : float) (rounds : list round)
  (exit_time : float) (output_lines : list string) (s : monitor) :
  lines_only rounds ->
  exists lines,
    Forall (fun text => is_line text = true) lines
    /\ snd (fst (read_rounds timeout start_time rounds exit_time output_lines s))
       = output_lines ++ lines
    /\ snd (read_rounds timeout start_time rounds exit_time output_lines s)
       = ingested lines s.
Proof.
  intros Hrounds. revert output_lines s.
  induction Hrounds as [|r rounds Hr _ IH]; intros output_lines s; cbn [read_rounds].
  - exists []. rewrite app_nil_r.
    destruct (timeout_expired _ _ _); repeat split; constructor.
  - destruct (timeout_expired timeout start_time (round_time r)).
    { exists []. rewrite app_nil_r. repeat split; constructor. }
    destruct (should_stop s).
    { exists []. rewrite app_nil_r. repeat split; constructor. }
    destruct (round_line r) as [decoded_line|]; [|apply IH].
    destruct (should_stop (ingest (PyStr.strip decoded_line) s)).
    + exists [decoded_line]. repeat split. constructor; [exact Hr | constructor].
    + destruct (IH (output_lines ++ [decoded_line])
                  (ingest (PyStr.strip decoded_line) s)) as (lines & Hlines & Hout & Hs).
      exists (decoded_line :: lines). split; [constructor; assumption|].
      rewrite Hout, Hs, <- app_assoc. split; reflexivity.
Qed.

Lemma replay_process_lines (lines : list string) (processed : Z) (s : monitor) :
  snd (replay lines processed s) = process_lines lines s.
Proof.
  revert processed s. induction lines as [|line lines IH]; intros processed s; simpl.
  - reflexivity.
  - destruct (String.eqb (PyStr.strip line) EmptyString); apply IH.
Qed.

(** X10. When every text that [readline] gave is a line, the monitor that
    [ProcessStreamReader.read_with_monitoring] leaves is the one that
    ingesting the lines of the returned output leaves; from a monitor whose
    call counters are empty, [analyze_completed_output] on the returned
    output leaves that same monitor. *)
Theorem transcript_replays_to_the_live_state (timeout : option Z) (start_time : float)
  (rounds : list round) (exit_time : float) (remaining_output : option string)
  (s : monitor) (text : string) :
  lines_only rounds ->
  fst (read_with_monitoring timeout start_time rounds exit_time remaining_output s)
  = Output text ->
  let s' := snd (read_with_monitoring timeout start_time rounds exit_time
                   remaining_output s) in
  s' = process_lines (PyStr.split newline text) s
  /\ (clear_counts s = s -> snd (analyze_completed_output text s) = s').
Proof.
  intros Hrounds Hresult s'.
  assert (Hlive : s' = process_lines (PyStr.split newline text) s).
  { subst s'. unfold read_with_monitoring in *.
    destruct (read_rounds_lines timeout start_time rounds exit_time [] s Hrounds)
      as (lines & Hlines & Hout & Hs).
    destruct (read_rounds timeout start_time rounds exit_time [] s)
      as [[ending output_lines] s1].
    cbn [fst snd] in Hout, Hs. rewrite app_nil_l in Hout. subst output_lines s1.
    destruct remaining_output as [decoded_output|]; cbn [drain fst snd] in *.
    - assert (Htext : text = String.append (join lines) decoded_output).
      { destruct ending; try discriminate; injection Hresult as <-;
          rewrite join_app, join_singleton; reflexivity. }
      rewrite Htext, process_lines_of_lines by exact Hlines. reflexivity.
    - assert (Htext : text = String.append (join lines) EmptyString).
      { destruct ending; try discriminate; injection Hresult as <-;
          rewrite append_nil_r; reflexivity. }
      rewrite Htext, process_lines_of_lines by exact Hlines. reflexivity. }
  split; [exact Hlive|].
  intros Hclear. rewrite Hlive. unfold analyze_completed_output. rewrite Hclear.
  pose proof (replay_process_lines (PyStr.split (ascii_of_nat 10) text) 0 s) as Hreplay.
  destruct (replay (PyStr.split (ascii_of_nat 10) text) 0 s) as [processed s1].
  exact Hreplay.
Qed.

(** X11. With no timeout or a timeout of 0, [read_with_monitoring] never raises
    [TimeoutExpired]; when it raises, the timeout is not 0 and one reading
    of the clock was more than the timeout after the start. *)
Theorem timeout_needs_a_late_clock (timeout : option Z) (start_time : float)
  (rounds : list round) (exit_time : float) (remaining_output : option string)
  (s : monitor) :
  (timeout = None \/ timeout = Some 0 ->
   exists text,
     fst (read_with_monitoring timeout start_time rounds exit_time remaining_output s)
     = Output text)
  /\ (fst (read_with_monitoring timeout start_time rounds exit_time remaining_output s)
      = TimeoutExpired ->
      exists limit now,
        timeout = Some limit /\ limit <> 0
        /\ In now (map round_time rounds ++ [exit_time])
        /\ float_gt_int (PrimFloat.sub now start_time) limit = true).
Proof.
  assert (Hloop : forall output_lines s0,
             fst (fst (read_rounds timeout start_time rounds exit_time output_lines s0))
             = TimedOut ->
             exists now,
               In now (map round_time rounds ++ [exit_time])
               /\ timeout_expired timeout start_time now = true).
  { induction rounds as [|r rounds IH]; intros output_lines s0; cbn [read_rounds].
    - destruct (timeout_expired timeout start_time exit_time) eqn:Hlate; [|discriminate].
      intros _. exists exit_time. split; [left; reflexivity | exact Hlate].
    - destruct (timeout_expired timeout start_time (round_time r)) eqn:Hlate.
      { intros _. exists (round_time r). split; [left; reflexivity | exact Hlate]. }
      destruct (should_stop s0); [discriminate|].
      assert (Hnext : forall out s1,
                 fst (fst (read_rounds timeout start_time rounds exit_time out s1))
                 = TimedOut ->
                 exists now,
                   In now (map round_time (r :: rounds) ++ [exit_time])
                   /\ timeout_expired timeout start_time now = true).
      { intros out s1 H. destruct (IH out s1 H) as (now & Hin & Hnow).
        exists now. split; [right; exact Hin | exact Hnow]. }
      destruct (round_line r) as [decoded_line|]; [|apply Hnext].
      destruct (should_stop (ingest (PyStr.strip decoded_line) s0));
        [discriminate | apply Hnext]. }
  assert (Hresult :
            fst (read_with_monitoring timeout start_time rounds exit_time
                   remaining_output s) = TimeoutExpired ->
            exists now,
              In now (map round_time rounds ++ [exit_time])
              /\ timeout_expired timeout start_time now = true).
  { unfold read_with_monitoring. specialize (Hloop [] s).
    destruct (read_rounds timeout start_time rounds exit_time [] s)
      as [[ending output_lines] s1].
    destruct (drain remaining_output output_lines s1) as [output_lines' s2].
    cbn [fst snd] in *. destruct ending; try discriminate. intros _. apply Hloop.
    reflexivity. }
  split.
  - intros Hoff.
    destruct (fst (read_with_monitoring timeout start_time rounds exit_time
                     remaining_output s)) as [text|] eqn:Hread;
      [exists text; reflexivity|].
    destruct (Hresult eq_refl) as (now & _ & Hnow).
    destruct Hoff as [-> | ->]; discriminate.
  - intros Hread. destruct (Hresult Hread) as (now & Hin & Hnow).
    unfold timeout_expired in Hnow. destruct timeout as [limit|]; [|discriminate].
    apply andb_prop in Hnow as [Hlimit Hlate].
    exists limit, now. repeat split; try assumption.
    intros ->. discriminate.
Qed.

Lemma enhanced_rounds_plain (has_runner : bool) (timeout : option Z) (start_time : float)
  (rounds : list enhanced_round) (exit_time : float) (output_lines : list string)
  (log : log_state) (s : monitor) :
  let '(ending, output_lines', log', s') :=
    enhanced_rounds has_runner timeout start_time rounds exit_time output_lines log s in
  read_rounds timeout start_time (map plain_round rounds) exit_time output_lines s
  = (ending, output_lines', s')
  /\ (has_runner = true ->
      join (handed log ++ output_chunk_buffer log) = join output_lines ->
      join (handed log' ++ output_chunk_buffer log') = join output_lines')
  /\ (has_runner = false -> handed log = [] -> handed log' = []).
Proof.
  revert output_lines log s.
  induction rounds as [|r rounds IH]; intros output_lines log s;
    cbn [enhanced_rounds read_rounds map plain_round round_time round_line].
  - destruct (timeout_expired _ _ _); repeat split; auto.
  - destruct (timeout_expired timeout start_time (enhanced_time r));
      [repeat split; auto|].
    destruct (should_stop s); [repeat split; auto|].
    destruct (enhanced_line r) as [decoded_line|]; [|apply IH].
    set (log1 := flush_if_due has_runner (log_time r) (add_chunk decoded_line log)).
    assert (Hlog : (has_runner = true ->
                    join (handed log ++ output_chunk_buffer log) = join output_lines ->
                    join (handed log1 ++ output_chunk_buffer log1)
                    = join (output_lines ++ [decoded_line]))
                   /\ (has_runner = false -> handed log = [] -> handed log1 = [])).
    { subst log1. unfold flush_if_due, add_chunk.
      cbn [output_chunk_buffer last_log_update handed].
      destruct (_ || _); cbn [output_chunk_buffer handed].
      - unfold _update_real_time_log.
        destruct (output_chunk_buffer log ++ [decoded_line]) as [|c cs] eqn:Hchunks.
        { destruct (output_chunk_buffer log); discriminate. }
        rewrite <- Hchunks. split.
        + intros -> Hinv. rewrite join_app in Hinv.
          rewrite app_nil_r, !join_app, !join_singleton, <- Hinv, append_assoc.
          reflexivity.
        + intros -> Hnone. exact Hnone.
      - split; [|auto]. intros _ Hinv. rewrite join_app in Hinv.
        rewrite !join_app, <- Hinv, append_assoc. reflexivity. }
    destruct (should_stop (ingest (PyStr.strip decoded_line) s)).
    + split; [reflexivity | exact Hlog].
    + specialize (IH (output_lines ++ [decoded_line]) log1
                    (ingest (PyStr.strip decoded_line) s)).
      destruct (enhanced_rounds has_runner timeout start_time rounds exit_time
                  (output_lines ++ [decoded_line]) log1
                  (ingest (PyStr.strip decoded_line) s))
        as [[[ending output_lines'] log'] s'].
      destruct IH as (Hplain & Hrunner & Hnone). destruct Hlog as [Hlog1 Hlog2].
      split; [exact Hplain|]. split; auto.
Qed.

(** X12. [EnhancedProcessStreamReader.read_with_monitoring] returns the output
    and leaves the monitor as the plain reader does on the same rounds; with
    a runner, the texts handed to the runner's log add up to the returned
    output, and without one nothing is handed over. *)
Theorem enhanced_reader_reads_like_the_plain_one (has_runner : bool)
  (timeout : option Z) (start_time first_log_time : float)
  (rounds : list enhanced_round) (exit_time : float) (remaining_output : option string)
  (s : monitor) :
  let '(result, s', handed_over) :=
    enhanced_read_with_monitoring has_runner timeout start_time first_log_time rounds
      exit_time remaining_output s in
  read_with_monitoring timeout start_time (map plain_round rounds) exit_time
    remaining_output s = (result, s')
  /\ (has_runner = true -> forall text, result = Output text -> join handed_over = text)
  /\ (has_runner = false -> handed_over = []).
Proof.
  unfold enhanced_read_with_monitoring, enhanced_run, read_with_monitoring.
  pose proof (enhanced_rounds_plain has_runner timeout start_time rounds exit_time []
                {| output_chunk_buffer := []; last_log_update := first_log_time;
                   handed := [] |} s) as Hloop.
  destruct (enhanced_rounds has_runner timeout start_time rounds exit_time [] _ s)
    as [[[ending output_lines] log] s1].
  destruct Hloop as (-> & Hrunner & Hnone).
  assert (Hhanded :
            has_runner = true ->
            join (_update_real_time_log has_runner
                    (output_chunk_buffer
                       match remaining_output with
                       | Some decoded_output => add_chunk decoded_output log
                       | None => log
                       end)
                    (handed
                       match remaining_output with
                       | Some decoded_output => add_chunk decoded_output log
                       | None => log
                       end))
            = join (fst (drain remaining_output output_lines s1))).
  { intros Hyes. specialize (Hrunner Hyes eq_refl). rewrite Hyes.
    assert (Hflush : forall chunks handed_so_far,
               join (_update_real_time_log true chunks handed_so_far)
               = join (handed_so_far ++ chunks)).
    { intros chunks handed_so_far. unfold _update_real_time_log.
      destruct chunks as [|c cs]; [rewrite app_nil_r; reflexivity|].
      rewrite !join_app, join_singleton. reflexivity. }
    rewrite Hflush.
    destruct remaining_output as [decoded_output|];
      cbn [drain fst add_chunk output_chunk_buffer handed].
    - rewrite join_app in Hrunner.
      rewrite !join_app, <- Hrunner, append_assoc. reflexivity.
    - exact Hrunner. }
  destruct (drain remaining_output output_lines s1) as [output_lines' s2] eqn:Hdrain.
  cbn [fst] in Hhanded.
  split; [reflexivity|]. split.
  - intros Hyes text Hresult. rewrite (Hhanded Hyes).
    destruct ending; try discriminate; injection Hresult as <-; reflexivity.
  - intros Hno. specialize (Hnone Hno eq_refl). unfold _update_real_time_log.
    rewrite Hno.
    destruct remaining_output as [decoded_output|];
      cbn [add_chunk output_chunk_buffer handed]; rewrite Hnone;
      match goal with |- match ?chunks with _ => _ end = _ => destruct chunks end;
      reflexivity.
Qed.

End Reader_properties.

Lemma transcript_replays_to_the_live_state_witness :
  exists text,
    fst (read_with_monitoring (Some 60) 0 (map plain_round two_event_rounds) 6
           (Some read_event) fresh) = Output text
    /\ snd (analyze_completed_output text fresh)
       = snd (read_with_monitoring (Some 60) 0 (map plain_round two_event_rounds) 6
                (Some read_event) fresh).
Proof.
  eexists. split; [vm_compute; reflexivity|].
  refine (proj2 (transcript_replays_to_the_live_state (decoder := py_json)
                   (Some 60) 0%float (map plain_round two_event_rounds) 6%float
                   (Some read_event) fresh _ _ _) eq_refl).
  - repeat constructor.
  - vm_compute. reflexivity.
Defined.

(** X12, on a process of two events: the first line is handed over with
    the second, when two seconds have passed, and the rest at the end. *)
Lemma enhanced_reader_on_two_events :
  enhanced_read_with_monitoring true (Some 60) 0 0 two_event_rounds 6 (Some read_event)
    fresh
  = (Output (String.append event_line (String.append event_line read_event)),
     snd (read_with_monitoring (Some 60) 0 (map plain_round two_event_rounds) 6
            (Some read_event) fresh),
     [String.append event_line event_line; read_event])
  /\ total_calls
       (snd (read_with_monitoring (Some 60) 0 (map plain_round two_event_rounds) 6
               (Some read_event) fresh)) = 3
  /\ fst (read_with_monitoring (Some 4) 0 (map plain_round two_event_rounds) 6
            (Some read_event) fresh) = TimeoutExpired
  /\ total_calls
       (snd (read_with_monitoring (Some 4) 0 (map plain_round two_event_rounds) 6
               (Some read_event) fresh)) = 2.
Proof. vm_compute. repeat split; reflexivity. Qed.

(** ** Offline analysis *)












(** ** The timeout of the reader *)


Section Timeout.

Context {decoder : JsonDecoder}.

Lemma ingested_app (l1 l2 : list string) (s : monitor) :
  ingested (l1 ++ l2) s = ingested l2 (ingested l1 s).
Proof. unfold ingested. apply fold_left_app. Qed.






End Timeout.


(** ** Errors of a usage event, and the pattern extractor *)

(** What a usage event cannot change, and what it changes only when it
    reaches the cost. *)
Lemma usage_frame (s : monitor) :
  usage_invariant (fun s' =>
    total_calls s' = total_calls s /\ tool_calls s' = tool_calls s
    /\ id_format_stats s' = id_format_stats s
    /\ _json_buffer s' = _json_buffer s /\ _in_json_block s' = _in_json_block s).
Proof.
  split.
  - intros v s' H. exact H.
  - intros v s' H. exact H.
  - intros cost s' H. unfold add_cost. destruct (PrimFloat.leb _ _); exact H.
Qed.

Lemma py_get_error (v : pyval) (key : string) (default : pyval) (e : exn) :
  py_get v key default = Raise e -> e = AttributeError.
Proof. destruct v; simpl; congruence. Qed.

Lemma as_number_error (v : pyval) (e : exn) : as_number v = Raise e -> e = TypeError.
Proof. destruct v; simpl; congruence. Qed.

Lemma py_add_error (x y : pynum) (e : exn) : py_add x y = Raise e -> e = OverflowError.
Proof.
  destruct x as [a|f], y as [b|g]; simpl; try discriminate; unfold float_of_int;
    destruct (_ <=? _); congruence.
Qed.

Lemma pricing_get_error (model : pyval) (e : exn) :
  pricing_get model = Raise e -> e = TypeError.
Proof. destruct model; simpl; congruence. Qed.

Lemma usage_cost_error (i o : pynum) (price : rates) (e : exn) :
  usage_cost i o price = Raise e -> e = OverflowError.
Proof.
  unfold usage_cost, per_million, int_truediv.
  destruct i as [a|f], o as [b|g];
    repeat match goal with |- context [if ?c then _ else _] => destruct c end;
    congruence.
Qed.

(** X13. When [_handle_usage_data] raises, the exception is an [AttributeError],
    a [TypeError] or an [OverflowError], and the cost, the stop flag, the
    reasons given to the callbacks and the call counters are as before; the
    token totals may have been updated. *)
Theorem failed_usage_event_adds_no_cost (usage model : pyval) (s : monitor) (e : exn) :
  fst (_handle_usage_data usage model s) = Raise e ->
  let s' := exec (_handle_usage_data usage model) s in
  (e = AttributeError \/ e = TypeError \/ e = OverflowError)
  /\ current_cost_usd s' = current_cost_usd s
  /\ should_stop s' = should_stop s
  /\ notified s' = notified s
  /\ total_calls s' = total_calls s
  /\ tool_calls s' = tool_calls s.
Proof.
  intros Hraise s'.
  destruct (keeps_handle_usage_data _ usage model (usage_frame s) s)
    as (Htotal & Hcalls & _); [repeat split; reflexivity|].
  fold s' in Htotal, Hcalls.
  cut ((e = AttributeError \/ e = TypeError \/ e = OverflowError)
       /\ current_cost_usd s' = current_cost_usd s
       /\ should_stop s' = should_stop s /\ notified s' = notified s).
  { intros (He & Hcost & Hstop & Hnotified). repeat split; assumption. }
  subst s'. clear Htotal Hcalls. revert Hraise.
  unfold _handle_usage_data, exec, bind, lift, get, modify, ret.
  destruct (py_get usage "input_tokens" (PNum (PyInt 0))) as [input_value|e1] eqn:H1;
    [|intros [= <-]; rewrite (py_get_error _ _ _ _ H1); auto 6].
  destruct (py_get usage "output_tokens" (PNum (PyInt 0))) as [output_value|e2] eqn:H2;
    [|intros [= <-]; rewrite (py_get_error _ _ _ _ H2); auto 6].
  destruct (as_number input_value) as [input_tokens|e3] eqn:H3;
    [|intros [= <-]; rewrite (as_number_error _ _ H3); auto 6].
  destruct (gt_zero input_tokens).
  - destruct (py_add (total_input_tokens s) input_tokens) as [total_in|e4] eqn:H4;
      [|intros [= <-]; rewrite (py_add_error _ _ _ H4); auto 6].
    destruct (as_number output_value) as [output_tokens|e5] eqn:H5;
      [|intros [= <-]; rewrite (as_number_error _ _ H5); auto 6].
    destruct (py_add _ output_tokens) as [total_out|e6] eqn:H6;
      [|intros [= <-]; rewrite (py_add_error _ _ _ H6); auto 6].
    destruct (pricing_get model) as [price|e7] eqn:H7;
      [|intros [= <-]; rewrite (pricing_get_error _ _ H7); auto 6].
    destruct (usage_cost input_tokens output_tokens price) as [new_cost|e8] eqn:H8;
      [discriminate|intros [= <-]; rewrite (usage_cost_error _ _ _ _ H8); auto 6].
  - destruct (as_number output_value) as [output_tokens|e5] eqn:H5;
      [|intros [= <-]; rewrite (as_number_error _ _ H5); auto 6].
    destruct (gt_zero output_tokens); [|discriminate].
    destruct (py_add (total_input_tokens s) input_tokens) as [total_in|e4] eqn:H4;
      [|intros [= <-]; rewrite (py_add_error _ _ _ H4); auto 6].
    destruct (py_add _ output_tokens) as [total_out|e6] eqn:H6;
      [|intros [= <-]; rewrite (py_add_error _ _ _ H6); auto 6].
    destruct (pricing_get model) as [price|e7] eqn:H7;
      [|intros [= <-]; rewrite (pricing_get_error _ _ H7); auto 6].
    destruct (usage_cost input_tokens output_tokens price) as [new_cost|e8] eqn:H8;
      [discriminate|intros [= <-]; rewrite (usage_cost_error _ _ _ _ H8); auto 6].
Qed.

Lemma failed_usage_event_adds_no_cost_witness :
  fst (_handle_usage_data huge_usage sonnet fresh) = Raise OverflowError
  /\ current_cost_usd (exec (_handle_usage_data huge_usage sonnet) fresh)
     = current_cost_usd fresh
  /\ total_input_tokens (exec (_handle_usage_data huge_usage sonnet) fresh)
     = PyInt (10 ^ 400).
Proof.
  assert (Hraise : fst (_handle_usage_data huge_usage sonnet fresh) = Raise OverflowError)
    by (vm_compute; reflexivity).
  destruct (failed_usage_event_adds_no_cost huge_usage sonnet fresh OverflowError Hraise)
    as (_ & Hcost & _).
  split; [exact Hraise|]. split; [exact Hcost|]. vm_compute. reflexivity.
Defined.

Section Extraction_properties.

Context {decoder : JsonDecoder}.

Lemma keeps_extract_tool_use_block (I : monitor -> Prop) (line : string) :
  dispatch_invariant I -> keeps I (_extract_tool_use_block line).
Proof.
  intros HI. unfold _extract_tool_use_block. apply keeps_except_pass.
  apply keeps_for_each. intros matched. unfold _extract_block.
  apply keeps_try_except.
  - apply keeps_bind; [apply keeps_lift | intros tool_data].
    apply keeps_bind; [apply keeps_lift | intros tool_name].
    apply keeps_bind; [apply keeps_lift | intros tool_id].
    destruct (truthy tool_name); [|apply keeps_ret].
    exact (inv_tool_call I HI tool_name tool_id).
  - intros e. destruct (is_decode_error e); [apply keeps_ret | apply keeps_raise].
Qed.

(** X14. [_extract_tool_use_block] always returns; it keeps the ledger invariant
    and the budgets, leaves the configuration, a set stop flag, the cost and
    the accumulation buffer as they are, and lowers no counter. *)
Theorem extract_tool_use_block_keeps_the_ledgers (line : string) (s : monitor) :
  let s' := exec (_extract_tool_use_block line) s in
  fst (_extract_tool_use_block line s) = Return tt
  /\ (ledger_ok s -> ledger_ok s')
  /\ (within_budget s -> within_budget s')
  /\ continues s s'
  /\ counts_grow s s'
  /\ current_cost_usd s' = current_cost_usd s
  /\ _json_buffer s' = _json_buffer s.
Proof.
  intros s'. split.
  { unfold _extract_tool_use_block. rewrite except_pass_run. reflexivity. }
  split; [apply keeps_extract_tool_use_block, ledger_ok_dispatch|].
  split; [apply keeps_extract_tool_use_block, within_budget_pipeline|].
  split.
  { apply (keeps_extract_tool_use_block (continues s));
      [apply continues_pipeline | apply continues_refl]. }
  split.
  { apply (keeps_extract_tool_use_block (counts_grow s));
      [apply counts_grow_pipeline | apply counts_grow_refl]. }
  assert (Hkept : forall matched,
             keeps (fun s0 => current_cost_usd s0 = current_cost_usd s
                              /\ _json_buffer s0 = _json_buffer s)
               (_extract_block matched)).
  { intros matched. unfold _extract_block. apply keeps_try_except.
    - apply keeps_bind; [apply keeps_lift | intros tool_data].
      apply keeps_bind; [apply keeps_lift | intros tool_name].
      apply keeps_bind; [apply keeps_lift | intros tool_id].
      destruct (truthy tool_name); [|apply keeps_ret].
      intros s0 [Hcost Hbuf].
      destruct (handle_tool_call_frame tool_name tool_id s0)
        as (_ & _ & _ & Hcost' & _ & _ & Hbuf' & _).
      split; congruence.
    - intros e. destruct (is_decode_error e); [apply keeps_ret | apply keeps_raise]. }
  apply (keeps_except_pass _ _ (keeps_for_each _ _ _ Hkept) s).
  split; reflexivity.
Qed.

End Extraction_properties.

(** X14, on a line with two flat objects: the first is counted, the
    second has no name and is passed over. *)
Lemma extract_tool_use_block_on_two_blocks :
  length (findall_texts tool_use_block_pattern two_blocks) = 2%nat
  /\ total_calls (exec (_extract_tool_use_block two_blocks) fresh) = 1
  /\ calls_of (KStr "Bash") (exec (_extract_tool_use_block two_blocks) fresh) = 1
  /\ sum_counts (id_format_stats (exec (_extract_tool_use_block two_blocks) fresh)) = 1.
Proof. vm_compute. repeat split; reflexivity. Qed.

(** ** Reassembly, and reading up to a stop *)

Section Reassembly.

Context {decoder : JsonDecoder}.

Lemma append_not_empty (a b : string) :
  a <> EmptyString -> String.eqb (String.append a b) EmptyString = false.
Proof. destruct a; [contradiction | reflexivity]. Qed.

(** X15. While the monitor accumulates, a line without a marker is appended to
    the buffer. When the buffer then decodes, the event is dispatched once
    and the buffer is cleared, unless the dispatch raises, in which case the
    buffer is kept; when it does not decode, the buffer is kept up to the
    ceiling of 50000 characters and dropped above it. *)
Theorem buffered_event_is_dispatched_when_complete (line : string) (s : monitor) :
  first_marker json_starts line = None ->
  _in_json_block s = true ->
  _json_buffer s <> EmptyString ->
  let text := String.append (_json_buffer s) line in
  let s1 := set_json_buffer text true s in
  (forall data,
     json_loads text = Return data ->
     exec (_process_json_buffer line) s
     = match fst (_handle_json_message data s1) with
       | Return _ => set_json_buffer EmptyString false (exec (_handle_json_message data) s1)
       | Raise _ => exec (_handle_json_message data) s1
       end)
  /\ (json_loads text = Raise JSONDecodeError ->
      exec (_process_json_buffer line) s
      = if buffer_ceiling <? PyStr.len text then set_json_buffer EmptyString false s
        else s1).
Proof.
  intros Hmarker Hblock Hbuffer text s1.
  assert (Hrun : exec (_process_json_buffer line) s = exec _try_parse_buffered_json s1).
  { unfold _process_json_buffer, exec. rewrite except_pass_run, Hmarker.
    unfold exec. rewrite bind_get. cbn beta. rewrite Hblock. reflexivity. }
  rewrite Hrun.
  assert (Htext : String.eqb (_json_buffer s1) EmptyString = false)
    by (apply append_not_empty, Hbuffer).
  split.
  - intros data Hloads.
    pose proof (handle_json_message_raises data s1) as Hraises.
    unfold _try_parse_buffered_json, try_except, loads_and_handle, exec, bind, get, lift,
      modify.
    cbn beta iota. rewrite Htext.
    change (_json_buffer s1) with text. rewrite Hloads.
    destruct (_handle_json_message data s1) as [[[]|e] s2]; cbn [fst snd].
    + reflexivity.
    + specialize (Hraises e eq_refl). unfold not_decode_error in Hraises.
      rewrite Hraises. reflexivity.
  - intros Hloads.
    unfold _try_parse_buffered_json, try_except, loads_and_handle, exec, bind, get, lift,
      modify.
    cbn beta iota. rewrite Htext.
    change (_json_buffer s1) with text. rewrite Hloads. cbn.
    destruct (buffer_ceiling <? PyStr.len text); reflexivity.
Qed.

(** X16. The loop of [read_with_monitoring] reads no line after the stop flag is
    set: the monitor it leaves has ingested exactly the lines read, the flag
    was not set when any of them was read, and it is set when the loop ends
    on it. *)
Theorem reader_reads_no_line_after_a_stop (timeout : option Z) (start_time : float)
  (rounds : list round) (exit_time : float) (output_lines : list string) (s : monitor) :
  exists lines,
    snd (fst (read_rounds timeout start_time rounds exit_time output_lines s))
    = output_lines ++ lines
    /\ snd (read_rounds timeout start_time rounds exit_time output_lines s)
       = ingested lines s
    /\ (forall k, (k < length lines)%nat ->
          should_stop (ingested (firstn k lines) s) = false)
    /\ (fst (fst (read_rounds timeout start_time rounds exit_time output_lines s))
        = MonitorStopped ->
        should_stop (ingested lines s) = true).
Proof.
  revert output_lines s.
  induction rounds as [|r rounds IH]; intros output_lines s; cbn [read_rounds].
  - exists []. rewrite app_nil_r.
    destruct (timeout_expired _ _ _); cbn [fst snd length];
      repeat split; try (intros; lia); discriminate.
  - destruct (timeout_expired timeout start_time (round_time r)).
    { exists []. rewrite app_nil_r. cbn [fst snd length].
      repeat split; try (intros; lia); discriminate. }
    destruct (should_stop s) eqn:Hstop.
    { exists []. rewrite app_nil_r. cbn [fst snd length].
      repeat split; try (intros; lia). intros _. exact Hstop. }
    destruct (round_line r) as [decoded_line|]; [|apply IH].
    destruct (should_stop (ingest (PyStr.strip decoded_line) s)) eqn:Hnext.
    + exists [decoded_line]. cbn [fst snd length].
      repeat split.
      * intros k Hk. replace k with 0%nat by lia. exact Hstop.
      * intros _. exact Hnext.
    + destruct (IH (output_lines ++ [decoded_line])
                  (ingest (PyStr.strip decoded_line) s))
        as (lines & Hout & Hs & Hfree & Hend).
      exists (decoded_line :: lines).
      rewrite Hout, Hs, <- app_assoc.
      repeat split.
      * intros [|k] Hk; [exact Hstop|].
        cbn [length] in Hk. apply (Hfree k). lia.
      * exact Hend.
Qed.

End Reassembly.

Lemma buffered_event_is_dispatched_when_complete_witness :
  exists data,
    json_loads bash_event = Return data
    /\ exec (_process_json_buffer event_tail) (ingest event_head fresh)
       = set_json_buffer EmptyString false
           (exec (_handle_json_message data)
              (set_json_buffer bash_event true (ingest event_head fresh)))
    /\ total_calls (exec (_process_json_buffer event_tail) (ingest event_head fresh)) = 1.
Proof.
  eexists. split; [vm_compute; reflexivity|].
  destruct (buffered_event_is_dispatched_when_complete (decoder := py_json)
              event_tail (ingest event_head fresh)) as [Hdone _].
  - vm_compute. reflexivity.
  - vm_compute. reflexivity.
  - vm_compute. discriminate.
  - split; [|vm_compute; reflexivity].
    rewrite (Hdone _ ltac:(vm_compute; reflexivity)). vm_compute. reflexivity.
Defined.

(** X16, under a cap of one call: the second event sets the stop flag,
    and the third line is not read. *)
Lemma reader_under_a_cap_of_one :
  let s := init None (Some 1) 10%float in
  read_rounds None 0 three_event_rounds 4 [] s
  = (MonitorStopped, [event_line; event_line], ingested [event_line; event_line] s)
  /\ total_calls (ingested [event_line; event_line] s) = 1
  /\ fst (read_with_monitoring None 0 three_event_rounds 4 (Some event_line) s)
     = Output (String.append event_line (String.append event_line event_line))
  /\ sum_counts
       (id_format_stats
          (snd (read_with_monitoring None 0 three_event_rounds 4 (Some event_line) s)))
     = 3.
Proof. vm_compute. repeat split; reflexivity. Qed.

(** ** The cost cap *)

Lemma under_cost_cap_pipeline : pipeline_invariant under_cost_cap.
Proof.
  split; [split; [split|]|].
  - intros v s H. exact H.
  - intros v s H. exact H.
  - intros cost s H. unfold add_cost, under_cost_cap.
    destruct (PrimFloat.leb _ _) eqn:Hcap; [discriminate|].
    intros _. right. exact Hcap.
  - intros tool_name tool_id s H. unfold exec.
    destruct (handle_tool_call_result tool_name tool_id s);
      cbn [snd]; unfold under_cost_cap in *; try discriminate; exact H.
  - intros text flag s H. exact H.
Qed.

(** X17. In every reachable state a monitor whose stop flag is not set has
    recorded no cost at all, or a cost that its cost cap does not reach:
    [current_cost_usd >= max_cost_usd] is false. *)
Theorem unstopped_monitor_is_under_its_cost_cap {decoder : JsonDecoder} (s : monitor) :
  reachable s ->
  should_stop s = false ->
  current_cost_usd s = 0%float
  \/ PrimFloat.leb (max_cost_usd s) (current_cost_usd s) = false.
Proof.
  intros (limits & max_total & max_cost & ops & ->).
  apply (run_keeps_pipeline under_cost_cap).
  - exact under_cost_cap_pipeline.
  - intros _ s' H. exact H.
  - intros _ cb s' H. exact H.
  - intros _. left. reflexivity.
Qed.

Lemma unstopped_monitor_is_under_its_cost_cap_witness :
  PrimFloat.leb (max_cost_usd (run light_usage_run fresh))
    (current_cost_usd (run light_usage_run fresh)) = false
  /\ PrimFloat.ltb 0 (current_cost_usd (run light_usage_run fresh)) = true.
Proof.
  destruct (unstopped_monitor_is_under_its_cost_cap (decoder := py_json)
              (run light_usage_run fresh)) as [Hzero|Hunder].
  - exists None, None, 10%float, light_usage_run. reflexivity.
  - vm_compute. reflexivity.
  - vm_compute in Hzero. discriminate.
  - split; [exact Hunder | vm_compute; reflexivity].
Defined.
